(** * Task/User REST API: a shallow embedding of the route handlers

    The development follows [routes/tasks.js] and [routes/users.js].
    Each Express handler becomes a function from a request and a
    database to a response and a database.  Handlers are written in a small
    monad whose three outcomes are: a value, an early [return res...]
    and a thrown exception (a rejected promise under [await]).

    Conventions of the model.
    - JavaScript strings are [string]s: a character stands for the code
      unit of the same number, so that the strings of the model are those
      whose code units are below 256.
    - JavaScript numbers are doubles; the ones the handlers meet are
      integers, infinities and NaN ([JS.number]).
    - A body or query field that holds a string or is missing is an
      [option string]; [None] is [undefined].
    - The collections are lists of documents in insertion order.
    - The Mongoose schemas ([models/task.js], [models/user.js]) are not part
      of the sources at hand; the document records below are modelled from
      the data model of the specification. *)

From Stdlib Require Import String Ascii List ZArith NArith Bool Lia.
From Stdlib Require Import DecimalString.
Import ListNotations.
Local Open Scope string_scope.
Local Open Scope Z_scope.

Set Warnings "-register-all".

(* ===================================================================== *)
(** ** JavaScript primitives used by the handlers *)
(* ===================================================================== *)

Module JS.

(** Truthiness of a string-or-undefined: [undefined] and [''] are falsy. *)
Definition truthy (v : option string) : bool :=
  match v with
  | None => false
  | Some s => negb (s =? "")%string
  end.

(** [v || d] for a string-or-undefined [v] and a string [d]. *)
Definition or_else (v : option string) (d : string) : string :=
  match v with
  | Some s => if (s =? "")%string then d else s
  | None => d
  end.

(** Truthiness of a plain string. *)
Definition truthy_str (s : string) : bool := negb (s =? "")%string.

(** *** Numbers *)

(** A number, as far as the handlers meet one: [NaN], a double that is
    an integer ([Finite z], with [z] its exact value; [Finite 0] is [+0]),
    the negative zero, or an infinity. *)
Inductive number : Type :=
| NaN
| Finite (z : Z)
| NegZero
| Infinite (negative : bool).

(** The double nearest to an integer, ties to the even significand of 53
    bits; an infinity from [2^1024 - 2^970] on. *)
Definition toNumber (z : Z) : number :=
  let a := Z.abs z in
  if a <? 2 ^ 53 then Finite z
  else
    let e := Z.log2 a - 52 in
    let q := Z.shiftr a e in
    let r := a - Z.shiftl q e in
    let half := Z.shiftl 1 (e - 1) in
    let q' := if (half <? r) || ((r =? half) && Z.odd q) then q + 1 else q in
    let v := Z.shiftl q' e in
    if 2 ^ 1024 <=? v then Infinite (z <? 0)
    else Finite (if z <? 0 then - v else v).

(** The decimal numeral of a natural number. *)
Definition numeral (a : Z) : string := NilZero.string_of_int (Z.to_int a).

Definition roundsTo (d c : Z) : bool :=
  match toNumber c with
  | Finite v => v =? d
  | _ => false
  end.

(** Among the multiples of [10^x] next to [d], the one that is read back
    as the double [d]; of two, the nearer, and of two equally near the one
    with the even digits. *)
Definition candidate (d x : Z) : option Z :=
  let p := 10 ^ x in
  let lo := (d / p) * p in
  let hi := lo + p in
  match roundsTo d lo, roundsTo d hi with
  | true, true =>
      if d - lo <? hi - d then Some lo
      else if hi - d <? d - lo then Some hi
      else if Z.even (d / p) then Some lo else Some hi
  | true, false => Some lo
  | false, true => Some hi
  | false, false => None
  end.

Fixpoint shortestFrom (fuel : nat) (d x : Z) : Z :=
  match fuel with
  | O => d
  | S fuel' =>
      if x <=? 0 then d
      else match candidate d x with
           | Some v => v
           | None => shortestFrom fuel' d (x - 1)
           end
  end.

(** The integer with the fewest significant digits that is read back as
    the double [d > 0]; 17 digits always do. *)
Definition shortest (d : Z) : Z :=
  shortestFrom 17 d (Z.of_nat (String.length (numeral d)) - 1).

Fixpoint dropZeros (rev_digits : list ascii) : list ascii :=
  match rev_digits with
  | c :: r => if (N_of_ascii c =? 48)%N then dropZeros r else rev_digits
  | [] => []
  end.

(** The text of a positive integer [v] with [n] digits of which the last
    significant one is the [k]th: plain up to 21 digits, and with an
    exponent beyond. *)
Definition textOf (v : Z) : string :=
  if v <? 10 ^ 21 then numeral v
  else
    let ds := list_ascii_of_string (numeral v) in
    let n := Z.of_nat (List.length ds) in
    let e := ("e+" ++ numeral (n - 1))%string in
    match rev (dropZeros (rev ds)) with
    | [] => numeral v
    | [d1] => String d1 e
    | d1 :: more =>
        String d1 (String "." (string_of_list_ascii more ++ e))%string
    end.

(** [Number::toString], radix 10, for the numbers of the model. *)
Definition numberToString (n : number) : string :=
  match n with
  | NaN => "NaN"
  | NegZero => "0"
  | Infinite true => "-Infinity"
  | Infinite false => "Infinity"
  | Finite z =>
      if z =? 0 then "0"
      else if z <? 0 then ("-" ++ textOf (shortest (- z)))%string
      else textOf (shortest z)
  end.

(** Values of the body fields whose type the handlers inspect
    ([completed], [deadline]).  The numbers of a body are taken to be
    integers: [Num z] is the double that the integer literal [z] is read
    as, [toNumber z]. *)
Inductive value : Type :=
| Undefined
| Bool (b : bool)
| Num (z : Z)
| Str (s : string).

Definition truthy_value (v : value) : bool :=
  match v with
  | Undefined => false
  | Bool b => b
  | Num z => negb (z =? 0)
  | Str s => truthy_str s
  end.

(** [v === 'true' || v === true] *)
Definition is_true (v : value) : bool :=
  match v with
  | Str s => (s =? "true")%string
  | Bool b => b
  | _ => false
  end.

(** [String(v)], as [parseInt] turns its argument into a string and as
    Mongoose casts a scalar to a [String] path. *)
Definition toString (v : value) : string :=
  match v with
  | Undefined => "undefined"
  | Bool true => "true"
  | Bool false => "false"
  | Num z => numberToString (toNumber z)
  | Str s => s
  end.

(** *** parseInt *)

Definition code (c : ascii) : N := N_of_ascii c.

(** White space skipped by [parseInt], among the code units below 256:
    TAB, LF, VT, FF, CR, SP and the no-break space. *)
Definition isWhiteSpace (c : ascii) : bool :=
  let n := code c in
  ((9 <=? n) && (n <=? 13))%N || (n =? 32)%N || (n =? 160)%N.

Fixpoint trimStart (cs : list ascii) : list ascii :=
  match cs with
  | c :: r => if isWhiteSpace c then trimStart r else cs
  | [] => []
  end.

(** Value of a character as a digit, up to base 16. *)
Definition digitValue (c : ascii) : option Z :=
  let n := code c in
  if ((48 <=? n) && (n <=? 57))%N then Some (Z.of_N n - 48)
  else if ((97 <=? n) && (n <=? 102))%N then Some (Z.of_N n - 87)
  else if ((65 <=? n) && (n <=? 70))%N then Some (Z.of_N n - 55)
  else None.

Definition digitIn (radix : Z) (c : ascii) : option Z :=
  match digitValue c with
  | Some d => if d <? radix then Some d else None
  | None => None
  end.

(** Longest prefix of digits of the radix, accumulated left to right.
    [None] when there is no digit at all. *)
Fixpoint digits (radix : Z) (cs : list ascii) (acc : option Z) : option Z :=
  match cs with
  | c :: r =>
      match digitIn radix c with
      | Some d =>
          digits radix r
            (Some (match acc with Some a => a * radix + d | None => d end))
      | None => acc
      end
  | [] => acc
  end.

Definition isX (c : ascii) : bool := ((code c =? 120) || (code c =? 88))%N.

(** [parseInt(s)] with no radix argument: white space, a sign, [0x] for
    base 16, then the longest run of digits; what follows is ignored.  The
    integer read is returned as a double. *)
Definition parseInt (s : string) : number :=
  let cs := trimStart (list_ascii_of_string s) in
  let '(sign, cs) :=
    match cs with
    | c :: r =>
        if (code c =? 45)%N then (-1, r)
        else if (code c =? 43)%N then (1, r)
        else (1, cs)
    | [] => (1, cs)
    end in
  let '(radix, cs) :=
    match cs with
    | z :: x :: r =>
        if ((code z =? 48)%N && isX x)%bool then (16, r) else (10, cs)
    | _ => (10, cs)
    end in
  match digits radix cs None with
  | Some m => if (m =? 0) && (sign =? -1) then NegZero
              else toNumber (sign * m)
  | None => NaN
  end.

(** [parseInt] of a body value: the value is first turned into a string
    (a number of 1e21 or more into one with an exponent, of which
    [parseInt] reads the first digit). *)
Definition parseInt_value (v : value) : number := parseInt (toString v).

(** [isNaN(x)] where [x] is [undefined] ([None]) or a number: both
    [undefined] and [NaN] answer [true]. *)
Definition isNaN (x : option number) : bool :=
  match x with
  | None | Some NaN => true
  | Some _ => false
  end.

(** [new Date(n)]: the time value is kept when it is within
    8.64e15 ms of the epoch; otherwise the date is invalid. *)
Definition newDate (n : number) : option Z :=
  match n with
  | Finite z => if Z.abs z <=? 8640000000000000 then Some z else None
  | NegZero => Some 0
  | NaN | Infinite _ => None
  end.

End JS.

(* ===================================================================== *)
(** ** JSON.parse *)
(* ===================================================================== *)

Module JSON.

(** A number is kept as it is written, by mantissa and decimal exponent,
    and stands for the double nearest to [mantissa * 10^exponent]; a string
    is kept as its sequence of code units. *)
Inductive json : Type :=
| JNull
| JBool (b : bool)
| JNumber (mantissa exponent : Z)
| JString (units : list N)
| JArray (items : list json)
| JObject (members : list (list N * json)).

Definition code (c : ascii) : N := N_of_ascii c.

(** JSON white space: space, TAB, LF, CR. *)
Definition isWs (c : ascii) : bool :=
  let n := code c in ((n =? 32) || (n =? 9) || (n =? 10) || (n =? 13))%N.

Fixpoint skipWs (cs : list ascii) : list ascii :=
  match cs with
  | c :: r => if isWs c then skipWs r else cs
  | [] => []
  end.

Definition isDigit (c : ascii) : bool :=
  let n := code c in ((48 <=? n) && (n <=? 57))%N.

Definition digitOf (c : ascii) : Z := Z.of_N (code c) - 48.

(** Reads a (possibly empty) run of decimal digits: the accumulated
    value, how many digits were read, and the rest. *)
Fixpoint readDigits (cs : list ascii) (acc : Z) (n : Z)
  : Z * Z * list ascii :=
  match cs with
  | c :: r =>
      if isDigit c then readDigits r (acc * 10 + digitOf c) (n + 1)
      else (acc, n, cs)
  | [] => (acc, n, [])
  end.

(** The text of a literal, as a prefix to be matched. *)
Fixpoint expect (lit cs : list ascii) : option (list ascii) :=
  match lit, cs with
  | [], _ => Some cs
  | l :: lit', c :: r => if Ascii.eqb l c then expect lit' r else None
  | _ :: _, [] => None
  end.

(** number = [-] int [frac] [exp] *)
Definition parseNumber (cs : list ascii) : option (json * list ascii) :=
  let '(sign, cs) :=
    match cs with
    | c :: r => if (code c =? 45)%N then (-1, r) else (1, cs)
    | [] => (1, cs)
    end in
  match cs with
  | c :: r =>
      if isDigit c then
        (* a leading zero stands alone *)
        let '(ip, cs1) :=
          if (code c =? 48)%N then (0, r)
          else let '(v, _, r') := readDigits cs 0 0 in (v, r') in
        (* fraction *)
        let frac :=
          match cs1 with
          | d :: r1 =>
              if (code d =? 46)%N then
                let '(v, n, r2) := readDigits r1 ip 0 in
                if n =? 0 then None else Some (v, n, r2)
              else Some (ip, 0, cs1)
          | [] => Some (ip, 0, cs1)
          end in
        match frac with
        | None => None
        | Some (m, fd, cs2) =>
            match cs2 with
            | e :: r2 =>
                if ((code e =? 101) || (code e =? 69))%N then
                  let '(esign, r3) :=
                    match r2 with
                    | s :: r3 =>
                        if (code s =? 45)%N then (-1, r3)
                        else if (code s =? 43)%N then (1, r3)
                        else (1, r2)
                    | [] => (1, r2)
                    end in
                  let '(ev, en, r4) := readDigits r3 0 0 in
                  if en =? 0 then None
                  else Some (JNumber (sign * m) (esign * ev - fd), r4)
                else Some (JNumber (sign * m) (- fd), cs2)
            | [] => Some (JNumber (sign * m) (- fd), cs2)
            end
        end
      else None
  | [] => None
  end.

Definition hexValue (c : ascii) : option N :=
  let n := code c in
  if ((48 <=? n) && (n <=? 57))%N then Some (n - 48)%N
  else if ((97 <=? n) && (n <=? 102))%N then Some (n - 87)%N
  else if ((65 <=? n) && (n <=? 70))%N then Some (n - 55)%N
  else None.

(** The character after a backslash, for the one-letter escapes. *)
Definition escapeOf (c : ascii) : option N :=
  let n := code c in
  if (n =? 34)%N then Some 34%N          (* quote *)
  else if (n =? 92)%N then Some 92%N     (* backslash *)
  else if (n =? 47)%N then Some 47%N     (* slash *)
  else if (n =? 98)%N then Some 8%N      (* b: backspace *)
  else if (n =? 102)%N then Some 12%N    (* f: form feed *)
  else if (n =? 110)%N then Some 10%N    (* n: line feed *)
  else if (n =? 114)%N then Some 13%N    (* r: carriage return *)
  else if (n =? 116)%N then Some 9%N     (* t: tab *)
  else None.

(** The body of a string, after its opening quote.  Control characters
    are refused; the result is in reverse in [acc]. *)
Fixpoint parseChars (cs : list ascii) (acc : list N)
  : option (list N * list ascii) :=
  match cs with
  | [] => None
  | c :: r =>
      let n := code c in
      if (n =? 34)%N then Some (rev acc, r)
      else if (n <? 32)%N then None
      else if (n =? 92)%N then
        match r with
        | e :: r1 =>
            if (code e =? 117)%N then
              match r1 with
              | a :: b :: c' :: d :: r2 =>
                  match hexValue a, hexValue b, hexValue c', hexValue d with
                  | Some x1, Some x2, Some x3, Some x4 =>
                      parseChars r2
                        ((((x1 * 16 + x2) * 16 + x3) * 16 + x4)%N :: acc)
                  | _, _, _, _ => None
                  end
              | _ => None
              end
            else
              match escapeOf e with
              | Some u => parseChars r1 (u :: acc)
              | None => None
              end
        | [] => None
        end
      else parseChars r (n :: acc)
  end.

Definition lit_null := list_ascii_of_string "null".
Definition lit_true := list_ascii_of_string "true".
Definition lit_false := list_ascii_of_string "false".

(** Recursive descent; every call consumes fuel, and a text of [n]
    characters is given [2 * n + 2]. *)
Fixpoint parseValue (fuel : nat) (cs : list ascii) {struct fuel}
  : option (json * list ascii) :=
  match fuel with
  | O => None
  | S fuel' =>
      match skipWs cs with
      | [] => None
      | c :: r =>
          let n := code c in
          if (n =? 110)%N then
            option_map (fun r' => (JNull, r')) (expect lit_null (c :: r))
          else if (n =? 116)%N then
            option_map (fun r' => (JBool true, r')) (expect lit_true (c :: r))
          else if (n =? 102)%N then
            option_map (fun r' => (JBool false, r')) (expect lit_false (c :: r))
          else if (n =? 34)%N then
            option_map (fun '(s, r') => (JString s, r')) (parseChars r [])
          else if (n =? 91)%N then
            match skipWs r with
            | c1 :: r1 =>
                if (code c1 =? 93)%N then Some (JArray [], r1)
                else option_map (fun '(l, r') => (JArray l, r'))
                                (parseItems fuel' (c1 :: r1) [])
            | [] => None
            end
          else if (n =? 123)%N then
            match skipWs r with
            | c1 :: r1 =>
                if (code c1 =? 125)%N then Some (JObject [], r1)
                else option_map (fun '(l, r') => (JObject l, r'))
                                (parseMembers fuel' (c1 :: r1) [])
            | [] => None
            end
          else parseNumber (c :: r)
      end
  end

with parseItems (fuel : nat) (cs : list ascii) (acc : list json)
       {struct fuel} : option (list json * list ascii) :=
  match fuel with
  | O => None
  | S fuel' =>
      match parseValue fuel' cs with
      | Some (v, r) =>
          match skipWs r with
          | c :: r1 =>
              if (code c =? 44)%N then parseItems fuel' r1 (v :: acc)
              else if (code c =? 93)%N then Some (rev (v :: acc), r1)
              else None
          | [] => None
          end
      | None => None
      end
  end

with parseMembers (fuel : nat) (cs : list ascii)
       (acc : list (list N * json))
       {struct fuel} : option (list (list N * json) * list ascii) :=
  match fuel with
  | O => None
  | S fuel' =>
      match skipWs cs with
      | q :: r =>
          if (code q =? 34)%N then
            match parseChars r [] with
            | Some (k, r1) =>
                match skipWs r1 with
                | c :: r2 =>
                    if (code c =? 58)%N then
                      match parseValue fuel' r2 with
                      | Some (v, r3) =>
                          match skipWs r3 with
                          | d :: r4 =>
                              if (code d =? 44)%N
                              then parseMembers fuel' r4 ((k, v) :: acc)
                              else if (code d =? 125)%N
                              then Some (rev ((k, v) :: acc), r4)
                              else None
                          | [] => None
                          end
                      | None => None
                      end
                    else None
                | [] => None
                end
            | None => None
            end
          else None
      | [] => None
      end
  end.

(** [JSON.parse(s)]; [None] when it throws a [SyntaxError]. *)
Definition parse (s : string) : option json :=
  let cs := list_ascii_of_string s in
  match parseValue (2 * List.length cs + 2) cs with
  | Some (v, r) =>
      match skipWs r with
      | [] => Some v
      | _ :: _ => None
      end
  | None => None
  end.

(** Whether the double that [m * 10^e] is read as is a zero: the nearest
    double is [0] up to [2^-1075], the middle of [0] and the least
    positive double. *)
Definition isZero (m e : Z) : bool :=
  (m =? 0) || ((e <? 0) && (Z.abs m * 2 ^ 1075 <=? 10 ^ (- e))).

(** Truthiness of a parsed value. *)
Definition truthy (j : json) : bool :=
  match j with
  | JNull => false
  | JBool b => b
  | JNumber m e => negb (isZero m e)
  | JString s => match s with [] => false | _ => true end
  | JArray _ | JObject _ => true
  end.

End JSON.

(* ===================================================================== *)
(** ** ObjectId *)
(* ===================================================================== *)

(** Identifiers reach the handlers as strings.  Mongoose's
    [ObjectId.isValid] accepts a string of 12 characters or of 24
    hexadecimal digits; casting such a string yields the ObjectId whose
    [toString()] is 24 lower-case hexadecimal digits.  Stored [_id]s are
    kept in that form. *)
Module ObjectId.

Definition code (c : ascii) : N := N_of_ascii c.

Definition isHex (c : ascii) : bool :=
  let n := code c in
  (((48 <=? n) && (n <=? 57)) || ((97 <=? n) && (n <=? 102))
   || ((65 <=? n) && (n <=? 70)))%N.

Definition toLower (c : ascii) : ascii :=
  let n := code c in
  if ((65 <=? n) && (n <=? 90))%N then ascii_of_N (n + 32) else c.

Definition hexDigit (n : N) : ascii :=
  if (n <? 10)%N then ascii_of_N (48 + n) else ascii_of_N (87 + n).

Definition hexOfByte (c : ascii) : list ascii :=
  let n := code c in [hexDigit (n / 16); hexDigit (n mod 16)].

Definition isValid (s : string) : bool :=
  let cs := list_ascii_of_string s in
  (List.length cs =? 12)%nat
  || ((List.length cs =? 24)%nat && forallb isHex cs).

(** [new ObjectId(s).toString()], or [None] where the cast throws. *)
Definition cast (s : string) : option string :=
  let cs := list_ascii_of_string s in
  if ((List.length cs =? 24)%nat && forallb isHex cs)%bool
  then Some (string_of_list_ascii (map toLower cs))
  else if (List.length cs =? 12)%nat
  then Some (string_of_list_ascii (flat_map hexOfByte cs))
  else None.

(** Casting every element of an array, as for [{ $in: ids }]. *)
Fixpoint castAll (ids : list string) : option (list string) :=
  match ids with
  | [] => Some []
  | i :: r =>
      match cast i, castAll r with
      | Some c, Some cr => Some (c :: cr)
      | _, _ => None
      end
  end.

(** The 24 digits of a counter: the identifier generated for the
    [n]-th document. *)
Fixpoint hexDigits (k : nat) (n : N) (acc : list ascii) : list ascii :=
  match k with
  | O => acc
  | S k' => hexDigits k' (n / 16) (hexDigit (n mod 16) :: acc)
  end.

Definition generate (n : N) : string :=
  string_of_list_ascii (hexDigits 24 n []).

End ObjectId.

(** Membership of a string in an array ([indexOf(x) !== -1], [$in]). *)
Definition mem (x : string) (l : list string) : bool :=
  existsb (String.eqb x) l.

(* ===================================================================== *)
(** ** Documents, database, responses *)
(* ===================================================================== *)

(** Modelled from the spec: the Task document of [models/task.js]
    (section 3 of the specification). *)
Record Task : Type := mkTask {
  task_id : string;
  task_name : string;
  task_description : string;
  task_deadline : Z;
  task_completed : bool;
  task_assignedUser : string;
  task_assignedUserName : string
}.

(** Modelled from the spec: the User document of [models/user.js]
    (section 3 of the specification). *)
Record User : Type := mkUser {
  user_id : string;
  user_name : string;
  user_email : string;
  user_pendingTasks : list string;
  user_dateCreated : Z
}.

(** The two collections, the counter from which identifiers are
    generated, and the clock read for [dateCreated]. *)
Record DB : Type := mkDB {
  tasks : list Task;
  users : list User;
  nextId : N;
  now : Z
}.

Definition set_tasks (db : DB) (l : list Task) : DB :=
  mkDB l (users db) (nextId db) (now db).

Definition set_users (db : DB) (l : list User) : DB :=
  mkDB (tasks db) l (nextId db) (now db).

(** What a storage call can throw. *)
Inductive error : Type :=
| CastError (value : string)
| ValidationError (path : string).

(** The [data] member of the response envelope. *)
Inductive data : Type :=
| DEmpty                                   (* {} *)
| DNoBody                                  (* send() with no body *)
| DTask (select : option JSON.json) (t : Task)
| DUser (select : option JSON.json) (u : User)
| DIds (ids : list string)
| DId (id : string)
| DMismatch (provided actual : string)
| DError (e : error).

Record response : Type := mkResponse {
  status : Z;
  message : string;
  body : data
}.

(* ===================================================================== *)
(** ** The handler monad *)
(* ===================================================================== *)

Inductive outcome (A : Type) : Type :=
| Val (a : A)              (* the computation goes on with [a] *)
| Done (r : response)      (* [return res.status(..).json(..)] *)
| Err (e : error).         (* an exception, or a rejected promise *)

Arguments Val {A} a.
Arguments Done {A} r.
Arguments Err {A} e.

Definition M (A : Type) : Type := DB -> outcome A * DB.

Definition ret {A} (a : A) : M A := fun db => (Val a, db).

Definition bind {A B} (m : M A) (f : A -> M B) : M B :=
  fun db =>
    match m db with
    | (Val a, db') => f a db'
    | (Done r, db') => (Done r, db')
    | (Err e, db') => (Err e, db')
    end.

Definition respond {A} (r : response) : M A := fun db => (Done r, db).
Definition throw {A} (e : error) : M A := fun db => (Err e, db).
Definition get : M DB := fun db => (Val db, db).
Definition put (db : DB) : M unit := fun _ => (Val tt, db).

(** [try { m } catch (e) { h e }] *)
Definition try_catch {A} (m : M A) (h : error -> M A) : M A :=
  fun db =>
    match m db with
    | (Err e, db') => h e db'
    | other => other
    end.

(** [if (c) { m }] for a statement [m]. *)
Definition when (c : bool) (m : M unit) : M unit :=
  if c then m else ret tt.

Declare Scope handler_scope.
Delimit Scope handler_scope with handler.
Notation "x <- m ;; k" := (bind m (fun x => k))
  (at level 61, m at next level, right associativity) : handler_scope.
Notation "m ;; k" := (bind m (fun _ => k))
  (at level 61, right associativity) : handler_scope.
Local Open Scope handler_scope.

Definition json (code : Z) (msg : string) (d : data) : response :=
  mkResponse code msg d.

(** An [async function (req, res) { try { .. } catch (err) { 500 } }]:
    the response it sends and the database it leaves. *)
Definition run (m : M response) (db : DB) : response * DB :=
  match m db with
  | (Val r, db') => (r, db')
  | (Done r, db') => (r, db')
  | (Err e, db') => (json 500 "Server error" (DError e), db')
  end.

(* ===================================================================== *)
(** ** The Mongoose calls the handlers make *)
(* ===================================================================== *)

Section Collections.
Variable A : Type.

(** [updateOne]: the first document that matches is changed. *)
Fixpoint updateFirst (p : A -> bool) (f : A -> A) (l : list A) : list A :=
  match l with
  | [] => []
  | x :: r => if p x then f x :: r else x :: updateFirst p f r
  end.

(** [deleteOne]: the first document that matches is removed. *)
Fixpoint deleteFirst (p : A -> bool) (l : list A) : list A :=
  match l with
  | [] => []
  | x :: r => if p x then r else x :: deleteFirst p r
  end.
End Collections.

Arguments updateFirst {A} p f l.
Arguments deleteFirst {A} p l.

Definition castId (id : string) : M string :=
  match ObjectId.cast id with
  | Some c => ret c
  | None => throw (CastError id)
  end.

(** The first element of [ids] that does not cast, for the error. *)
Definition firstUncastable (ids : list string) : string :=
  match find (fun i => match ObjectId.cast i with
                       | None => true | Some _ => false end) ids with
  | Some i => i
  | None => ""
  end.

Definition castIds (ids : list string) : M (list string) :=
  match ObjectId.castAll ids with
  | Some cs => ret cs
  | None => throw (CastError (firstUncastable ids))
  end.

Definition hasId_task (c : string) (t : Task) : bool := (task_id t =? c)%string.
Definition hasId_user (c : string) (u : User) : bool := (user_id u =? c)%string.

(** [Task.findById(id)] *)
Definition Task_findById (id : string) : M (option Task) :=
  c <- castId id ;;
  db <- get ;;
  ret (find (hasId_task c) (tasks db)).

(** [User.findById(id)] *)
Definition User_findById (id : string) : M (option User) :=
  c <- castId id ;;
  db <- get ;;
  ret (find (hasId_user c) (users db)).

(** [User.findOne({ email: email })] *)
Definition User_findOne_email (email : string) : M (option User) :=
  db <- get ;;
  ret (find (fun u => (user_email u =? email)%string) (users db)).

(** [User.findOne({ email: email, _id: { $ne: id } })] *)
Definition User_findOne_email_ne (email id : string) : M (option User) :=
  c <- castId id ;;
  db <- get ;;
  ret (find (fun u => (user_email u =? email)%string && negb (hasId_user c u))
            (users db)).

(** [Task.find({ _id: { $in: ids } }).select('_id completed')] *)
Definition Task_find_in (ids : list string) : M (list Task) :=
  cs <- castIds ids ;;
  db <- get ;;
  ret (filter (fun t => mem (task_id t) cs) (tasks db)).

Definition assign (au aun : string) (t : Task) : Task :=
  mkTask (task_id t) (task_name t) (task_description t) (task_deadline t)
         (task_completed t) au aun.

(** The collection after every task whose [_id] is among [cs] was given
    [assignedUser: au, assignedUserName: aun]. *)
Definition reassign (cs : list string) (au aun : string) (ts : list Task)
  : list Task :=
  map (fun t => if mem (task_id t) cs then assign au aun t else t) ts.

(** [Task.updateMany({ _id: { $in: ids } },
                     { assignedUser: au, assignedUserName: aun })] *)
Definition Task_updateMany_in (ids : list string) (au aun : string) : M unit :=
  cs <- castIds ids ;;
  db <- get ;;
  put (set_tasks db (reassign cs au aun (tasks db))).

Definition set_pending (u : User) (l : list string) : User :=
  mkUser (user_id u) (user_name u) (user_email u) l (user_dateCreated u).

(** [{ $pull: { pendingTasks: { $in: ids } } }] *)
Definition pullAll (ids : list string) (u : User) : User :=
  set_pending u (filter (fun p => negb (mem p ids)) (user_pendingTasks u)).

(** The collection after the ids [ids] were pulled from the
    [pendingTasks] of every user other than [c] that holds one of them. *)
Definition pullOthers (c : string) (ids : list string) (us : list User)
  : list User :=
  map (fun u =>
         if negb (hasId_user c u)
            && existsb (fun p => mem p ids) (user_pendingTasks u)
         then pullAll ids u else u) us.

(** [User.updateMany({ _id: { $ne: id }, pendingTasks: { $in: ids } },
                     { $pull: { pendingTasks: { $in: ids } } })] *)
Definition User_updateMany_pull (id : string) (ids : list string) : M unit :=
  c <- castId id ;;
  db <- get ;;
  put (set_users db (pullOthers c ids (users db))).

(** [User.updateOne({ _id: userId, pendingTasks: { $ne: taskId } },
                    { $push: { pendingTasks: taskId } })] *)
Definition User_updateOne_push (userId taskId : string) : M unit :=
  c <- castId userId ;;
  db <- get ;;
  put (set_users db
         (updateFirst
            (fun u => hasId_user c u && negb (mem taskId (user_pendingTasks u)))
            (fun u => set_pending u (user_pendingTasks u ++ [taskId]))
            (users db))).

(** [User.updateOne({ _id: userId }, { $pull: { pendingTasks: taskId } })] *)
Definition User_updateOne_pull (userId taskId : string) : M unit :=
  c <- castId userId ;;
  db <- get ;;
  put (set_users db
         (updateFirst (hasId_user c) (pullAll [taskId]) (users db))).

(** A new document takes the next identifier. *)
Definition newId : M string :=
  db <- get ;;
  put (mkDB (tasks db) (users db) (nextId db + 1) (now db)) ;;
  ret (ObjectId.generate (nextId db)).

(** [new Task({..}).save()]: the document is validated, then inserted.
    An invalid date does not cast to the [deadline] path. *)
Definition Task_create (name description : string) (deadline : option Z)
    (completed : bool) (assignedUser assignedUserName : string) : M Task :=
  id <- newId ;;
  match deadline with
  | None => throw (ValidationError "deadline")
  | Some dl =>
      let t := mkTask id name description dl completed
                      assignedUser assignedUserName in
      db <- get ;;
      put (set_tasks db (tasks db ++ [t])) ;;
      ret t
  end.

(** [task.save()] for a loaded document whose fields were assigned. *)
Definition Task_save (task : Task) (name description : string)
    (deadline : option Z) (completed : bool)
    (assignedUser assignedUserName : string) : M Task :=
  match deadline with
  | None => throw (ValidationError "deadline")
  | Some dl =>
      let t := mkTask (task_id task) name description dl completed
                      assignedUser assignedUserName in
      db <- get ;;
      put (set_tasks db
             (updateFirst (hasId_task (task_id task)) (fun _ => t) (tasks db))) ;;
      ret t
  end.

(** [Task.deleteOne({ _id: id })] *)
Definition Task_deleteOne (id : string) : M unit :=
  c <- castId id ;;
  db <- get ;;
  put (set_tasks db (deleteFirst (hasId_task c) (tasks db))).

(** [new User({..}).save()]; [dateCreated] defaults to the current time. *)
Definition User_create (name email : string) (pendingTasks : list string)
  : M User :=
  id <- newId ;;
  db <- get ;;
  let u := mkUser id name email pendingTasks (now db) in
  put (set_users db (users db ++ [u])) ;;
  ret u.

(** [user.save()] for a loaded document whose fields were assigned. *)
Definition User_save (user : User) (name email : string)
    (pendingTasks : list string) : M User :=
  let u := mkUser (user_id user) name email pendingTasks
                  (user_dateCreated user) in
  db <- get ;;
  put (set_users db
         (updateFirst (hasId_user (user_id user)) (fun _ => u) (users db))) ;;
  ret u.

(** [User.deleteOne({ _id: id })] *)
Definition User_deleteOne (id : string) : M unit :=
  c <- castId id ;;
  db <- get ;;
  put (set_users db (deleteFirst (hasId_user c) (users db))).

(* ===================================================================== *)
(** ** Requests *)
(* ===================================================================== *)

(** [req.query] of the list and get-by-id routes. *)
Record Params : Type := mkParams {
  rq_where : option string;
  rq_sort : option string;
  rq_select : option string;
  rq_filter : option string;
  rq_skip : option string;
  rq_limit : option string;
  rq_count : option string
}.

Definition noParams : Params :=
  mkParams None None None None None None None.

(** [req.body] of POST and PUT on /api/tasks. *)
Record TaskBody : Type := mkTaskBody {
  tb_name : option string;
  tb_description : option string;
  tb_deadline : JS.value;
  tb_completed : JS.value;
  tb_assignedUser : option string;
  tb_assignedUserName : option string
}.

(** The [pendingTasks] member of a user body: an array of strings, or
    anything else ([Undefined] when it is missing). *)
Inductive pendingField : Type :=
| IsArray (l : list string)
| NotArray (v : JS.value).

(** [req.body] of POST and PUT on /api/users. *)
Record UserBody : Type := mkUserBody {
  ub_name : option string;
  ub_email : option string;
  ub_pendingTasks : pendingField
}.

(* ===================================================================== *)
(** ** Query parameters (both route files) *)
(* ===================================================================== *)

(** What [parseJSONParam] returns: [undefined], or a JSON value, [null]
    among them. *)
Inductive parsed : Type :=
| PUndefined
| PJson (j : JSON.json).

Definition parseJSONParam (param : option string) : parsed :=
  match param with
  | None => PUndefined
  | Some s =>
      if negb (JS.truthy_str s) then PUndefined
      else match JSON.parse s with
           | Some j => PJson j
           | None => PJson JSON.JNull
           end
  end.

(** [x === null] *)
Definition isNull (x : parsed) : bool :=
  match x with
  | PJson JSON.JNull => true
  | _ => false
  end.

Definition truthy_parsed (x : parsed) : bool :=
  match x with
  | PUndefined => false
  | PJson j => JSON.truthy j
  end.

(** [a || b] *)
Definition or_parsed (a b : parsed) : parsed :=
  if truthy_parsed a then a else b.

(** The query a list handler has built: the argument of [find], and the
    arguments of the calls of [select], [sort], [skip] and [limit] it has
    made on the query ([None] where it has made none). *)
Record Query : Type := mkQuery {
  q_filter : JSON.json;
  q_select : option JSON.json;
  q_sort : option JSON.json;
  q_skip : option JS.number;
  q_limit : option JS.number
}.

(** What a list handler does: it answers at once; or it builds a query,
    by [find] and then the calls of [select], [sort], [skip] and [limit]
    in this order, and goes on either to call [countDocuments] on a
    filter, leaving the query it built aside, or to execute the query.
    What Mongoose makes of these calls (an exception of one of them, the
    documents found, an error) and the answer that follows are not part of
    the model. *)
Inductive listing : Type :=
| Answer (r : response)
| CountDocuments (built : Query) (filter : JSON.json)
| Exec (q : Query).

(** [where || {}] *)
Definition filterOf (w : parsed) : JSON.json :=
  match w with
  | PJson j => if JSON.truthy j then j else JSON.JObject []
  | PUndefined => JSON.JObject []
  end.

(** [if (x) q = q.f(x)] *)
Definition applied (x : parsed) : option JSON.json :=
  match x with
  | PJson j => if JSON.truthy j then Some j else None
  | PUndefined => None
  end.

(** [if (!isNaN(n)) q = q.f(n)], for [n] a number or [undefined]
    ([None]). *)
Definition appliedNum (n : option JS.number) : option JS.number :=
  if negb (JS.isNaN n) then n else None.

(** [req.query.p ? parseInt(req.query.p) : d], for [d] a number or
    [undefined] ([None]). *)
Definition intParam (p : option string) (d : option JS.number)
  : option JS.number :=
  match p with
  | Some s => if JS.truthy_str s then Some (JS.parseInt s) else d
  | None => d
  end.

(** [req.query.count === 'true' || req.query.count === true] *)
Definition countParam (p : option string) : bool :=
  match p with
  | Some s => (s =? "true")%string
  | None => false
  end.

Definition buildListing (w srt sel : parsed) (skip limit : option JS.number)
    (count : bool) : listing :=
  if isNull w || isNull srt || isNull sel then
    Answer (json 400 "Bad Request: malformed JSON in query parameters" DEmpty)
  else
    let q := mkQuery (filterOf w) (applied sel) (applied srt)
                     (appliedNum skip) (appliedNum limit) in
    if count then CountDocuments q (filterOf w) else Exec q.

(* ===================================================================== *)
(** ** routes/tasks.js *)
(* ===================================================================== *)

Module Tasks.

Definition addTaskToUser (userId taskId : string) : M unit :=
  if negb (JS.truthy_str userId) then ret tt
  else User_updateOne_push userId taskId.

Definition removeTaskFromUser (userId taskId : string) : M unit :=
  if negb (JS.truthy_str userId) then ret tt
  else User_updateOne_pull userId taskId.

(** GET /api/tasks *)
Definition GET_list (p : Params) : listing :=
  let w := parseJSONParam (rq_where p) in
  let srt := parseJSONParam (rq_sort p) in
  let sel := parseJSONParam (rq_select p) in
  let skip := intParam (rq_skip p) None in
  let limit := intParam (rq_limit p) (Some (JS.Finite 100)) in
  let count := countParam (rq_count p) in
  buildListing w srt sel skip limit count.

(** POST /api/tasks *)
Definition POST_body (b : TaskBody) : M response :=
  let name := tb_name b in
  let deadline := tb_deadline b in
  let description := JS.or_else (tb_description b) "" in
  let completed := JS.is_true (tb_completed b) in
  let assignedUser := JS.or_else (tb_assignedUser b) "" in
  let assignedUserName := tb_assignedUserName b in
  if negb (JS.truthy name) || negb (JS.truthy_value deadline) then
    respond (json 400 "Bad Request: name and deadline are required" DEmpty)
  else
    let dl := JS.newDate (JS.parseInt_value deadline) in
    assignedUserName <-
      (if JS.truthy_str assignedUser then
         if negb (ObjectId.isValid assignedUser) then
           respond (json 400 "Bad Request: invalid assignedUser id format"
                         DEmpty)
         else
           theUser <- User_findById assignedUser ;;
           match theUser with
           | None =>
               respond (json 404 "Not Found: assigned user does not exist"
                             DEmpty)
           | Some theUser =>
               if JS.truthy assignedUserName then
                 if negb (JS.or_else assignedUserName ""
                          =? user_name theUser)%string
                 then
                   respond
                     (json 400
                        "Bad Request: assignedUserName does not match user name"
                        (DMismatch (JS.or_else assignedUserName "")
                                   (user_name theUser)))
                 else ret (JS.or_else assignedUserName "")
               else ret (user_name theUser)
           end
       else ret (JS.or_else assignedUserName "")) ;;
    saved <- Task_create (JS.or_else name "") description dl completed
                         assignedUser assignedUserName ;;
    when (JS.truthy_str assignedUser && negb completed)
         (try_catch (addTaskToUser assignedUser (task_id saved))
                    (fun _ => ret tt)) ;;
    ret (json 201 "Task created" (DTask None saved)).

Definition POST (b : TaskBody) (db : DB) : response * DB :=
  run (POST_body b) db.

(** GET /api/tasks/:id *)
Definition GET_body (id : string) (p : Params) : M response :=
  let sel := parseJSONParam (rq_select p) in
  if isNull sel then
    respond (json 400 "Bad Request: malformed JSON in select" DEmpty)
  else if negb (ObjectId.isValid id) then
    respond (json 400 "Bad Request: invalid id format" DEmpty)
  else
    task <- Task_findById id ;;
    match task with
    | None => respond (json 404 "Not Found" DEmpty)
    | Some task => ret (json 200 "OK" (DTask (applied sel) task))
    end.

Definition GET (id : string) (p : Params) (db : DB) : response * DB :=
  run (GET_body id p) db.

(** PUT /api/tasks/:id *)
Definition PUT_body (id : string) (body : TaskBody) : M response :=
  if negb (ObjectId.isValid id) then
    respond (json 400 "Bad Request: invalid task id format" DEmpty)
  else if negb (JS.truthy (tb_name body))
          || negb (JS.truthy_value (tb_deadline body)) then
    respond (json 400 "Bad Request: name and deadline are required" DEmpty)
  else
    task <- Task_findById id ;;
    match task with
    | None => respond (json 404 "Not Found" DEmpty)
    | Some task =>
        if task_completed task then
          respond (json 400 "Bad Request: cannot modify a completed task"
                        DEmpty)
        else
          let oldAssigned := task_assignedUser task in
          let oldCompleted := task_completed task in
          (* [None] is [undefined] *)
          resolvedAssignedUserName <-
            (if JS.truthy (tb_assignedUser body) then
               let assignedUser := JS.or_else (tb_assignedUser body) "" in
               if negb (ObjectId.isValid assignedUser) then
                 respond (json 400
                            "Bad Request: invalid assignedUser id format"
                            DEmpty)
               else
                 theUser <- User_findById assignedUser ;;
                 match theUser with
                 | None =>
                     respond
                       (json 404 "Not Found: assigned user does not exist"
                             DEmpty)
                 | Some theUser =>
                     if JS.truthy (tb_assignedUserName body) then
                       if negb (JS.or_else (tb_assignedUserName body) ""
                                =? user_name theUser)%string
                       then
                         respond
                           (json 400
                              "Bad Request: assignedUserName does not match user name"
                              (DMismatch
                                 (JS.or_else (tb_assignedUserName body) "")
                                 (user_name theUser)))
                       else ret (Some (JS.or_else (tb_assignedUserName body) ""))
                     else ret (Some (user_name theUser))
                 end
             else ret None) ;;
          let name := JS.or_else (tb_name body) "" in
          let description := JS.or_else (tb_description body) "" in
          let deadline :=
            JS.newDate (JS.parseInt_value (tb_deadline body)) in
          let completed := JS.is_true (tb_completed body) in
          let assignedUser := JS.or_else (tb_assignedUser body) "" in
          let assignedUserName :=
            match resolvedAssignedUserName with
            | Some n => n
            | None =>
                JS.or_else (tb_assignedUserName body)
                  (if JS.truthy_str assignedUser
                   then task_assignedUserName task
                   else "unassigned")
            end in
          saved <- Task_save task name description deadline completed
                             assignedUser assignedUserName ;;
          when (JS.truthy_str oldAssigned
                && negb (oldAssigned =? assignedUser)%string)
               (removeTaskFromUser oldAssigned (task_id task)) ;;
          when (JS.truthy_str assignedUser && negb completed)
               (addTaskToUser assignedUser (task_id task)) ;;
          when (completed && negb oldCompleted
                && JS.truthy_str assignedUser)
               (removeTaskFromUser assignedUser (task_id task)) ;;
          ret (json 200 "Task updated" (DTask None saved))
    end.

Definition PUT (id : string) (body : TaskBody) (db : DB) : response * DB :=
  run (PUT_body id body) db.

(** DELETE /api/tasks/:id *)
Definition DELETE_body (id : string) : M response :=
  if negb (ObjectId.isValid id) then
    respond (json 400 "Bad Request: invalid task id format" DEmpty)
  else
    task <- Task_findById id ;;
    match task with
    | None => respond (json 404 "Not Found" DEmpty)
    | Some task =>
        when (JS.truthy_str (task_assignedUser task))
             (removeTaskFromUser (task_assignedUser task) (task_id task)) ;;
        Task_deleteOne id ;;
        ret (json 204 "" DNoBody)
    end.

Definition DELETE (id : string) (db : DB) : response * DB :=
  run (DELETE_body id) db.

End Tasks.

(* ===================================================================== *)
(** ** routes/users.js *)
(* ===================================================================== *)

Module Users.

(** GET /api/users *)
Definition GET_list (p : Params) : listing :=
  let w := parseJSONParam (rq_where p) in
  let srt := parseJSONParam (rq_sort p) in
  let sel := or_parsed (parseJSONParam (rq_select p))
                       (parseJSONParam (rq_filter p)) in
  let skip := intParam (rq_skip p) None in
  let limit := intParam (rq_limit p) None in
  let count := countParam (rq_count p) in
  buildListing w srt sel skip limit count.

(** [Array.isArray(pendingTasks) && pendingTasks.length > 0], for
    [pendingTasks = req.body.pendingTasks || []]. *)
Definition nonEmptyArray (f : pendingField) : bool :=
  match f with
  | IsArray (_ :: _) => true
  | _ => false
  end.

(** The array behind [req.body.pendingTasks || []], for the [$in]
    queries, which run only when it is a non-empty array. *)
Definition arrayOf (f : pendingField) : list string :=
  match f with
  | IsArray l => l
  | NotArray _ => []
  end.

(** What [new User({ pendingTasks: req.body.pendingTasks || [] })]
    stores: a truthy scalar is cast to a one-element array. *)
Definition storedPending (f : pendingField) : list string :=
  match f with
  | IsArray l => l
  | NotArray v => if JS.truthy_value v then [JS.toString v] else []
  end.

(** POST /api/users *)
Definition POST_body (b : UserBody) : M response :=
  let name := ub_name b in
  let email := ub_email b in
  let pendingTasks := ub_pendingTasks b in
  if negb (JS.truthy name) || negb (JS.truthy email) then
    respond (json 400 "Bad Request: name and email are required" DEmpty)
  else
    existing <- User_findOne_email (JS.or_else email "") ;;
    match existing with
    | Some _ =>
        respond (json 400 "Bad Request: email already exists" DEmpty)
    | None =>
        (if nonEmptyArray pendingTasks then
           tasksFound <-
             try_catch (Task_find_in (arrayOf pendingTasks))
               (fun e =>
                  respond
                    (json 400 "Bad Request: invalid task id in pendingTasks"
                          (DError e))) ;;
           let completedIds :=
             map task_id (filter task_completed tasksFound) in
           match completedIds with
           | _ :: _ =>
               respond
                 (json 400
                    "Bad Request: cannot add completed tasks to pendingTasks"
                    (DIds completedIds))
           | [] => ret tt
           end
         else ret tt) ;;
        saved <- User_create (JS.or_else name "") (JS.or_else email "")
                             (storedPending pendingTasks) ;;
        (* issued without [await]; taken here as done before the answer *)
        when (nonEmptyArray pendingTasks)
             (try_catch
                (Task_updateMany_in (arrayOf pendingTasks)
                                    (user_id saved) (user_name saved))
                (fun _ => ret tt)) ;;
        ret (json 201 "User created" (DUser None saved))
    end.

Definition POST (b : UserBody) (db : DB) : response * DB :=
  run (POST_body b) db.

(** GET /api/users/:id *)
Definition GET_body (id : string) (p : Params) : M response :=
  let sel := or_parsed (parseJSONParam (rq_select p))
                       (parseJSONParam (rq_filter p)) in
  if isNull sel then
    respond (json 400 "Bad Request: malformed JSON in select" DEmpty)
  else
    user <- User_findById id ;;
    match user with
    | None => respond (json 404 "Not Found" DEmpty)
    | Some user => ret (json 200 "OK" (DUser (applied sel) user))
    end.

Definition GET (id : string) (p : Params) (db : DB) : response * DB :=
  run (GET_body id p) db.

(** [Array.isArray(body.pendingTasks) ? body.pendingTasks : []] *)
Definition newPendingOf (f : pendingField) : list string :=
  match f with
  | IsArray l => l
  | NotArray _ => []
  end.

(** PUT /api/users/:id *)
Definition PUT_body (id : string) (body : UserBody) : M response :=
  if negb (JS.truthy (ub_name body)) || negb (JS.truthy (ub_email body)) then
    respond (json 400 "Bad Request: name and email are required" DEmpty)
  else if negb (ObjectId.isValid id) then
    respond (json 400 "Bad Request: invalid user id format" DEmpty)
  else
    let name := JS.or_else (ub_name body) "" in
    let email := JS.or_else (ub_email body) "" in
    other <- User_findOne_email_ne email id ;;
    match other with
    | Some _ =>
        respond (json 400 "Bad Request: email already exists" DEmpty)
    | None =>
        user <- User_findById id ;;
        match user with
        | None => respond (json 404 "Not Found" DEmpty)
        | Some user =>
            let newPending := newPendingOf (ub_pendingTasks body) in
            let toRemove :=
              filter (fun t => negb (mem t newPending))
                     (user_pendingTasks user) in
            when (negb (Nat.eqb (List.length toRemove) 0))
                 (Task_updateMany_in toRemove "" "unassigned") ;;
            let toAdd :=
              filter (fun t => negb (mem t (user_pendingTasks user)))
                     newPending in
            (if negb (Nat.eqb (List.length toAdd) 0) then
               match find (fun t => negb (ObjectId.isValid t)) toAdd with
               | Some bad =>
                   respond
                     (json 400
                        "Bad Request: invalid task id format in pendingTasks"
                        (DId bad))
               | None =>
                   tasksFound <-
                     try_catch (Task_find_in toAdd)
                       (fun e =>
                          respond
                            (json 400
                               "Bad Request: invalid task id in pendingTasks"
                               (DError e))) ;;
                   if negb (Nat.eqb (List.length tasksFound)
                                    (List.length toAdd)) then
                     let foundIds := map task_id tasksFound in
                     let missing :=
                       filter (fun x => negb (mem x foundIds)) toAdd in
                     respond
                       (json 404 "Not Found: some task ids do not exist"
                             (DIds missing))
                   else
                     let completedIds :=
                       map task_id (filter task_completed tasksFound) in
                     match completedIds with
                     | _ :: _ =>
                         respond
                           (json 400
                              "Bad Request: cannot add completed tasks to pendingTasks"
                              (DIds completedIds))
                     | [] =>
                         User_updateMany_pull id toAdd ;;
                         when (negb (Nat.eqb (List.length toAdd) 0))
                              (Task_updateMany_in toAdd id name)
                     end
               end
             else ret tt) ;;
            saved <- User_save user name email newPending ;;
            ret (json 200 "User updated" (DUser None saved))
        end
    end.

Definition PUT (id : string) (body : UserBody) (db : DB) : response * DB :=
  run (PUT_body id body) db.

(** DELETE /api/users/:id *)
Definition DELETE_body (id : string) : M response :=
  user <- User_findById id ;;
  match user with
  | None => respond (json 404 "Not Found" DEmpty)
  | Some user =>
      when (negb (Nat.eqb (List.length (user_pendingTasks user)) 0))
           (Task_updateMany_in (user_pendingTasks user) "" "unassigned") ;;
      User_deleteOne id ;;
      ret (json 204 "" DNoBody)
  end.

Definition DELETE (id : string) (db : DB) : response * DB :=
  run (DELETE_body id) db.

End Users.

(* ===================================================================== *)
(** ** Requests with one parameter changed, and sample data *)
(* ===================================================================== *)

Definition with_skip (p : Params) (s : option string) : Params :=
  mkParams (rq_where p) (rq_sort p) (rq_select p) (rq_filter p)
           s (rq_limit p) (rq_count p).

Definition with_limit (p : Params) (s : option string) : Params :=
  mkParams (rq_where p) (rq_sort p) (rq_select p) (rq_filter p)
           (rq_skip p) s (rq_count p).

Definition with_select (p : Params) (s : option string) : Params :=
  mkParams (rq_where p) (rq_sort p) s (rq_filter p)
           (rq_skip p) (rq_limit p) (rq_count p).

(** Whether a list handler answered by itself (it only does so with 400). *)
Definition answered (l : listing) : bool :=
  match l with
  | Answer _ => true
  | _ => false
  end.

(** The query a list handler built before it counted or executed. *)
Definition builtBy (l : listing) : option Query :=
  match l with
  | Answer _ => None
  | CountDocuments q _ => Some q
  | Exec q => Some q
  end.

(** The task a request id resolves to, as [Task.findById] finds it. *)
Definition taskById (db : DB) (id : string) : option Task :=
  match ObjectId.cast id with
  | Some c => find (hasId_task c) (tasks db)
  | None => None
  end.

(** The user a request id resolves to, as [User.findById] finds it. *)
Definition userById (db : DB) (id : string) : option User :=
  match ObjectId.cast id with
  | Some c => find (hasId_user c) (users db)
  | None => None
  end.

(** In PUT /api/users/:id: the ids that leave the list, the ids that
    enter it, and the document that is saved. *)
Definition toRemoveOf (user : User) (body : UserBody) : list string :=
  filter (fun t => negb (mem t (Users.newPendingOf (ub_pendingTasks body))))
         (user_pendingTasks user).

Definition toAddOf (user : User) (body : UserBody) : list string :=
  filter (fun t => negb (mem t (user_pendingTasks user)))
         (Users.newPendingOf (ub_pendingTasks body)).

Definition replaced (user : User) (body : UserBody) : User :=
  mkUser (user_id user) (JS.or_else (ub_name body) "")
         (JS.or_else (ub_email body) "")
         (Users.newPendingOf (ub_pendingTasks body))
         (user_dateCreated user).

(** Invariant I3 in the words of the specification: the
    [assignedUserName] of every task is the name of the user its
    [assignedUser] refers to, or ["unassigned"] when [assignedUser] is
    empty. *)
Definition I3_task (db : DB) (t : Task) : bool :=
  if (task_assignedUser t =? "")%string
  then (task_assignedUserName t =? "unassigned")%string
  else match userById db (task_assignedUser t) with
       | Some u => (task_assignedUserName t =? user_name u)%string
       | None => false
       end.

Definition I3 (db : DB) : bool := forallb (I3_task db) (tasks db).

Module Sample.

Definition al : string := "aaaaaaaaaaaaaaaaaaaaaaaa".
Definition bo : string := "bbbbbbbbbbbbbbbbbbbbbbbb".
Definition t1 : string := "111111111111111111111111".
Definition t2 : string := "222222222222222222222222".
Definition t3 : string := "333333333333333333333333".
(** Well-formed, and the id of no stored document. *)
Definition ghost : string := "999999999999999999999999".

Definition Al : User := mkUser al "Al" "a@x.com" [t1] 1690000000000.
Definition Bo : User := mkUser bo "Bo" "b@x.com" [t2] 1690000000001.

Definition T1 : Task := mkTask t1 "T1" "" 1700000000000 false al "Al".
Definition T2 : Task := mkTask t2 "T2" "" 1700000000000 false bo "Bo".
Definition T3 : Task := mkTask t3 "T3" "" 1700000000000 true "" "unassigned".

Definition db : DB := mkDB [T1; T2; T3] [Al; Bo] 5 1700000000001.

(** A database with no document at all. *)
Definition empty : DB := mkDB [] [] 0 1700000000001.

Definition taskBody (name : option string) (assignedUser : option string)
    (assignedUserName : option string) : TaskBody :=
  mkTaskBody name None (JS.Num 1700000000000) JS.Undefined
             assignedUser assignedUserName.

End Sample.

(* ===================================================================== *)
(** ** The side effects of the task routes on the users collection *)
(* ===================================================================== *)

(** The users after [removeTaskFromUser]: the task id is pulled from the
    list of the user [c]. *)
Definition pullFrom (c taskId : string) (us : list User) : list User :=
  updateFirst (hasId_user c) (pullAll [taskId]) us.

(** The users after [addTaskToUser]: the task id is pushed to the list of
    the user [c], unless the list has it. *)
Definition pushTo (c taskId : string) (us : list User) : list User :=
  updateFirst
    (fun u => hasId_user c u && negb (mem taskId (user_pendingTasks u)))
    (fun u => set_pending u (user_pendingTasks u ++ [taskId])%list) us.

(** The users after the three side effects of PUT /api/tasks/:id, for the
    assignee [old] the task had, the assignee [au] it gets, and whether it
    is put as completed.  The handler reaches them only for a task that was
    not completed, so that [!oldCompleted] holds in the third. *)
Definition usersAfterPut (old au : string) (completed : bool)
    (taskId : string) (us : list User) : list User :=
  let us1 :=
    if JS.truthy_str old && negb (old =? au)%string then
      match ObjectId.cast old with
      | Some co => pullFrom co taskId us
      | None => us
      end
    else us in
  let us2 :=
    if JS.truthy_str au && negb completed then
      match ObjectId.cast au with
      | Some ca => pushTo ca taskId us1
      | None => us1
      end
    else us1 in
  if completed && JS.truthy_str au then
    match ObjectId.cast au with
    | Some ca => pullFrom ca taskId us2
    | None => us2
    end
  else us2.

(** The document that PUT /api/tasks/:id saves over [task], for a deadline
    that is a date and the name that was resolved for the assignee. *)
Definition savedTask (task : Task) (body : TaskBody) (dl : Z)
    (assignedUserName : string) : Task :=
  mkTask (task_id task) (JS.or_else (tb_name body) "")
         (JS.or_else (tb_description body) "") dl
         (JS.is_true (tb_completed body))
         (JS.or_else (tb_assignedUser body) "") assignedUserName.

(* ===================================================================== *)
(** ** Predicates of the statements *)
(* ===================================================================== *)

(** A query parameter that [parseJSONParam] turns into [null]: a non-empty
    string that is not JSON, or that is the JSON value [null]. *)
Definition nullParam (x : option string) : Prop :=
  exists s, x = Some s /\ s <> "" /\
            (JSON.parse s = None \/ JSON.parse s = Some JSON.JNull).

(** A property of the database that a computation keeps, however it
    ends. *)
Definition keeps {A} (I : DB -> Prop) (m : M A) : Prop :=
  forall db, I db -> I (snd (m db)).

(** The lemmas that show [keeps] along the structure of a handler. *)
Create HintDb keeps.

(** Closes a goal whose hypothesis [H] equates the handler's answer with
    [(r, db')] while [Hs] gives [r] another status. *)
Ltac refute H Hs :=
  inversion H; subst; simpl in Hs; discriminate Hs.

(** From [H : (if .. then Answer _ else if .. then CountDocuments _ _
    else Exec q0) = Exec q], the fields of [q]. *)
Ltac read_query H :=
  repeat match type of H with
         | (if ?c then _ else _) = _ => destruct c; [discriminate H|]
         end;
  inversion H; reflexivity.

(* ===================================================================== *)
(** ** Equations of the monad and of the storage calls *)
(* ===================================================================== *)

Lemma bind_eq {A B} (m : M A) (f : A -> M B) (db : DB) :
  bind m f db =
  match m db with
  | (Val a, db') => f a db'
  | (Done r, db') => (Done r, db')
  | (Err e, db') => (Err e, db')
  end.
Proof. reflexivity. Qed.

Lemma try_catch_eq {A} (m : M A) (h : error -> M A) (db : DB) :
  try_catch m h db =
  match m db with
  | (Err e, db') => h e db'
  | other => other
  end.
Proof. reflexivity. Qed.

Lemma castId_eq (id : string) (db : DB) :
  castId id db =
  match ObjectId.cast id with
  | Some c => (Val c, db)
  | None => (Err (CastError id), db)
  end.
Proof. unfold castId. now destruct (ObjectId.cast id). Qed.

Lemma castIds_eq (ids : list string) (db : DB) :
  castIds ids db =
  match ObjectId.castAll ids with
  | Some cs => (Val cs, db)
  | None => (Err (CastError (firstUncastable ids)), db)
  end.
Proof. unfold castIds. now destruct (ObjectId.castAll ids). Qed.

Lemma Task_findById_eq (id : string) (db : DB) :
  Task_findById id db =
  match ObjectId.cast id with
  | Some c => (Val (find (hasId_task c) (tasks db)), db)
  | None => (Err (CastError id), db)
  end.
Proof.
  unfold Task_findById. rewrite bind_eq, castId_eq.
  now destruct (ObjectId.cast id).
Qed.

Lemma User_findById_eq (id : string) (db : DB) :
  User_findById id db =
  match ObjectId.cast id with
  | Some c => (Val (find (hasId_user c) (users db)), db)
  | None => (Err (CastError id), db)
  end.
Proof.
  unfold User_findById. rewrite bind_eq, castId_eq.
  now destruct (ObjectId.cast id).
Qed.

Lemma User_findOne_email_ne_eq (email id : string) (db : DB) :
  User_findOne_email_ne email id db =
  match ObjectId.cast id with
  | Some c =>
      (Val (find (fun u => (user_email u =? email)%string
                           && negb (hasId_user c u)) (users db)), db)
  | None => (Err (CastError id), db)
  end.
Proof.
  unfold User_findOne_email_ne. rewrite bind_eq, castId_eq.
  now destruct (ObjectId.cast id).
Qed.

Lemma Task_find_in_eq (ids : list string) (db : DB) :
  Task_find_in ids db =
  match ObjectId.castAll ids with
  | Some cs => (Val (filter (fun t => mem (task_id t) cs) (tasks db)), db)
  | None => (Err (CastError (firstUncastable ids)), db)
  end.
Proof.
  unfold Task_find_in. rewrite bind_eq, castIds_eq.
  now destruct (ObjectId.castAll ids).
Qed.

Lemma Task_updateMany_in_eq (ids : list string) (au aun : string) (db : DB) :
  Task_updateMany_in ids au aun db =
  match ObjectId.castAll ids with
  | Some cs => (Val tt, set_tasks db (reassign cs au aun (tasks db)))
  | None => (Err (CastError (firstUncastable ids)), db)
  end.
Proof.
  unfold Task_updateMany_in. rewrite bind_eq, castIds_eq.
  now destruct (ObjectId.castAll ids).
Qed.

Lemma User_updateMany_pull_eq (id : string) (ids : list string) (db : DB) :
  User_updateMany_pull id ids db =
  match ObjectId.cast id with
  | Some c => (Val tt, set_users db (pullOthers c ids (users db)))
  | None => (Err (CastError id), db)
  end.
Proof.
  unfold User_updateMany_pull. rewrite bind_eq, castId_eq.
  now destruct (ObjectId.cast id).
Qed.

Lemma User_save_eq (user : User) (name email : string) (l : list string)
    (db : DB) :
  User_save user name email l db =
  (Val (mkUser (user_id user) name email l (user_dateCreated user)),
   set_users db
     (updateFirst (hasId_user (user_id user))
        (fun _ => mkUser (user_id user) name email l (user_dateCreated user))
        (users db))).
Proof. reflexivity. Qed.

Lemma User_create_eq (name email : string) (l : list string) (db : DB) :
  User_create name email l db =
  (Val (mkUser (ObjectId.generate (nextId db)) name email l (now db)),
   mkDB (tasks db)
        (users db ++ [mkUser (ObjectId.generate (nextId db)) name email l
                             (now db)])
        (nextId db + 1) (now db)).
Proof. reflexivity. Qed.

Lemma User_updateOne_push_eq (userId taskId : string) (db : DB) :
  User_updateOne_push userId taskId db =
  match ObjectId.cast userId with
  | Some c =>
      (Val tt,
       set_users db
         (updateFirst
            (fun u => hasId_user c u && negb (mem taskId (user_pendingTasks u)))
            (fun u => set_pending u (user_pendingTasks u ++ [taskId])%list)
            (users db)))
  | None => (Err (CastError userId), db)
  end.
Proof.
  unfold User_updateOne_push. rewrite bind_eq, castId_eq.
  now destruct (ObjectId.cast userId).
Qed.

Lemma Task_create_eq (name description : string) (dl : Z) (completed : bool)
    (au aun : string) (db : DB) :
  Task_create name description (Some dl) completed au aun db =
  (Val (mkTask (ObjectId.generate (nextId db)) name description dl completed
               au aun),
   mkDB (tasks db ++ [mkTask (ObjectId.generate (nextId db)) name description
                             dl completed au aun])%list
        (users db) (nextId db + 1) (now db)).
Proof. reflexivity. Qed.

Lemma reassign_nil (au aun : string) (ts : list Task) :
  reassign [] au aun ts = ts.
Proof.
  unfold reassign. induction ts as [|t ts IH]; simpl; [reflexivity|].
  f_equal. exact IH.
Qed.

Lemma existsb_mem_nil (l : list string) :
  existsb (fun p => mem p []) l = false.
Proof. induction l; simpl; auto. Qed.

Lemma pullOthers_nil (c : string) (us : list User) :
  pullOthers c [] us = us.
Proof.
  unfold pullOthers. induction us as [|u us IH]; simpl; [reflexivity|].
  rewrite existsb_mem_nil, andb_false_r. f_equal. exact IH.
Qed.

Lemma set_tasks_same (db : DB) : set_tasks db (tasks db) = db.
Proof. now destruct db. Qed.

Lemma set_users_same (db : DB) : set_users db (users db) = db.
Proof. now destruct db. Qed.

Lemma when_updateMany (ids : list string) (au aun : string) (db : DB) :
  when (negb (Nat.eqb (List.length ids) 0)) (Task_updateMany_in ids au aun) db =
  match ObjectId.castAll ids with
  | Some cs => (Val tt, set_tasks db (reassign cs au aun (tasks db)))
  | None => (Err (CastError (firstUncastable ids)), db)
  end.
Proof.
  destruct ids as [|i ids].
  - simpl. now rewrite reassign_nil, set_tasks_same.
  - simpl when. apply Task_updateMany_in_eq.
Qed.

Lemma Users_PUT_200 (id : string) (body : UserBody) (db db' : DB)
    (r : response) :
  Users.PUT id body db = (r, db') ->
  status r = 200 ->
  exists c user csR csA,
    JS.truthy (ub_name body) = true /\
    JS.truthy (ub_email body) = true /\
    ObjectId.cast id = Some c /\
    find (hasId_user c) (users db) = Some user /\
    ObjectId.castAll (toRemoveOf user body) = Some csR /\
    ObjectId.castAll (toAddOf user body) = Some csA /\
    tasks db' = reassign csA id (JS.or_else (ub_name body) "")
                  (reassign csR "" "unassigned" (tasks db)) /\
    users db' = updateFirst (hasId_user (user_id user))
                  (fun _ => replaced user body)
                  (pullOthers c (toAddOf user body) (users db)) /\
    r = json 200 "User updated" (DUser None (replaced user body)).
Proof.
  unfold Users.PUT, run, Users.PUT_body. intros H Hs.
  destruct (JS.truthy (ub_name body)) eqn:Hn; [|refute H Hs].
  destruct (JS.truthy (ub_email body)) eqn:He; [|refute H Hs].
  cbn [negb orb] in H.
  destruct (negb (ObjectId.isValid id)); [refute H Hs|].
  rewrite bind_eq, User_findOne_email_ne_eq in H.
  destruct (ObjectId.cast id) as [c|] eqn:Hc; [|refute H Hs].
  destruct (find _ (users db)) as [other|]; [refute H Hs|].
  rewrite bind_eq, User_findById_eq, Hc in H.
  destruct (find (hasId_user c) (users db)) as [user|] eqn:Hu; [|refute H Hs].
  fold (toRemoveOf user body) in H. fold (toAddOf user body) in H.
  rewrite bind_eq, when_updateMany in H.
  destruct (ObjectId.castAll (toRemoveOf user body)) as [csR|] eqn:HR;
    [|refute H Hs].
  rewrite bind_eq in H.
  exists c, user, csR.
  destruct (toAddOf user body) as [|a toAdd] eqn:HA.
  - exists []. simpl in H. inversion H; subst; clear H. simpl.
    rewrite reassign_nil, pullOthers_nil. repeat split; auto.
  - cbn [List.length Nat.eqb negb] in H.
    destruct (find _ (a :: toAdd)) as [bad|]; [refute H Hs|].
    rewrite bind_eq, try_catch_eq, Task_find_in_eq in H.
    destruct (ObjectId.castAll (a :: toAdd)) as [csA|] eqn:HcA; [|refute H Hs].
    exists csA.
    destruct (negb (Nat.eqb _ _)); [refute H Hs|].
    destruct (map task_id _); [|refute H Hs].
    rewrite bind_eq, User_updateMany_pull_eq, Hc in H.
    simpl when in H. rewrite Task_updateMany_in_eq, HcA in H.
    simpl in H. inversion H; subst; clear H. simpl.
    repeat split; auto.
Qed.

(* ===================================================================== *)
(** ** Lists of identifiers and collections *)
(* ===================================================================== *)

Lemma mem_In (x : string) (l : list string) : mem x l = true <-> In x l.
Proof.
  unfold mem. rewrite existsb_exists. split.
  - intros [y [Hy He]]. apply String.eqb_eq in He. now subst.
  - intros H. exists x. split; [assumption | apply String.eqb_refl].
Qed.

Lemma mem_false (x : string) (l : list string) :
  mem x l = false <-> ~ In x l.
Proof.
  rewrite <- mem_In. destruct (mem x l); split; congruence.
Qed.

Lemma mem_filter (f : string -> bool) (x : string) (l : list string) :
  mem x (filter f l) = mem x l && f x.
Proof.
  destruct (mem x (filter f l)) eqn:E.
  - apply mem_In, filter_In in E. destruct E as [E1 E2].
    apply mem_In in E1. now rewrite E1, E2.
  - destruct (mem x l) eqn:E1; [|reflexivity].
    destruct (f x) eqn:E2; [|reflexivity].
    apply mem_false in E. exfalso. apply E, filter_In.
    split; [now apply mem_In | assumption].
Qed.

Lemma In_updateFirst {A} (p : A -> bool) (f : A -> A) (l : list A) (y : A) :
  In y (updateFirst p f l) ->
  In y l \/ exists x, In x l /\ p x = true /\ y = f x.
Proof.
  induction l as [|x l IH]; simpl; [tauto|].
  destruct (p x) eqn:E; simpl.
  - intros [H|H]; [right; exists x; auto | left; auto].
  - intros [H|H]; [left; auto|].
    destruct (IH H) as [H1 | [z [H1 [H2 H3]]]]; [left; auto|].
    right. exists z. auto.
Qed.

Lemma find_hasId_user (c : string) (l : list User) (u : User) :
  find (hasId_user c) l = Some u -> In u l /\ user_id u = c.
Proof.
  intros H. apply find_some in H. destruct H as [H1 H2].
  split; [assumption | now apply String.eqb_eq].
Qed.

(* ===================================================================== *)
(** ** PUT /api/tasks/:id on a completed task *)
(* ===================================================================== *)

(** C2.  When the task that the request id resolves to is already
    completed, PUT /api/tasks/:id answers 400 whatever the body, and the
    database is left as it was. *)
Theorem completed_task_is_immutable :
  forall (db : DB) (id : string) (body : TaskBody) (t : Task),
    taskById db id = Some t ->
    task_completed t = true ->
    status (fst (Tasks.PUT id body db)) = 400 /\
    snd (Tasks.PUT id body db) = db.
Proof.
  intros db id body t Hf Ht. unfold taskById in Hf.
  destruct (ObjectId.cast id) as [c|] eqn:Hc; [|discriminate].
  unfold Tasks.PUT, run, Tasks.PUT_body.
  destruct (negb (ObjectId.isValid id)); [now split|].
  destruct (negb (JS.truthy (tb_name body))
            || negb (JS.truthy_value (tb_deadline body))); [now split|].
  rewrite bind_eq, Task_findById_eq, Hc, Hf, Ht. now split.
Qed.

Lemma completed_task_is_immutable_witness :
  taskById Sample.db Sample.t3 = Some Sample.T3 /\
  task_completed Sample.T3 = true /\
  status (fst (Tasks.PUT Sample.t3
                 (Sample.taskBody (Some "renamed") None None) Sample.db)) = 400 /\
  snd (Tasks.PUT Sample.t3
         (Sample.taskBody (Some "renamed") None None) Sample.db) = Sample.db.
Proof.
  split; [reflexivity|]. split; [reflexivity|].
  apply (completed_task_is_immutable Sample.db Sample.t3
           (Sample.taskBody (Some "renamed") None None) Sample.T3);
    reflexivity.
Defined.

(* ===================================================================== *)
(** ** PUT /api/users/:id: one pending owner *)
(* ===================================================================== *)

(** C3.  After a PUT /api/users/:id that succeeds, a task id that is in
    the new list and was not in the user's stored list is in the
    [pendingTasks] of no other user. *)
Theorem added_task_has_no_other_owner :
  forall (db : DB) (id : string) (body : UserBody) (user u' : User)
         (t : string),
    status (fst (Users.PUT id body db)) = 200 ->
    userById db id = Some user ->
    mem t (Users.newPendingOf (ub_pendingTasks body)) = true ->
    mem t (user_pendingTasks user) = false ->
    In u' (users (snd (Users.PUT id body db))) ->
    user_id u' <> user_id user ->
    mem t (user_pendingTasks u') = false.
Proof.
  intros db id body user u' t Hs Hu Hnew Hold Hin Hne.
  destruct (Users.PUT id body db) as [r db'] eqn:HP. simpl in *.
  destruct (Users_PUT_200 _ _ _ _ _ HP Hs)
    as (c & user0 & csR & csA & _ & _ & Hc & Hf & _ & _ & _ & Husers & _).
  unfold userById in Hu. rewrite Hc, Hf in Hu. inversion Hu; subst user0.
  destruct (find_hasId_user _ _ _ Hf) as [_ Hid].
  assert (Hadd : mem t (toAddOf user body) = true).
  { unfold toAddOf. now rewrite mem_filter, Hnew, Hold. }
  rewrite Husers in Hin. apply In_updateFirst in Hin.
  destruct Hin as [Hin | [x [_ [_ Hx]]]].
  - unfold pullOthers in Hin. apply in_map_iff in Hin.
    destruct Hin as [u0 [Hu0 _]].
    destruct (negb (hasId_user c u0)) eqn:Eid; simpl in Hu0.
    + destruct (existsb (fun p => mem p (toAddOf user body))
                        (user_pendingTasks u0)) eqn:Eex; subst u'.
      * simpl. now rewrite mem_filter, Hadd, andb_false_r.
      * apply mem_false. intros Ht. apply mem_In in Ht.
        assert (existsb (fun p => mem p (toAddOf user body))
                        (user_pendingTasks u0) = true).
        { apply existsb_exists. exists t. split; [now apply mem_In|assumption]. }
        congruence.
    + subst u'. apply negb_false_iff in Eid. apply String.eqb_eq in Eid.
      congruence.
  - subst u'. simpl in Hne. congruence.
Qed.

Lemma added_task_has_no_other_owner_witness :
  let body := mkUserBody (Some "Al") (Some "a@x.com")
                         (IsArray [Sample.t1; Sample.t2]) in
  let bo' := mkUser Sample.bo "Bo" "b@x.com" [] 1690000000001 in
  mem Sample.t2 (user_pendingTasks Sample.Bo) = true /\
  In bo' (users (snd (Users.PUT Sample.al body Sample.db))) /\
  mem Sample.t2 (user_pendingTasks bo') = false.
Proof.
  intros body bo'.
  split; [reflexivity|].
  split; [vm_compute; auto|].
  apply (added_task_has_no_other_owner Sample.db Sample.al body Sample.Al bo'
           Sample.t2).
  - reflexivity.
  - reflexivity.
  - reflexivity.
  - reflexivity.
  - vm_compute. auto.
  - vm_compute. discriminate.
Defined.

(* ===================================================================== *)
(** ** Generated identifiers *)
(* ===================================================================== *)

Lemma hexDigit_spec (m : N) :
  (m < 16)%N ->
  ObjectId.isHex (ObjectId.hexDigit m) = true /\
  ObjectId.toLower (ObjectId.hexDigit m) = ObjectId.hexDigit m.
Proof.
  intros H.
  assert (E : (m = 0 \/ m = 1 \/ m = 2 \/ m = 3 \/ m = 4 \/ m = 5 \/ m = 6
               \/ m = 7 \/ m = 8 \/ m = 9 \/ m = 10 \/ m = 11 \/ m = 12
               \/ m = 13 \/ m = 14 \/ m = 15)%N) by lia.
  repeat (destruct E as [E|E]; [subst m; split; reflexivity|]).
  subst m; split; reflexivity.
Qed.

Lemma hexDigits_spec (k : nat) :
  forall (n : N) (acc : list ascii),
    forallb ObjectId.isHex acc = true ->
    map ObjectId.toLower acc = acc ->
    List.length (ObjectId.hexDigits k n acc) = (k + List.length acc)%nat /\
    forallb ObjectId.isHex (ObjectId.hexDigits k n acc) = true /\
    map ObjectId.toLower (ObjectId.hexDigits k n acc)
    = ObjectId.hexDigits k n acc.
Proof.
  induction k as [|k IH]; intros n acc Hh Hl; simpl.
  - auto.
  - assert (Hm : (n mod 16 < 16)%N) by (apply N.mod_lt; discriminate).
    destruct (hexDigit_spec _ Hm) as [H1 H2].
    destruct (IH (n / 16)%N (ObjectId.hexDigit (n mod 16) :: acc))
      as (L & F & T).
    + simpl. now rewrite H1.
    + simpl. now rewrite H2, Hl.
    + simpl in L. rewrite L. repeat split; auto; lia.
Qed.

Lemma generate_cast (n : N) :
  ObjectId.cast (ObjectId.generate n) = Some (ObjectId.generate n).
Proof.
  unfold ObjectId.cast, ObjectId.generate.
  rewrite list_ascii_of_string_of_list_ascii.
  destruct (hexDigits_spec 24 n [] eq_refl eq_refl) as (L & F & T).
  rewrite L, F, T. reflexivity.
Qed.

Lemma generate_isValid (n : N) :
  ObjectId.isValid (ObjectId.generate n) = true.
Proof.
  unfold ObjectId.isValid, ObjectId.generate.
  rewrite list_ascii_of_string_of_list_ascii.
  destruct (hexDigits_spec 24 n [] eq_refl eq_refl) as (L & F & T).
  rewrite L, F. reflexivity.
Qed.

(* ===================================================================== *)
(** ** POST /api/users followed by PUT /api/users/:id *)
(* ===================================================================== *)

Lemma User_findOne_email_eq (email : string) (db : DB) :
  User_findOne_email email db =
  (Val (find (fun u => (user_email u =? email)%string) (users db)), db).
Proof. reflexivity. Qed.

Lemma when_false (m : M unit) (db : DB) : when false m db = (Val tt, db).
Proof. reflexivity. Qed.

(** The user that POST /api/users stores. *)
Lemma Users_POST_201 (body : UserBody) (db db1 : DB) (r : response) :
  Users.POST body db = (r, db1) ->
  status r = 201 ->
  JS.truthy (ub_name body) = true /\
  JS.truthy (ub_email body) = true /\
  find (fun u => (user_email u =? JS.or_else (ub_email body) "")%string)
       (users db) = None /\
  r = json 201 "User created"
        (DUser None
           (mkUser (ObjectId.generate (nextId db))
                   (JS.or_else (ub_name body) "")
                   (JS.or_else (ub_email body) "")
                   (Users.storedPending (ub_pendingTasks body)) (now db))) /\
  users db1 = (users db ++
               [mkUser (ObjectId.generate (nextId db))
                       (JS.or_else (ub_name body) "")
                       (JS.or_else (ub_email body) "")
                       (Users.storedPending (ub_pendingTasks body)) (now db)])%list.
Proof.
  unfold Users.POST, run, Users.POST_body. intros H Hs.
  destruct (JS.truthy (ub_name body)) eqn:Hn; [|refute H Hs].
  destruct (JS.truthy (ub_email body)) eqn:He; [|refute H Hs].
  cbn [negb orb] in H.
  rewrite bind_eq, User_findOne_email_eq in H.
  destruct (find _ (users db)) as [existing|] eqn:Hex; [refute H Hs|].
  rewrite bind_eq in H.
  destruct (Users.nonEmptyArray (ub_pendingTasks body)) eqn:Hne.
  - cbv iota in H. rewrite bind_eq, try_catch_eq, Task_find_in_eq in H.
    destruct (ObjectId.castAll _) as [cs|] eqn:Hcs; [|refute H Hs].
    destruct (map task_id _); [|refute H Hs].
    unfold ret at 1 in H.
    rewrite bind_eq, User_create_eq, bind_eq in H.
    unfold when in H.
    rewrite try_catch_eq, Task_updateMany_in_eq, Hcs in H.
    inversion H; subst; clear H. simpl. auto.
  - cbv iota in H. cbv beta iota delta [ret] in H.
    rewrite bind_eq, User_create_eq, bind_eq, when_false in H.
    inversion H; subst; clear H. simpl. auto.
Qed.

Lemma find_app_last {A} (p : A -> bool) (l : list A) (x : A) :
  find p l = None ->
  find p (l ++ [x])%list = if p x then Some x else None.
Proof.
  induction l as [|y l IH]; simpl; [reflexivity|].
  destruct (p y); [discriminate | exact IH].
Qed.

Lemma find_none_and {A} (p q : A -> bool) (l : list A) :
  find p l = None -> find (fun x => p x && q x) l = None.
Proof.
  induction l as [|y l IH]; simpl; [reflexivity|].
  destruct (p y); [discriminate | exact IH].
Qed.

Lemma filter_not_mem_self (l : list string) :
  filter (fun t => negb (mem t l)) l = [].
Proof.
  assert (G : forall l', incl l' l -> filter (fun t => negb (mem t l)) l' = []).
  { induction l' as [|x l' IH]; intros Hi; simpl; [reflexivity|].
    assert (Hx : mem x l = true) by (apply mem_In, Hi; now left).
    rewrite Hx. simpl. apply IH. intros y Hy. apply Hi. now right. }
  apply G, incl_refl.
Qed.

(** C7.  A user is created with a list of pending tasks ([[a; b]] or any
    other) and then updated with the same name, email and list: the update
    succeeds, nothing leaves the list, nothing enters it, and the tasks
    collection is the one the creation left. *)
Theorem update_after_create_changes_no_task :
  forall (db : DB) (name email : string) (l : list string) (u : User),
    fst (Users.POST (mkUserBody (Some name) (Some email) (IsArray l)) db)
    = json 201 "User created" (DUser None u) ->
    userById db (user_id u) = None ->
    status (fst (Users.PUT (user_id u)
                   (mkUserBody (Some name) (Some email) (IsArray l))
                   (snd (Users.POST
                           (mkUserBody (Some name) (Some email) (IsArray l))
                           db)))) = 200 /\
    toRemoveOf u (mkUserBody (Some name) (Some email) (IsArray l)) = [] /\
    toAddOf u (mkUserBody (Some name) (Some email) (IsArray l)) = [] /\
    tasks (snd (Users.PUT (user_id u)
                  (mkUserBody (Some name) (Some email) (IsArray l))
                  (snd (Users.POST
                          (mkUserBody (Some name) (Some email) (IsArray l))
                          db))))
    = tasks (snd (Users.POST
                    (mkUserBody (Some name) (Some email) (IsArray l)) db)).
Proof.
  intros db name email l u Hpost Hfresh.
  set (body := mkUserBody (Some name) (Some email) (IsArray l)) in *.
  destruct (Users.POST body db) as [r db1] eqn:HP. simpl in Hpost. simpl.
  assert (Hs : status r = 201) by (now rewrite Hpost).
  destruct (Users_POST_201 _ _ _ _ HP Hs) as (Hn & He & Hex & Hr & Hus).
  rewrite Hpost in Hr.
  assert (Hu : u = mkUser (ObjectId.generate (nextId db))
                          (JS.or_else (ub_name body) "")
                          (JS.or_else (ub_email body) "")
                          (Users.storedPending (ub_pendingTasks body))
                          (now db))
    by (inversion Hr; reflexivity).
  clear Hr.
  set (c := ObjectId.generate (nextId db)) in *.
  assert (Hid : user_id u = c) by (now rewrite Hu).
  assert (Hpend : user_pendingTasks u = l) by (now rewrite Hu).
  assert (HR : toRemoveOf u body = []).
  { unfold toRemoveOf. rewrite Hpend. simpl. apply filter_not_mem_self. }
  assert (HA : toAddOf u body = []).
  { unfold toAddOf. rewrite Hpend. simpl. apply filter_not_mem_self. }
  split; [|split; [exact HR | split; [exact HA|]]].
  all: unfold Users.PUT, run, Users.PUT_body.
  all: rewrite Hn, He; cbn [negb orb].
  all: rewrite Hid; unfold c at 1; rewrite generate_isValid; cbn [negb].
  all: rewrite bind_eq, User_findOne_email_ne_eq.
  all: unfold c at 1; rewrite generate_cast; fold c.
  all: rewrite Hus, (find_app_last _ _ _ (find_none_and _ _ _ Hex)).
  all: rewrite <- Hu.
  all: unfold hasId_user at 1; rewrite Hid, String.eqb_refl, andb_false_r.
  all: rewrite bind_eq, User_findById_eq.
  all: unfold c at 1; rewrite generate_cast; fold c.
  all: rewrite Hus.
  all: unfold userById in Hfresh; rewrite Hid in Hfresh; unfold c in Hfresh;
       rewrite generate_cast in Hfresh; fold c in Hfresh.
  all: rewrite (find_app_last _ _ _ Hfresh), <- Hu.
  all: unfold hasId_user at 1; rewrite Hid, String.eqb_refl.
  all: fold (toRemoveOf u body); fold (toAddOf u body); rewrite HR, HA.
  all: reflexivity.
Qed.

Lemma update_after_create_changes_no_task_witness :
  let body := mkUserBody (Some "Cy") (Some "c@x.com")
                         (IsArray [Sample.t1; Sample.t2]) in
  let cy := mkUser "000000000000000000000005" "Cy" "c@x.com"
                   [Sample.t1; Sample.t2] 1700000000001 in
  fst (Users.POST body Sample.db) = json 201 "User created" (DUser None cy) /\
  userById Sample.db (user_id cy) = None /\
  status (fst (Users.PUT (user_id cy) body (snd (Users.POST body Sample.db))))
  = 200 /\
  toRemoveOf cy body = [] /\
  toAddOf cy body = [] /\
  tasks (snd (Users.PUT (user_id cy) body (snd (Users.POST body Sample.db))))
  = tasks (snd (Users.POST body Sample.db)).
Proof.
  intros body cy.
  split; [reflexivity|]. split; [reflexivity|].
  apply (update_after_create_changes_no_task Sample.db "Cy" "c@x.com"
           [Sample.t1; Sample.t2] cy); reflexivity.
Defined.

(* ===================================================================== *)
(** ** PUT /api/users/:id without a pending list *)
(* ===================================================================== *)

Lemma filter_all {A} (f : A -> bool) (l : list A) :
  (forall x, In x l -> f x = true) -> filter f l = l.
Proof.
  induction l as [|x l IH]; intros H; simpl; [reflexivity|].
  rewrite (H x (or_introl eq_refl)). f_equal. apply IH.
  intros y Hy. apply H. now right.
Qed.

Lemma filter_none {A} (f : A -> bool) (l : list A) :
  (forall x, In x l -> f x = false) -> filter f l = [].
Proof.
  induction l as [|x l IH]; intros H; simpl; [reflexivity|].
  rewrite (H x (or_introl eq_refl)). apply IH.
  intros y Hy. apply H. now right.
Qed.

Lemma castAll_In (l cs : list string) :
  ObjectId.castAll l = Some cs ->
  forall c, In c cs <-> exists p, In p l /\ ObjectId.cast p = Some c.
Proof.
  revert cs. induction l as [|x l IH]; simpl; intros cs H c.
  - inversion H; subst. simpl. split; [tauto | intros [p [[] _]]].
  - destruct (ObjectId.cast x) as [cx|] eqn:Hx; [|discriminate].
    destruct (ObjectId.castAll l) as [cl|]; [|discriminate].
    inversion H; subst; clear H. simpl. rewrite (IH cl eq_refl c). split.
    + intros [E | [p [Hp Hc]]].
      * exists x. subst. auto.
      * exists p. auto.
    + intros [p [[E | Hp] Hc]].
      * left. subst. congruence.
      * right. exists p. auto.
Qed.

Lemma find_reassign (c : string) (cs : list string) (au aun : string)
    (ts : list Task) :
  find (hasId_task c) (reassign cs au aun ts)
  = option_map (fun t => if mem (task_id t) cs then assign au aun t else t)
               (find (hasId_task c) ts).
Proof.
  unfold reassign. induction ts as [|t ts IH]; simpl; [reflexivity|].
  assert (E : hasId_task c (if mem (task_id t) cs then assign au aun t else t)
              = hasId_task c t) by (now destruct (mem (task_id t) cs)).
  rewrite E. destruct (hasId_task c t); [reflexivity | exact IH].
Qed.

Lemma find_updateFirst_same {A} (p : A -> bool) (f : A -> A) (l : list A)
    (y : A) :
  find p l = Some y -> p (f y) = true ->
  find p (updateFirst p f l) = Some (f y).
Proof.
  induction l as [|x l IH]; simpl; [discriminate|].
  destruct (p x) eqn:E; intros H Hf.
  - inversion H; subst. simpl. now rewrite Hf.
  - simpl. rewrite E. now apply IH.
Qed.

(** C9 (amended).  A PUT /api/users/:id whose body has no array under
    [pendingTasks] is handled as the same request with an empty array.
    When it succeeds, the stored user has an empty pending list, and every
    task that an id of the user's previous list resolves to is now the same
    task with [assignedUser] empty and [assignedUserName] ["unassigned"]. *)
Theorem update_without_pending_list_unassigns :
  forall (db : DB) (id : string) (body : UserBody) (v : JS.value)
         (user : User) (p : string) (t : Task),
    ub_pendingTasks body = NotArray v ->
    status (fst (Users.PUT id body db)) = 200 ->
    userById db id = Some user ->
    In p (user_pendingTasks user) ->
    taskById db p = Some t ->
    Users.PUT id body db
    = Users.PUT id (mkUserBody (ub_name body) (ub_email body) (IsArray [])) db /\
    userById (snd (Users.PUT id body db)) id = Some (replaced user body) /\
    user_pendingTasks (replaced user body) = [] /\
    taskById (snd (Users.PUT id body db)) p
    = Some (assign "" "unassigned" t).
Proof.
  intros db id body v user p t Hb Hs Hu Hp Ht.
  split.
  { unfold Users.PUT, Users.PUT_body. rewrite Hb. reflexivity. }
  destruct (Users.PUT id body db) as [r db'] eqn:HP. simpl in *.
  destruct (Users_PUT_200 _ _ _ _ _ HP Hs)
    as (c & user0 & csR & csA & _ & _ & Hc & Hf & HR & HA & Htasks & Husers & _).
  unfold userById in Hu. rewrite Hc, Hf in Hu. inversion Hu; subst user0.
  destruct (find_hasId_user _ _ _ Hf) as [_ Hid].
  assert (Hadd : toAddOf user body = []) by (unfold toAddOf; now rewrite Hb).
  assert (Hrem : toRemoveOf user body = user_pendingTasks user).
  { unfold toRemoveOf. rewrite Hb. now apply filter_all. }
  rewrite Hadd in HA, Husers. simpl in HA. inversion HA; subst csA.
  rewrite Hrem in HR. rewrite pullOthers_nil in Husers.
  rewrite reassign_nil in Htasks.
  split; [|split].
  - unfold userById. rewrite Hc, Husers, Hid.
    apply (find_updateFirst_same _ (fun _ => replaced user body) _ _ Hf).
    unfold hasId_user. simpl. rewrite Hid. apply String.eqb_refl.
  - unfold replaced. simpl. now rewrite Hb.
  - unfold taskById in *. destruct (ObjectId.cast p) as [cp|] eqn:Hcp;
      [|discriminate].
    rewrite Htasks, find_reassign, Ht. simpl.
    assert (Hm : mem (task_id t) csR = true).
    { apply mem_In, (castAll_In _ _ HR). exists p. split; [assumption|].
      apply find_some in Ht. destruct Ht as [_ Ht].
      apply String.eqb_eq in Ht. now rewrite Ht. }
    now rewrite Hm.
Qed.

Lemma update_without_pending_list_unassigns_witness :
  let body := mkUserBody (Some "Al") (Some "a@x.com")
                         (NotArray JS.Undefined) in
  status (fst (Users.PUT Sample.al body Sample.db)) = 200 /\
  userById Sample.db Sample.al = Some Sample.Al /\
  In Sample.t1 (user_pendingTasks Sample.Al) /\
  taskById Sample.db Sample.t1 = Some Sample.T1 /\
  Users.PUT Sample.al body Sample.db
  = Users.PUT Sample.al
              (mkUserBody (ub_name body) (ub_email body) (IsArray []))
              Sample.db /\
  userById (snd (Users.PUT Sample.al body Sample.db)) Sample.al
  = Some (replaced Sample.Al body) /\
  user_pendingTasks (replaced Sample.Al body) = [] /\
  taskById (snd (Users.PUT Sample.al body Sample.db)) Sample.t1
  = Some (assign "" "unassigned" Sample.T1).
Proof.
  intros body.
  split; [reflexivity|]. split; [reflexivity|].
  split; [now left|]. split; [reflexivity|].
  apply (update_without_pending_list_unassigns Sample.db Sample.al body
           JS.Undefined Sample.Al Sample.t1 Sample.T1);
    solve [reflexivity | now left].
Defined.

(** C9, as stated, fails on a request that the handler refuses: with no
    [name] the answer is 400, the user keeps its pending list and the task
    keeps its assignee. *)
Lemma update_without_name_unassigns_nothing :
  status (fst (Users.PUT Sample.al
                 (mkUserBody None (Some "a@x.com") (NotArray JS.Undefined))
                 Sample.db)) = 400 /\
  option_map user_pendingTasks
    (userById (snd (Users.PUT Sample.al
                      (mkUserBody None (Some "a@x.com") (NotArray JS.Undefined))
                      Sample.db)) Sample.al) = Some [Sample.t1] /\
  option_map task_assignedUser
    (taskById (snd (Users.PUT Sample.al
                      (mkUserBody None (Some "a@x.com") (NotArray JS.Undefined))
                      Sample.db)) Sample.t1) = Some Sample.al.
Proof. repeat split. Qed.

(* ===================================================================== *)
(** ** POST /api/users with ids of tasks that do not exist *)
(* ===================================================================== *)

Lemma isValid_cast (s : string) :
  ObjectId.isValid s = true -> exists c, ObjectId.cast s = Some c.
Proof.
  unfold ObjectId.isValid, ObjectId.cast. intros H.
  destruct ((List.length (list_ascii_of_string s) =? 24)%nat
            && forallb ObjectId.isHex (list_ascii_of_string s)).
  - eauto.
  - rewrite orb_false_r in H. rewrite H. eauto.
Qed.

Lemma forallb_isValid_castAll (l : list string) :
  forallb ObjectId.isValid l = true -> exists cs, ObjectId.castAll l = Some cs.
Proof.
  induction l as [|x l IH]; simpl; intros H; [eauto|].
  apply andb_true_iff in H. destruct H as [Hx Hl].
  destruct (isValid_cast _ Hx) as [c Hc]. destruct (IH Hl) as [cs Hcs].
  rewrite Hc, Hcs. eauto.
Qed.

(** C10 (amended).  A POST /api/users with a name, an email that no
    stored user has, and a [pendingTasks] array of well-formed ids none of
    which is the id of a completed task is answered 201, and the user is
    stored with that array as it came, ids of tasks that do not exist
    included: creation never looks for missing tasks. *)
Theorem create_user_keeps_unknown_task_ids :
  forall (db : DB) (body : UserBody) (l : list string),
    JS.truthy (ub_name body) = true ->
    JS.truthy (ub_email body) = true ->
    find (fun u => (user_email u =? JS.or_else (ub_email body) "")%string)
         (users db) = None ->
    ub_pendingTasks body = IsArray l ->
    forallb ObjectId.isValid l = true ->
    (forall t p, In t (tasks db) -> In p l ->
                 ObjectId.cast p = Some (task_id t) ->
                 task_completed t = false) ->
    fst (Users.POST body db)
    = json 201 "User created"
        (DUser None (mkUser (ObjectId.generate (nextId db))
                            (JS.or_else (ub_name body) "")
                            (JS.or_else (ub_email body) "") l (now db))) /\
    users (snd (Users.POST body db))
    = (users db ++ [mkUser (ObjectId.generate (nextId db))
                           (JS.or_else (ub_name body) "")
                           (JS.or_else (ub_email body) "") l (now db)])%list.
Proof.
  intros db body l Hn He Hex Hb Hv Hc.
  unfold Users.POST, run, Users.POST_body.
  rewrite Hn, He. cbn [negb orb].
  rewrite bind_eq, User_findOne_email_eq, Hex, bind_eq, Hb.
  destruct l as [|a l].
  - simpl. auto.
  - cbn [Users.nonEmptyArray Users.arrayOf Users.storedPending].
    destruct (forallb_isValid_castAll _ Hv) as [cs Hcs].
    rewrite bind_eq, try_catch_eq, Task_find_in_eq, Hcs.
    assert (Hnone : filter task_completed
                      (filter (fun t => mem (task_id t) cs) (tasks db)) = []).
    { apply filter_none. intros t Ht. apply filter_In in Ht.
      destruct Ht as [Ht Hm]. apply mem_In in Hm.
      apply (castAll_In _ _ Hcs) in Hm. destruct Hm as [p [Hp Hcp]].
      now apply (Hc t p). }
    rewrite Hnone. cbn [map]. change (@ret unit tt db) with (Val tt, db).
    cbv iota.
    rewrite bind_eq, User_create_eq, bind_eq. unfold when.
    rewrite try_catch_eq, Task_updateMany_in_eq, Hcs. simpl. auto.
Qed.

Lemma create_user_keeps_unknown_task_ids_witness :
  let body := mkUserBody (Some "Cy") (Some "c@x.com")
                         (IsArray [Sample.t1; Sample.ghost]) in
  taskById Sample.db Sample.ghost = None /\
  fst (Users.POST body Sample.db)
  = json 201 "User created"
      (DUser None (mkUser "000000000000000000000005" "Cy" "c@x.com"
                          [Sample.t1; Sample.ghost] 1700000000001)) /\
  users (snd (Users.POST body Sample.db))
  = [Sample.Al; Sample.Bo;
     mkUser "000000000000000000000005" "Cy" "c@x.com"
            [Sample.t1; Sample.ghost] 1700000000001].
Proof.
  intros body. split; [reflexivity|].
  apply (create_user_keeps_unknown_task_ids Sample.db body
           [Sample.t1; Sample.ghost]);
    try reflexivity.
  intros t p Ht Hp Hc.
  destruct Hp as [Hp | [Hp | []]]; subst p;
    vm_compute in Hc; inversion Hc as [Hid];
    destruct Ht as [E | [E | [E | []]]]; subst t;
    solve [reflexivity | discriminate Hid].
Defined.

(** C10, as stated, fails on a request that the handler refuses: with no
    [name] the answer is 400 and no user is stored. *)
Lemma create_user_without_name_is_refused :
  status (fst (Users.POST
                 (mkUserBody None (Some "c@x.com") (IsArray [Sample.ghost]))
                 Sample.db)) = 400 /\
  users (snd (Users.POST
                (mkUserBody None (Some "c@x.com") (IsArray [Sample.ghost]))
                Sample.db)) = users Sample.db.
Proof. split; reflexivity. Qed.

(** The same unknown id makes the update of a user fail with 404. *)
Lemma update_user_refuses_unknown_task_id :
  fst (Users.PUT Sample.al
         (mkUserBody (Some "Al") (Some "a@x.com")
                     (IsArray [Sample.t1; Sample.ghost]))
         Sample.db)
  = json 404 "Not Found: some task ids do not exist" (DIds [Sample.ghost]).
Proof. reflexivity. Qed.

(* ===================================================================== *)
(** ** POST /api/tasks with an assigned user *)
(* ===================================================================== *)

Lemma truthy_or_else (v : option string) :
  JS.truthy v = true -> JS.truthy_str (JS.or_else v "") = true.
Proof.
  destruct v as [s|]; simpl; [|discriminate].
  unfold JS.truthy_str. destruct (s =? "")%string eqn:E; simpl; [discriminate|].
  now rewrite E.
Qed.

Lemma or_else_truthy (s : string) :
  s <> "" -> JS.or_else (Some s) "" = s /\ JS.truthy (Some s) = true.
Proof.
  intros H. simpl. apply String.eqb_neq in H. now rewrite H.
Qed.

Lemma add_after_create (completed : bool) (au id : string) (db1 : DB) :
  exists db2,
    when (JS.truthy_str au && negb completed)
         (try_catch (Tasks.addTaskToUser au id) (fun _ => ret tt)) db1
    = (Val tt, db2) /\
    tasks db2 = tasks db1.
Proof.
  destruct (JS.truthy_str au && negb completed); simpl when.
  - rewrite try_catch_eq. unfold Tasks.addTaskToUser.
    destruct (negb (JS.truthy_str au)); cbv beta iota.
    + exists db1. split; reflexivity.
    + rewrite User_updateOne_push_eq.
      destruct (ObjectId.cast au).
      * eexists. split; reflexivity.
      * exists db1. split; reflexivity.
  - exists db1. split; reflexivity.
Qed.

(** C4 (amended).  For a POST /api/tasks that carries [name] and
    [deadline] and a non-empty [assignedUser]: a malformed id is answered
    400; a well-formed id of no user 404; a supplied [assignedUserName] that
    differs from the user's name 400, with both names in the answer;
    otherwise the name is derived from the user and the task is saved with
    it: when [new Date(parseInt(deadline))] is a date the answer is 201 and
    the created task carries the user's name as its [assignedUserName];
    when it is not, the save fails, the answer is 500 and no task is
    created. *)
Theorem create_task_resolves_assigned_user :
  forall (db : DB) (b : TaskBody) (au : string),
    JS.truthy (tb_name b) = true ->
    JS.truthy_value (tb_deadline b) = true ->
    tb_assignedUser b = Some au ->
    au <> "" ->
    (ObjectId.isValid au = false ->
     status (fst (Tasks.POST b db)) = 400) /\
    (ObjectId.isValid au = true -> userById db au = None ->
     status (fst (Tasks.POST b db)) = 404) /\
    (forall u provided,
        userById db au = Some u ->
        tb_assignedUserName b = Some provided ->
        provided <> "" -> provided <> user_name u ->
        fst (Tasks.POST b db)
        = json 400 "Bad Request: assignedUserName does not match user name"
            (DMismatch provided (user_name u))) /\
    (forall u dl,
        userById db au = Some u ->
        JS.truthy (tb_assignedUserName b) = false
        \/ tb_assignedUserName b = Some (user_name u) ->
        JS.newDate (JS.parseInt_value (tb_deadline b)) = Some dl ->
        exists t,
          fst (Tasks.POST b db) = json 201 "Task created" (DTask None t) /\
          task_assignedUser t = au /\
          task_assignedUserName t = user_name u /\
          In t (tasks (snd (Tasks.POST b db)))) /\
    (forall u,
        userById db au = Some u ->
        JS.truthy (tb_assignedUserName b) = false
        \/ tb_assignedUserName b = Some (user_name u) ->
        JS.newDate (JS.parseInt_value (tb_deadline b)) = None ->
        fst (Tasks.POST b db)
        = json 500 "Server error" (DError (ValidationError "deadline")) /\
        tasks (snd (Tasks.POST b db)) = tasks db /\
        users (snd (Tasks.POST b db)) = users db).
Proof.
  intros db b au Hn Hd Hau Hne.
  destruct (or_else_truthy _ Hne) as [Hor Htr].
  assert (Hstr : JS.truthy_str au = true).
  { rewrite <- Hor. apply truthy_or_else. exact Htr. }
  unfold Tasks.POST, run, Tasks.POST_body.
  rewrite Hn, Hd, Hau, Hor, Hstr. cbn [negb orb].
  split; [|split; [|split; [|split]]].
  - intros Hv. rewrite Hv. reflexivity.
  - intros Hv Hu. rewrite Hv. cbn [negb].
    unfold userById in Hu.
    destruct (isValid_cast _ Hv) as [c Hc]. rewrite Hc in Hu.
    rewrite bind_eq, bind_eq, User_findById_eq, Hc, Hu. reflexivity.
  - intros u provided Hu Hp Hpne Hmis.
    unfold userById in Hu.
    destruct (ObjectId.cast au) as [c|] eqn:Hc; [|discriminate].
    assert (Hv : ObjectId.isValid au = true).
    { unfold ObjectId.isValid. unfold ObjectId.cast in Hc.
      destruct ((List.length (list_ascii_of_string au) =? 24)%nat
                && forallb ObjectId.isHex (list_ascii_of_string au));
        [apply orb_true_r|].
      destruct (List.length (list_ascii_of_string au) =? 12)%nat;
        [reflexivity | discriminate]. }
    rewrite Hv. cbn [negb].
    rewrite bind_eq, bind_eq, User_findById_eq, Hc, Hu, Hp.
    destruct (or_else_truthy _ Hpne) as [Hor' Htr']. rewrite Htr', Hor'.
    apply String.eqb_neq in Hmis. rewrite Hmis. reflexivity.
  - intros u dl Hu Hname Hdl.
    unfold userById in Hu.
    destruct (ObjectId.cast au) as [c|] eqn:Hc; [|discriminate].
    assert (Hv : ObjectId.isValid au = true).
    { unfold ObjectId.isValid. unfold ObjectId.cast in Hc.
      destruct ((List.length (list_ascii_of_string au) =? 24)%nat
                && forallb ObjectId.isHex (list_ascii_of_string au));
        [apply orb_true_r|].
      destruct (List.length (list_ascii_of_string au) =? 12)%nat;
        [reflexivity | discriminate]. }
    rewrite Hv. cbn [negb].
    rewrite bind_eq, bind_eq, User_findById_eq, Hc, Hu.
    assert (Hres :
      (if JS.truthy (tb_assignedUserName b)
       then if negb (JS.or_else (tb_assignedUserName b) "" =? user_name u)%string
            then respond
                   (json 400
                      "Bad Request: assignedUserName does not match user name"
                      (DMismatch (JS.or_else (tb_assignedUserName b) "")
                                 (user_name u)))
            else ret (JS.or_else (tb_assignedUserName b) "")
       else ret (user_name u)) db = (Val (user_name u), db)).
    { destruct Hname as [Hf | Hs].
      - rewrite Hf. reflexivity.
      - rewrite Hs. simpl.
        destruct (user_name u =? "")%string eqn:E; [reflexivity|].
        rewrite String.eqb_refl. reflexivity. }
    cbv beta iota. rewrite Hres, bind_eq, Hdl, Task_create_eq, bind_eq.
    destruct (add_after_create (JS.is_true (tb_completed b)) au
                (ObjectId.generate (nextId db))
                (mkDB (tasks db ++
                       [mkTask (ObjectId.generate (nextId db))
                               (JS.or_else (tb_name b) "")
                               (JS.or_else (tb_description b) "") dl
                               (JS.is_true (tb_completed b)) au (user_name u)])
                      (users db) (nextId db + 1) (now db)))
      as [db2 [E Ht]].
    cbn [task_id]. rewrite Hstr in E. rewrite E.
    unfold ret. cbn [fst snd].
    eexists. repeat split. rewrite Ht. cbn [tasks].
    apply in_or_app. right. now left.
  - intros u Hu Hname Hdl.
    unfold userById in Hu.
    destruct (ObjectId.cast au) as [c|] eqn:Hc; [|discriminate].
    assert (Hv : ObjectId.isValid au = true).
    { unfold ObjectId.isValid. unfold ObjectId.cast in Hc.
      destruct ((List.length (list_ascii_of_string au) =? 24)%nat
                && forallb ObjectId.isHex (list_ascii_of_string au));
        [apply orb_true_r|].
      destruct (List.length (list_ascii_of_string au) =? 12)%nat;
        [reflexivity | discriminate]. }
    rewrite Hv. cbn [negb].
    rewrite bind_eq, bind_eq, User_findById_eq, Hc, Hu.
    assert (Hres :
      (if JS.truthy (tb_assignedUserName b)
       then if negb (JS.or_else (tb_assignedUserName b) "" =? user_name u)%string
            then respond
                   (json 400
                      "Bad Request: assignedUserName does not match user name"
                      (DMismatch (JS.or_else (tb_assignedUserName b) "")
                                 (user_name u)))
            else ret (JS.or_else (tb_assignedUserName b) "")
       else ret (user_name u)) db = (Val (user_name u), db)).
    { destruct Hname as [Hf | Hs].
      - rewrite Hf. reflexivity.
      - rewrite Hs. simpl.
        destruct (user_name u =? "")%string eqn:E; [reflexivity|].
        rewrite String.eqb_refl. reflexivity. }
    cbv beta iota. rewrite Hres, bind_eq, Hdl. repeat split.
Qed.

Lemma create_task_resolves_assigned_user_witness :
  status (fst (Tasks.POST (Sample.taskBody (Some "T4") (Some "nope") None)
                          Sample.db)) = 400 /\
  status (fst (Tasks.POST (Sample.taskBody (Some "T4") (Some Sample.ghost) None)
                          Sample.db)) = 404 /\
  fst (Tasks.POST (Sample.taskBody (Some "T4") (Some Sample.al) (Some "Bob"))
                  Sample.db)
  = json 400 "Bad Request: assignedUserName does not match user name"
      (DMismatch "Bob" "Al") /\
  (exists t,
      fst (Tasks.POST (Sample.taskBody (Some "T4") (Some Sample.al) None)
                      Sample.db)
      = json 201 "Task created" (DTask None t) /\
      task_assignedUser t = Sample.al /\
      task_assignedUserName t = user_name Sample.Al /\
      In t (tasks (snd (Tasks.POST
                          (Sample.taskBody (Some "T4") (Some Sample.al) None)
                          Sample.db)))) /\
  JS.newDate (JS.parseInt "abc") = None /\
  fst (Tasks.POST (mkTaskBody (Some "T4") None (JS.Str "abc") JS.Undefined
                              (Some Sample.al) None) Sample.db)
  = json 500 "Server error" (DError (ValidationError "deadline")) /\
  tasks (snd (Tasks.POST (mkTaskBody (Some "T4") None (JS.Str "abc")
                                     JS.Undefined (Some Sample.al) None)
                         Sample.db)) = tasks Sample.db.
Proof.
  assert (Hne : forall s, s = "nope" \/ s = Sample.ghost \/ s = Sample.al ->
                          s <> "").
  { intros s [H | [H | H]]; subst s; discriminate. }
  split; [|split; [|split; [|split; [|split; [reflexivity|]]]]].
  - destruct (create_task_resolves_assigned_user Sample.db
                (Sample.taskBody (Some "T4") (Some "nope") None) "nope"
                eq_refl eq_refl eq_refl (Hne _ (or_introl eq_refl)))
      as (H & _).
    apply H. reflexivity.
  - destruct (create_task_resolves_assigned_user Sample.db
                (Sample.taskBody (Some "T4") (Some Sample.ghost) None)
                Sample.ghost eq_refl eq_refl eq_refl
                (Hne _ (or_intror (or_introl eq_refl))))
      as (_ & H & _).
    apply H; reflexivity.
  - destruct (create_task_resolves_assigned_user Sample.db
                (Sample.taskBody (Some "T4") (Some Sample.al) (Some "Bob"))
                Sample.al eq_refl eq_refl eq_refl
                (Hne _ (or_intror (or_intror eq_refl))))
      as (_ & _ & H & _).
    apply (H Sample.Al "Bob"); solve [reflexivity | discriminate].
  - destruct (create_task_resolves_assigned_user Sample.db
                (Sample.taskBody (Some "T4") (Some Sample.al) None)
                Sample.al eq_refl eq_refl eq_refl
                (Hne _ (or_intror (or_intror eq_refl))))
      as (_ & _ & _ & H & _).
    apply (H Sample.Al 1700000000000);
      solve [reflexivity | left; reflexivity].
  - destruct (create_task_resolves_assigned_user Sample.db
                (mkTaskBody (Some "T4") None (JS.Str "abc") JS.Undefined
                            (Some Sample.al) None)
                Sample.al eq_refl eq_refl eq_refl
                (Hne _ (or_intror (or_intror eq_refl))))
      as (_ & _ & _ & _ & H).
    destruct (H Sample.Al eq_refl (or_introl eq_refl) eq_refl)
      as (H1 & H2 & _).
    split; [exact H1 | exact H2].
Defined.

(** C4, as stated, fails on a request that carries no [name]: the id is
    well-formed and belongs to no user, and the answer is 400, not 404. *)
Lemma create_task_without_name_is_400 :
  ObjectId.isValid Sample.ghost = true /\
  userById Sample.db Sample.ghost = None /\
  fst (Tasks.POST (Sample.taskBody None (Some Sample.ghost) None) Sample.db)
  = json 400 "Bad Request: name and deadline are required" DEmpty.
Proof. repeat split. Qed.

(* ===================================================================== *)
(** ** Invariant I3 and the renaming of a user *)
(* ===================================================================== *)

(** C1.  The code breaks I3: in a database where it holds, a PUT
    /api/users/:id that changes the name and keeps the pending list is
    answered 200, and the task that stays in the list still carries the old
    name. *)
Theorem rename_leaves_stale_assignedUserName :
  I3 Sample.db = true /\
  status (fst (Users.PUT Sample.al
                 (mkUserBody (Some "Alan") (Some "a@x.com")
                             (IsArray [Sample.t1]))
                 Sample.db)) = 200 /\
  option_map user_name
    (userById (snd (Users.PUT Sample.al
                      (mkUserBody (Some "Alan") (Some "a@x.com")
                                  (IsArray [Sample.t1]))
                      Sample.db)) Sample.al) = Some "Alan" /\
  taskById (snd (Users.PUT Sample.al
                   (mkUserBody (Some "Alan") (Some "a@x.com")
                               (IsArray [Sample.t1]))
                   Sample.db)) Sample.t1
  = Some (mkTask Sample.t1 "T1" "" 1700000000000 false Sample.al "Al") /\
  I3 (snd (Users.PUT Sample.al
             (mkUserBody (Some "Alan") (Some "a@x.com") (IsArray [Sample.t1]))
             Sample.db)) = false.
Proof. vm_compute. repeat split. Qed.

(** A task created with no assigned user stores the empty string as its
    [assignedUserName] (or whatever name the request carried), where the
    update of a task stores ["unassigned"]. *)
Lemma unassigned_task_is_created_with_empty_name :
  fst (Tasks.POST (Sample.taskBody (Some "T") None None) Sample.empty)
  = json 201 "Task created"
      (DTask None (mkTask "000000000000000000000000" "T" "" 1700000000000
                          false "" "")) /\
  I3 (snd (Tasks.POST (Sample.taskBody (Some "T") None None) Sample.empty))
  = false.
Proof. vm_compute. repeat split. Qed.

(* ===================================================================== *)
(** ** GET by id *)
(* ===================================================================== *)

(** X1.  GET /api/tasks/:id answers 400 to every malformed id, and
    writes nothing. *)
Lemma get_task_malformed_id_is_400 :
  forall (id : string) (p : Params) (db : DB),
    ObjectId.isValid id = false ->
    status (fst (Tasks.GET id p db)) = 400 /\ snd (Tasks.GET id p db) = db.
Proof.
  intros id p db H. unfold Tasks.GET, run, Tasks.GET_body.
  destruct (isNull (parseJSONParam (rq_select p))); [now split|].
  rewrite H. now split.
Qed.

(** C5.  GET /api/users/:id does not check the id as GET /api/tasks/:id
    does: on the same malformed id the task route answers 400 and the user
    route lets the cast fail, which is answered 500. *)
Theorem get_user_malformed_id_is_500 :
  forall db : DB,
    ObjectId.isValid "not-an-id" = false /\
    fst (Tasks.GET "not-an-id" noParams db)
    = json 400 "Bad Request: invalid id format" DEmpty /\
    fst (Users.GET "not-an-id" noParams db)
    = json 500 "Server error" (DError (CastError "not-an-id")).
Proof. intros db. repeat split. Qed.

Lemma not_isValid_cast (s : string) :
  ObjectId.isValid s = false -> ObjectId.cast s = None.
Proof.
  unfold ObjectId.isValid, ObjectId.cast. intros H.
  apply orb_false_iff in H. destruct H as [H12 H24].
  now rewrite H24, H12.
Qed.

(** The same holds of every malformed id: GET /api/users/:id answers it
    with 500 and the cast error. *)
Lemma get_user_malformed_id_is_cast_error :
  forall (id : string) (db : DB),
    ObjectId.isValid id = false ->
    fst (Users.GET id noParams db)
    = json 500 "Server error" (DError (CastError id)).
Proof.
  intros id db H. unfold Users.GET, run, Users.GET_body, noParams.
  cbn [rq_select rq_filter parseJSONParam or_parsed truthy_parsed isNull].
  rewrite bind_eq, User_findById_eq, (not_isValid_cast _ H). reflexivity.
Qed.

(** X2.  With a well-formed id of no stored user, and no projection,
    GET /api/users/:id answers 404. *)
Lemma get_user_absent_is_404 :
  forall (id : string) (db : DB),
    ObjectId.isValid id = true ->
    userById db id = None ->
    fst (Users.GET id noParams db) = json 404 "Not Found" DEmpty.
Proof.
  intros id db Hv Hu. unfold Users.GET, run, Users.GET_body, noParams.
  cbn [rq_select rq_filter parseJSONParam or_parsed truthy_parsed isNull].
  rewrite bind_eq, User_findById_eq.
  destruct (isValid_cast _ Hv) as [c Hc]. unfold userById in Hu.
  rewrite Hc in Hu. rewrite Hc, Hu. reflexivity.
Qed.

(* ===================================================================== *)
(** ** Malformed JSON in the list parameters *)
(* ===================================================================== *)

Lemma parseJSONParam_malformed (s : string) :
  s <> "" -> JSON.parse s = None ->
  isNull (parseJSONParam (Some s)) = true.
Proof.
  intros Hs Hp. unfold parseJSONParam, JS.truthy_str.
  apply String.eqb_neq in Hs. rewrite Hs, Hp. reflexivity.
Qed.

(** X3.  GET /api/tasks answers 400 as soon as one of [where], [sort],
    [select] is a non-empty string that is not JSON. *)
Lemma list_tasks_malformed_is_400 :
  forall (p : Params) (s : string),
    s <> "" -> JSON.parse s = None ->
    rq_where p = Some s \/ rq_sort p = Some s \/ rq_select p = Some s ->
    Tasks.GET_list p
    = Answer (json 400 "Bad Request: malformed JSON in query parameters"
                   DEmpty).
Proof.
  intros p s Hs Hp H. unfold Tasks.GET_list, buildListing.
  pose proof (parseJSONParam_malformed s Hs Hp) as Hn.
  destruct H as [H | [H | H]]; rewrite H, Hn.
  - reflexivity.
  - now rewrite orb_true_r.
  - now rewrite orb_true_r.
Qed.

(** C6.  On GET /api/users a malformed [select] is lost: [null || x]
    hands over to the [filter] alias, and with no alias the request is
    served as if [select] were absent, where GET /api/tasks answers 400. *)
Theorem malformed_select_is_ignored_for_users :
  JSON.parse "{bad" = None /\
  Tasks.GET_list (with_select noParams (Some "{bad"))
  = Answer (json 400 "Bad Request: malformed JSON in query parameters" DEmpty) /\
  Users.GET_list (with_select noParams (Some "{bad"))
  = Exec (mkQuery (JSON.JObject []) None None None None) /\
  Users.GET_list (with_select noParams (Some "{bad"))
  = Users.GET_list noParams.
Proof. vm_compute. repeat split. Qed.

(** The same holds of every malformed [select] when no [filter] comes
    with it: the user listing is the one of the request without [select]. *)
Lemma malformed_select_is_absent_for_users :
  forall (p : Params) (s : string),
    s <> "" -> JSON.parse s = None -> rq_filter p = None ->
    Users.GET_list (with_select p (Some s))
    = Users.GET_list (with_select p None).
Proof.
  intros p s Hs Hp Hf. unfold Users.GET_list, with_select.
  cbn [rq_where rq_sort rq_select rq_filter rq_skip rq_limit rq_count].
  rewrite Hf. unfold parseJSONParam at 3 5, JS.truthy_str.
  apply String.eqb_neq in Hs. rewrite Hs, Hp. reflexivity.
Qed.

(** An empty value is taken for an absent parameter on both routes. *)
Lemma empty_parameter_is_absent :
  parseJSONParam (Some "") = parseJSONParam None.
Proof. reflexivity. Qed.

(* ===================================================================== *)
(** ** skip and limit *)
(* ===================================================================== *)

Lemma intParam_nonempty (s : string) (d : option JS.number) :
  s <> "" -> intParam (Some s) d = Some (JS.parseInt s).
Proof.
  intros H. unfold intParam, JS.truthy_str. apply String.eqb_neq in H.
  now rewrite H.
Qed.

Lemma intParam_empty (d : option JS.number) :
  intParam (Some "") d = intParam None d.
Proof. reflexivity. Qed.

Lemma parseInt_empty : JS.parseInt "" = JS.NaN.
Proof. reflexivity. Qed.

Lemma appliedNum_number (n : JS.number) :
  appliedNum (Some n) = if JS.isNaN (Some n) then None else Some n.
Proof. unfold appliedNum. now destruct (JS.isNaN (Some n)). Qed.

Lemma appliedNum_NaN : appliedNum (Some JS.NaN) = None.
Proof. reflexivity. Qed.

Lemma appliedNum_read (n : JS.number) :
  n <> JS.NaN -> appliedNum (Some n) = Some n.
Proof. intros H. destruct n; [now elim H | reflexivity ..]. Qed.

Lemma builtBy_buildListing (w srt sel : parsed) (skip limit : option JS.number)
    (count : bool) (q : Query) :
  builtBy (buildListing w srt sel skip limit count) = Some q ->
  q_skip q = appliedNum skip /\ q_limit q = appliedNum limit.
Proof.
  unfold buildListing.
  destruct (isNull w || isNull srt || isNull sel); [discriminate|].
  destruct count; simpl; intros H; inversion H; split; reflexivity.
Qed.

(** C8 (amended).  [skip] and [limit] never make a list handler answer by
    itself.  An empty value is an absent one, and an absent one applies
    nothing, but for [limit] on the task route, where it applies 100.  A
    non-empty value is read with [parseInt]: when that reads no number,
    nothing is applied, which is the absent case but for [limit] on the
    task route, where the default is lifted; when it reads a number,
    negative or not, that number is applied. *)
Theorem skip_and_limit_follow_parseInt :
  forall (p : Params) (s : string),
    (forall l : option string,
        answered (Tasks.GET_list (with_limit (with_skip p (Some s)) l))
        = answered (Tasks.GET_list p) /\
        answered (Users.GET_list (with_limit (with_skip p (Some s)) l))
        = answered (Users.GET_list p)) /\
    (Tasks.GET_list (with_skip p (Some "")) = Tasks.GET_list (with_skip p None) /\
     Tasks.GET_list (with_limit p (Some ""))
     = Tasks.GET_list (with_limit p None) /\
     Users.GET_list (with_skip p (Some "")) = Users.GET_list (with_skip p None) /\
     Users.GET_list (with_limit p (Some ""))
     = Users.GET_list (with_limit p None)) /\
    (forall q : Query,
        (builtBy (Tasks.GET_list (with_skip p None)) = Some q ->
         q_skip q = None) /\
        (builtBy (Tasks.GET_list (with_limit p None)) = Some q ->
         q_limit q = Some (JS.Finite 100)) /\
        (builtBy (Users.GET_list (with_skip p None)) = Some q ->
         q_skip q = None) /\
        (builtBy (Users.GET_list (with_limit p None)) = Some q ->
         q_limit q = None)) /\
    (s <> "" -> JS.parseInt s = JS.NaN ->
     Tasks.GET_list (with_skip p (Some s)) = Tasks.GET_list (with_skip p None) /\
     Users.GET_list (with_skip p (Some s)) = Users.GET_list (with_skip p None) /\
     Users.GET_list (with_limit p (Some s))
     = Users.GET_list (with_limit p None) /\
     forall q : Query,
       builtBy (Tasks.GET_list (with_limit p (Some s))) = Some q ->
       q_limit q = None) /\
    (forall q : Query,
        s <> "" -> JS.parseInt s <> JS.NaN ->
        (builtBy (Tasks.GET_list (with_skip p (Some s))) = Some q ->
         q_skip q = Some (JS.parseInt s)) /\
        (builtBy (Tasks.GET_list (with_limit p (Some s))) = Some q ->
         q_limit q = Some (JS.parseInt s)) /\
        (builtBy (Users.GET_list (with_skip p (Some s))) = Some q ->
         q_skip q = Some (JS.parseInt s)) /\
        (builtBy (Users.GET_list (with_limit p (Some s))) = Some q ->
         q_limit q = Some (JS.parseInt s))).
Proof.
  intros p s. split; [|split; [|split; [|split]]].
  - intros l. unfold Tasks.GET_list, Users.GET_list, buildListing.
    cbn [with_skip with_limit rq_where rq_sort rq_select rq_filter rq_skip
         rq_limit rq_count].
    split.
    + destruct (isNull (parseJSONParam (rq_where p))
                || isNull (parseJSONParam (rq_sort p))
                || isNull (parseJSONParam (rq_select p)));
        [reflexivity|].
      now destruct (countParam (rq_count p)).
    + destruct (isNull (parseJSONParam (rq_where p))
                || isNull (parseJSONParam (rq_sort p))
                || isNull (or_parsed (parseJSONParam (rq_select p))
                                     (parseJSONParam (rq_filter p))));
        [reflexivity|].
      now destruct (countParam (rq_count p)).
  - repeat split.
  - intros q. unfold Tasks.GET_list, Users.GET_list.
    cbn [with_skip with_limit rq_where rq_sort rq_select rq_filter rq_skip
         rq_limit rq_count].
    repeat split; intros H; apply builtBy_buildListing in H;
      destruct H as [H1 H2]; solve [exact H1 | exact H2].
  - intros Hs Hn. unfold Tasks.GET_list, Users.GET_list.
    cbn [with_skip with_limit rq_where rq_sort rq_select rq_filter rq_skip
         rq_limit rq_count].
    rewrite !(intParam_nonempty _ _ Hs), Hn.
    repeat split.
    intros q H. apply builtBy_buildListing in H. destruct H as [_ H].
    exact H.
  - intros q Hs Hn. unfold Tasks.GET_list, Users.GET_list.
    cbn [with_skip with_limit rq_where rq_sort rq_select rq_filter rq_skip
         rq_limit rq_count].
    rewrite !(intParam_nonempty _ _ Hs).
    repeat split; intros H; apply builtBy_buildListing in H;
      destruct H as [H1 H2]; rewrite (appliedNum_read _ Hn) in *;
      solve [exact H1 | exact H2].
Qed.

Lemma skip_and_limit_follow_parseInt_witness :
  JS.parseInt "abc" = JS.NaN /\
  Tasks.GET_list (with_skip noParams (Some "abc"))
  = Tasks.GET_list (with_skip noParams None) /\
  Tasks.GET_list (with_limit noParams (Some "abc"))
  = Exec (mkQuery (JSON.JObject []) None None None None) /\
  JS.parseInt "12abc" = JS.Finite 12 /\
  Users.GET_list (with_limit noParams (Some "12abc"))
  = Exec (mkQuery (JSON.JObject []) None None None (Some (JS.Finite 12))) /\
  q_limit (mkQuery (JSON.JObject []) None None None (Some (JS.Finite 12)))
  = Some (JS.parseInt "12abc").
Proof.
  destruct (skip_and_limit_follow_parseInt noParams "abc")
    as (_ & _ & _ & Ha & _).
  destruct (skip_and_limit_follow_parseInt noParams "12abc")
    as (_ & _ & _ & _ & Hb).
  split; [reflexivity|]. split; [apply Ha; [discriminate | reflexivity]|].
  split; [reflexivity|]. split; [reflexivity|]. split; [reflexivity|].
  destruct (Hb (mkQuery (JSON.JObject []) None None None
                        (Some (JS.Finite 12))))
    as (_ & _ & _ & Hl); [discriminate | discriminate |].
  apply Hl. reflexivity.
Defined.

(** C8, as stated, fails on a negative value: ["-5"] is no non-negative
    integer, and it is applied to the query as [-5], where an absent [skip]
    applies nothing. *)
Lemma negative_skip_is_applied :
  Tasks.GET_list (with_skip noParams (Some "-5"))
  = Exec (mkQuery (JSON.JObject []) None None (Some (JS.Finite (-5)))
                  (Some (JS.Finite 100))) /\
  Tasks.GET_list noParams
  = Exec (mkQuery (JSON.JObject []) None None None (Some (JS.Finite 100))) /\
  Users.GET_list (with_limit noParams (Some "-5"))
  = Exec (mkQuery (JSON.JObject []) None None None (Some (JS.Finite (-5)))).
Proof. repeat split. Qed.

(** On the task route a [limit] that does not parse lifts the default of
    100 instead of keeping it. *)
Lemma unparseable_task_limit_lifts_default :
  Tasks.GET_list (with_limit noParams (Some "abc"))
  = Exec (mkQuery (JSON.JObject []) None None None None) /\
  Tasks.GET_list (with_limit noParams None)
  = Exec (mkQuery (JSON.JObject []) None None None (Some (JS.Finite 100))).
Proof. repeat split. Qed.

(** What [parseInt] reads: white space before the number, the no-break
    space included, a sign, a prefix [0x], and digits up to the first
    character that is none; the result is a double, so that a long run of
    digits is rounded and a very long one is an infinity. *)
Lemma parseInt_reads :
  JS.parseInt (String (ascii_of_nat 160) " 5") = JS.Finite 5 /\
  JS.parseInt "0x1A" = JS.Finite 26 /\
  JS.parseInt "-0" = JS.NegZero /\
  JS.parseInt "1e3" = JS.Finite 1 /\
  JS.parseInt "9007199254740993" = JS.Finite 9007199254740992 /\
  JS.parseInt (String "1" (string_of_list_ascii (repeat "0"%char 309)))
  = JS.Infinite false.
Proof. vm_compute. repeat split. Qed.

(** [parseInt] of a number of a body goes through its text: from 1e21 on
    the text has an exponent, and only its first digit is read. *)
Lemma parseInt_value_reads :
  JS.parseInt_value (JS.Num 1700000000000) = JS.Finite 1700000000000 /\
  JS.toString (JS.Num (2 ^ 60)) = "1152921504606847000" /\
  JS.toString (JS.Num (10 ^ 21)) = "1e+21" /\
  JS.parseInt_value (JS.Num (10 ^ 21)) = JS.Finite 1 /\
  JS.toString (JS.Num (2 ^ 70)) = "1.1805916207174113e+21" /\
  JS.newDate (JS.parseInt_value (JS.Num (2 ^ 70))) = Some 1.
Proof. vm_compute. repeat split. Qed.

(* ===================================================================== *)
(** ** Further properties of the handlers *)
(* ===================================================================== *)

Lemma get_task_malformed_id_is_400_witness :
  ObjectId.isValid "not-an-id" = false /\
  status (fst (Tasks.GET "not-an-id" noParams Sample.db)) = 400 /\
  snd (Tasks.GET "not-an-id" noParams Sample.db) = Sample.db.
Proof.
  split; [reflexivity|].
  apply (get_task_malformed_id_is_400 "not-an-id" noParams Sample.db).
  reflexivity.
Defined.

Lemma get_user_absent_is_404_witness :
  ObjectId.isValid Sample.ghost = true /\
  userById Sample.db Sample.ghost = None /\
  fst (Users.GET Sample.ghost noParams Sample.db)
  = json 404 "Not Found" DEmpty.
Proof.
  split; [reflexivity|]. split; [reflexivity|].
  apply (get_user_absent_is_404 Sample.ghost Sample.db); reflexivity.
Defined.

Lemma list_tasks_malformed_is_400_witness :
  JSON.parse "[1,]" = None /\
  Tasks.GET_list (mkParams None (Some "[1,]") None None None None None)
  = Answer (json 400 "Bad Request: malformed JSON in query parameters" DEmpty).
Proof.
  split; [reflexivity|].
  apply (list_tasks_malformed_is_400
           (mkParams None (Some "[1,]") None None None None None) "[1,]").
  - discriminate.
  - reflexivity.
  - right. left. reflexivity.
Defined.

Lemma User_deleteOne_eq (id : string) (db : DB) :
  User_deleteOne id db =
  match ObjectId.cast id with
  | Some c => (Val tt, set_users db (deleteFirst (hasId_user c) (users db)))
  | None => (Err (CastError id), db)
  end.
Proof.
  unfold User_deleteOne. rewrite bind_eq, castId_eq.
  now destruct (ObjectId.cast id).
Qed.

(** X4.  When DELETE /api/users/:id succeeds, every task that an id of
    the deleted user's pending list resolves to is afterwards the same task
    with [assignedUser] empty and [assignedUserName] ["unassigned"]; no task
    is deleted. *)
Theorem delete_user_unassigns_pending_tasks :
  forall (db : DB) (id : string) (user : User) (p : string) (t : Task),
    status (fst (Users.DELETE id db)) = 204 ->
    userById db id = Some user ->
    In p (user_pendingTasks user) ->
    taskById db p = Some t ->
    taskById (snd (Users.DELETE id db)) p = Some (assign "" "unassigned" t) /\
    map task_id (tasks (snd (Users.DELETE id db))) = map task_id (tasks db).
Proof.
  intros db id user p t Hs Hu Hp Ht.
  unfold Users.DELETE, run, Users.DELETE_body in *.
  unfold userById in Hu.
  rewrite bind_eq, User_findById_eq in *.
  destruct (ObjectId.cast id) as [c|] eqn:Hc; [|discriminate].
  rewrite Hu in *. rewrite bind_eq, when_updateMany in *.
  destruct (ObjectId.castAll (user_pendingTasks user)) as [cs|] eqn:Hcs;
    [|discriminate].
  rewrite bind_eq, User_deleteOne_eq, Hc in *. simpl.
  assert (Hm : mem (task_id t) cs = true).
  { unfold taskById in Ht.
    destruct (ObjectId.cast p) as [cp|] eqn:Hcp; [|discriminate].
    apply mem_In, (castAll_In _ _ Hcs). exists p. split; [assumption|].
    apply find_some in Ht. destruct Ht as [_ Ht].
    apply String.eqb_eq in Ht. now rewrite Ht. }
  split.
  - unfold taskById in *.
    destruct (ObjectId.cast p) as [cp|]; [|discriminate].
    simpl. rewrite find_reassign, Ht. simpl. now rewrite Hm.
  - unfold reassign. rewrite map_map. apply map_ext.
    intros a. now destruct (mem (task_id a) cs).
Qed.

Lemma delete_user_unassigns_pending_tasks_witness :
  status (fst (Users.DELETE Sample.al Sample.db)) = 204 /\
  taskById (snd (Users.DELETE Sample.al Sample.db)) Sample.t1
  = Some (mkTask Sample.t1 "T1" "" 1700000000000 false "" "unassigned") /\
  map task_id (tasks (snd (Users.DELETE Sample.al Sample.db)))
  = map task_id (tasks Sample.db).
Proof.
  split; [reflexivity|].
  apply (delete_user_unassigns_pending_tasks Sample.db Sample.al Sample.Al
           Sample.t1 Sample.T1); solve [reflexivity | now left].
Defined.

(** The scenario of the specification: Al is created with no pending
    task; a task created for Al carries his name and enters his pending
    list; once the task is put as completed the list is empty again. *)
Theorem scenario_completed_task_leaves_pending_list :
  let alId := "000000000000000000000000" in
  let t1Id := "000000000000000000000001" in
  let r1 := Users.POST (mkUserBody (Some "Al") (Some "a@x.com")
                                   (NotArray JS.Undefined)) Sample.empty in
  let r2 := Tasks.POST (mkTaskBody (Some "T1") None (JS.Num 1700000000000)
                                   JS.Undefined (Some alId) None) (snd r1) in
  let r3 := Tasks.PUT t1Id (mkTaskBody (Some "T1") None (JS.Num 1700000000000)
                                       (JS.Bool true) None None) (snd r2) in
  fst r1 = json 201 "User created"
             (DUser None (mkUser alId "Al" "a@x.com" [] 1700000000001)) /\
  fst r2 = json 201 "Task created"
             (DTask None (mkTask t1Id "T1" "" 1700000000000 false alId "Al")) /\
  option_map user_pendingTasks (userById (snd r2) alId) = Some [t1Id] /\
  status (fst r3) = 200 /\
  option_map user_pendingTasks (userById (snd r3) alId) = Some [].
Proof. vm_compute. repeat split. Qed.

(* ===================================================================== *)
(** ** Looking a document up after [updateOne] and [deleteOne] *)
(* ===================================================================== *)

Lemma find_updateFirst_sub {A} (p q : A -> bool) (f : A -> A) (l : list A) :
  (forall x, p x = true -> q x = true) ->
  (forall x, q (f x) = q x) ->
  find q (updateFirst p f l)
  = option_map (fun y => if p y then f y else y) (find q l).
Proof.
  intros Hpq Hf. induction l as [|x l IH]; simpl; [reflexivity|].
  destruct (p x) eqn:Ep; simpl.
  - rewrite Hf, (Hpq x Ep). simpl. now rewrite Ep.
  - destruct (q x) eqn:Eq; simpl; [now rewrite Ep | exact IH].
Qed.

Lemma find_updateFirst_disjoint {A} (p q : A -> bool) (f : A -> A)
    (l : list A) :
  (forall x, p x = true -> q x = false) ->
  (forall x, p x = true -> q (f x) = false) ->
  find q (updateFirst p f l) = find q l.
Proof.
  intros Hpq Hf. induction l as [|x l IH]; simpl; [reflexivity|].
  destruct (p x) eqn:Ep; simpl.
  - now rewrite (Hf x Ep), (Hpq x Ep).
  - destruct (q x); [reflexivity | exact IH].
Qed.

Lemma find_deleteFirst_disjoint {A} (p q : A -> bool) (l : list A) :
  (forall x, p x = true -> q x = false) ->
  find q (deleteFirst p l) = find q l.
Proof.
  intros Hpq. induction l as [|x l IH]; simpl; [reflexivity|].
  destruct (p x) eqn:Ep; simpl.
  - now rewrite (Hpq x Ep).
  - destruct (q x); [reflexivity | exact IH].
Qed.

Lemma hasId_user_other (c c' : string) (u : User) :
  c' <> c -> hasId_user c u = true -> hasId_user c' u = false.
Proof.
  unfold hasId_user. intros Hne H. apply String.eqb_eq in H.
  apply String.eqb_neq. congruence.
Qed.

Lemma hasId_task_other (c c' : string) (t : Task) :
  c' <> c -> hasId_task c t = true -> hasId_task c' t = false.
Proof.
  unfold hasId_task. intros Hne H. apply String.eqb_eq in H.
  apply String.eqb_neq. congruence.
Qed.

Lemma find_pullFrom_same (c t : string) (us : list User) :
  find (hasId_user c) (pullFrom c t us)
  = option_map (pullAll [t]) (find (hasId_user c) us).
Proof.
  unfold pullFrom. rewrite find_updateFirst_sub; auto.
  destruct (find (hasId_user c) us) as [u|] eqn:E; [|reflexivity].
  apply find_some in E. destruct E as [_ E]. simpl. now rewrite E.
Qed.

Lemma find_pullFrom_other (c c' t : string) (us : list User) :
  c' <> c ->
  find (hasId_user c') (pullFrom c t us) = find (hasId_user c') us.
Proof.
  intros Hne. unfold pullFrom.
  apply find_updateFirst_disjoint; intros x H;
    now apply (hasId_user_other c).
Qed.

Lemma find_pushTo_same (c t : string) (us : list User) :
  find (hasId_user c) (pushTo c t us)
  = option_map
      (fun u => if mem t (user_pendingTasks u) then u
                else set_pending u (user_pendingTasks u ++ [t])%list)
      (find (hasId_user c) us).
Proof.
  unfold pushTo. rewrite find_updateFirst_sub; auto.
  - destruct (find (hasId_user c) us) as [u|] eqn:E; [|reflexivity].
    apply find_some in E. destruct E as [_ E]. simpl. rewrite E. simpl.
    now destruct (mem t (user_pendingTasks u)).
  - intros x H. now apply andb_true_iff in H.
Qed.

Lemma find_pushTo_other (c c' t : string) (us : list User) :
  c' <> c ->
  find (hasId_user c') (pushTo c t us) = find (hasId_user c') us.
Proof.
  intros Hne. unfold pushTo.
  apply find_updateFirst_disjoint; intros x H;
    apply andb_true_iff in H; destruct H as [H _];
    now apply (hasId_user_other c).
Qed.

Lemma not_In_pullAll (t : string) (u : User) :
  ~ In t (user_pendingTasks (pullAll [t] u)).
Proof.
  simpl. intros H. apply filter_In in H. destruct H as [_ H].
  simpl in H. now rewrite String.eqb_refl in H.
Qed.

(* ===================================================================== *)
(** ** The helpers [addTaskToUser] and [removeTaskFromUser] *)
(* ===================================================================== *)

Lemma User_updateOne_pull_eq (userId taskId : string) (db : DB) :
  User_updateOne_pull userId taskId db =
  match ObjectId.cast userId with
  | Some c => (Val tt, set_users db (pullFrom c taskId (users db)))
  | None => (Err (CastError userId), db)
  end.
Proof.
  unfold User_updateOne_pull. rewrite bind_eq, castId_eq.
  now destruct (ObjectId.cast userId).
Qed.

Lemma addTaskToUser_eq (userId taskId : string) (db : DB) :
  Tasks.addTaskToUser userId taskId db =
  if JS.truthy_str userId then
    match ObjectId.cast userId with
    | Some c => (Val tt, set_users db (pushTo c taskId (users db)))
    | None => (Err (CastError userId), db)
    end
  else (Val tt, db).
Proof.
  unfold Tasks.addTaskToUser. destruct (JS.truthy_str userId); simpl.
  - apply User_updateOne_push_eq.
  - reflexivity.
Qed.

Lemma removeTaskFromUser_eq (userId taskId : string) (db : DB) :
  Tasks.removeTaskFromUser userId taskId db =
  if JS.truthy_str userId then
    match ObjectId.cast userId with
    | Some c => (Val tt, set_users db (pullFrom c taskId (users db)))
    | None => (Err (CastError userId), db)
    end
  else (Val tt, db).
Proof.
  unfold Tasks.removeTaskFromUser. destruct (JS.truthy_str userId); simpl.
  - apply User_updateOne_pull_eq.
  - reflexivity.
Qed.

(* ===================================================================== *)
(** ** PUT /api/tasks/:id, path by path *)
(* ===================================================================== *)

Lemma Task_save_eq (task : Task) (name description : string)
    (deadline : option Z) (completed : bool) (au aun : string) (db : DB) :
  Task_save task name description deadline completed au aun db =
  match deadline with
  | Some dl =>
      (Val (mkTask (task_id task) name description dl completed au aun),
       set_tasks db
         (updateFirst (hasId_task (task_id task))
            (fun _ => mkTask (task_id task) name description dl completed
                             au aun)
            (tasks db)))
  | None => (Err (ValidationError "deadline"), db)
  end.
Proof. now destruct deadline. Qed.

Lemma when_remove (c : bool) (u t : string) (db : DB) :
  (c = true -> JS.truthy_str u = true) ->
  when c (Tasks.removeTaskFromUser u t) db =
  if c then
    match ObjectId.cast u with
    | Some cu => (Val tt, set_users db (pullFrom cu t (users db)))
    | None => (Err (CastError u), db)
    end
  else (Val tt, db).
Proof.
  intros H. destruct c; [|reflexivity]. simpl when.
  now rewrite removeTaskFromUser_eq, (H eq_refl).
Qed.

Lemma when_add (c : bool) (u t : string) (db : DB) :
  (c = true -> JS.truthy_str u = true) ->
  when c (Tasks.addTaskToUser u t) db =
  if c then
    match ObjectId.cast u with
    | Some cu => (Val tt, set_users db (pushTo cu t (users db)))
    | None => (Err (CastError u), db)
    end
  else (Val tt, db).
Proof.
  intros H. destruct c; [|reflexivity]. simpl when.
  now rewrite addTaskToUser_eq, (H eq_refl).
Qed.

(** What PUT /api/tasks/:id does once the request is accepted: the save
    and the three side effects. *)
Lemma Tasks_PUT_tail (task : Task) (body : TaskBody) (aun : string)
    (db db' : DB) (r : response) :
  run (saved <- Task_save task (JS.or_else (tb_name body) "")
                  (JS.or_else (tb_description body) "")
                  (JS.newDate (JS.parseInt_value (tb_deadline body)))
                  (JS.is_true (tb_completed body))
                  (JS.or_else (tb_assignedUser body) "") aun ;;
       when (JS.truthy_str (task_assignedUser task)
             && negb (task_assignedUser task
                      =? JS.or_else (tb_assignedUser body) "")%string)
            (Tasks.removeTaskFromUser (task_assignedUser task) (task_id task)) ;;
       when (JS.truthy_str (JS.or_else (tb_assignedUser body) "")
             && negb (JS.is_true (tb_completed body)))
            (Tasks.addTaskToUser (JS.or_else (tb_assignedUser body) "")
                                 (task_id task)) ;;
       when (JS.is_true (tb_completed body) && negb false
             && JS.truthy_str (JS.or_else (tb_assignedUser body) ""))
            (Tasks.removeTaskFromUser (JS.or_else (tb_assignedUser body) "")
                                      (task_id task)) ;;
       ret (json 200 "Task updated" (DTask None saved))) db = (r, db') ->
  (status r = 500 /\
   (tasks db' = tasks db \/
    exists t', task_id t' = task_id task /\
               tasks db' = updateFirst (hasId_task (task_id task))
                             (fun _ => t') (tasks db))) \/
  exists dl,
    JS.newDate (JS.parseInt_value (tb_deadline body)) = Some dl /\
    r = json 200 "Task updated" (DTask None (savedTask task body dl aun)) /\
    tasks db' = updateFirst (hasId_task (task_id task))
                  (fun _ => savedTask task body dl aun) (tasks db) /\
    users db' = usersAfterPut (task_assignedUser task)
                  (JS.or_else (tb_assignedUser body) "")
                  (JS.is_true (tb_completed body)) (task_id task) (users db).
Proof.
  unfold run. cbn [negb]. rewrite andb_true_r.
  rewrite bind_eq, Task_save_eq. intros H.
  destruct (JS.newDate (JS.parseInt_value (tb_deadline body))) as [dl|];
    [|inversion H; left; split; [reflexivity | now left]].
  unfold usersAfterPut.
  assert (A1 : JS.truthy_str (task_assignedUser task)
               && negb (task_assignedUser task
                        =? JS.or_else (tb_assignedUser body) "")%string = true
               -> JS.truthy_str (task_assignedUser task) = true)
    by (intros E; now apply andb_true_iff in E).
  assert (A2 : JS.truthy_str (JS.or_else (tb_assignedUser body) "")
               && negb (JS.is_true (tb_completed body)) = true
               -> JS.truthy_str (JS.or_else (tb_assignedUser body) "") = true)
    by (intros E; now apply andb_true_iff in E).
  assert (A3 : JS.is_true (tb_completed body)
               && JS.truthy_str (JS.or_else (tb_assignedUser body) "") = true
               -> JS.truthy_str (JS.or_else (tb_assignedUser body) "") = true)
    by (intros E; now apply andb_true_iff in E).
  destruct (JS.truthy_str (task_assignedUser task)
            && negb (task_assignedUser task
                     =? JS.or_else (tb_assignedUser body) "")%string) eqn:E1;
    destruct (JS.truthy_str (JS.or_else (tb_assignedUser body) "")
              && negb (JS.is_true (tb_completed body))) eqn:E2;
    destruct (JS.is_true (tb_completed body)
              && JS.truthy_str (JS.or_else (tb_assignedUser body) "")) eqn:E3;
    destruct (ObjectId.cast (task_assignedUser task)) as [co|] eqn:Hco;
    destruct (ObjectId.cast (JS.or_else (tb_assignedUser body) ""))
      as [ca|] eqn:Hca;
    rewrite bind_eq, when_remove in H by exact A1;
    rewrite ?E1, ?Hco in H;
    try (inversion H; left; split;
         [reflexivity | right; eexists; split; [|reflexivity]; reflexivity]);
    rewrite bind_eq, when_add in H by exact A2;
    rewrite ?E2, ?Hca in H;
    try (inversion H; left; split;
         [reflexivity | right; eexists; split; [|reflexivity]; reflexivity]);
    rewrite bind_eq, when_remove in H by exact A3;
    rewrite ?E3, ?Hca in H;
    try (inversion H; left; split;
         [reflexivity | right; eexists; split; [|reflexivity]; reflexivity]);
    inversion H; subst; right; exists dl; repeat split.
Qed.

Lemma run_bind_eq {A} (m : M A) (k : A -> M response) (db : DB) :
  run (bind m k) db =
  match m db with
  | (Val a, db1) => run (k a) db1
  | (Done r, db1) => (r, db1)
  | (Err e, db1) => (json 500 "Server error" (DError e), db1)
  end.
Proof.
  unfold run. rewrite bind_eq. now destruct (m db) as [[a|r|e] db1].
Qed.

Lemma tail_500 (id c : string) (task : Task) (r : response) (db db' : DB) :
  ObjectId.cast id = Some c ->
  find (hasId_task c) (tasks db) = Some task ->
  status r = 500 /\
  (tasks db' = tasks db \/
   exists t', task_id t' = task_id task /\
              tasks db' = updateFirst (hasId_task (task_id task))
                            (fun _ => t') (tasks db)) ->
  status r = 500 /\
  (tasks db' = tasks db \/
   exists task0 t',
     taskById db id = Some task0 /\ task_id t' = task_id task0 /\
     tasks db' = updateFirst (hasId_task (task_id task0)) (fun _ => t')
                   (tasks db)).
Proof.
  intros Hc Hf [Hs [Hd | (t' & Hid & Hd)]]; (split; [exact Hs|]);
    [now left|].
  right. exists task, t'. unfold taskById. rewrite Hc. auto.
Qed.

(** Every answer of PUT /api/tasks/:id: a refusal, which writes nothing;
    a server error; or 200, with the documents that were written. *)
Lemma Tasks_PUT_cases (id : string) (body : TaskBody) (db db' : DB)
    (r : response) :
  Tasks.PUT id body db = (r, db') ->
  ((status r = 400 \/ status r = 404) /\ db' = db) \/
  (status r = 500 /\
   (tasks db' = tasks db \/
    exists task t',
      taskById db id = Some task /\ task_id t' = task_id task /\
      tasks db' = updateFirst (hasId_task (task_id task)) (fun _ => t')
                    (tasks db))) \/
  exists c task dl aun,
    ObjectId.cast id = Some c /\
    find (hasId_task c) (tasks db) = Some task /\
    task_completed task = false /\
    JS.newDate (JS.parseInt_value (tb_deadline body)) = Some dl /\
    (JS.truthy (tb_assignedUser body) = true ->
     exists u, userById db (JS.or_else (tb_assignedUser body) "") = Some u /\
               aun = user_name u) /\
    (JS.truthy (tb_assignedUser body) = false ->
     aun = JS.or_else (tb_assignedUserName body) "unassigned") /\
    r = json 200 "Task updated" (DTask None (savedTask task body dl aun)) /\
    tasks db' = updateFirst (hasId_task (task_id task))
                  (fun _ => savedTask task body dl aun) (tasks db) /\
    users db' = usersAfterPut (task_assignedUser task)
                  (JS.or_else (tb_assignedUser body) "")
                  (JS.is_true (tb_completed body)) (task_id task) (users db).
Proof.
  unfold Tasks.PUT, Tasks.PUT_body. intros H.
  destruct (negb (ObjectId.isValid id));
    [inversion H; subst; left; split; [now left | reflexivity]|].
  destruct (negb (JS.truthy (tb_name body))
            || negb (JS.truthy_value (tb_deadline body)));
    [inversion H; subst; left; split; [now left | reflexivity]|].
  rewrite run_bind_eq, Task_findById_eq in H.
  destruct (ObjectId.cast id) as [c|] eqn:Hc;
    [|inversion H; subst; right; left; split; [reflexivity | now left]].
  destruct (find (hasId_task c) (tasks db)) as [task|] eqn:Hf;
    [|inversion H; subst; left; split; [now right | reflexivity]].
  destruct (task_completed task) eqn:Ht;
    [inversion H; subst; left; split; [now left | reflexivity]|].
  rewrite run_bind_eq in H.
  destruct (JS.truthy (tb_assignedUser body)) eqn:Hau.
  - cbv zeta in H.
    destruct (negb (ObjectId.isValid (JS.or_else (tb_assignedUser body) "")));
      [inversion H; subst; left; split; [now left | reflexivity]|].
    rewrite bind_eq, User_findById_eq in H.
    destruct (ObjectId.cast (JS.or_else (tb_assignedUser body) ""))
      as [ca|] eqn:Hca;
      [|inversion H; subst; right; left; split; [reflexivity | now left]].
    destruct (find (hasId_user ca) (users db)) as [theUser|] eqn:Hu;
      [|inversion H; subst; left; split; [now right | reflexivity]].
    assert (Hres : exists u,
               userById db (JS.or_else (tb_assignedUser body) "") = Some u
               /\ user_name theUser = user_name u).
    { exists theUser. unfold userById. now rewrite Hca, Hu. }
    destruct (JS.truthy (tb_assignedUserName body)).
    + destruct (negb (JS.or_else (tb_assignedUserName body) ""
                      =? user_name theUser)%string) eqn:En;
        [inversion H; subst; left; split; [now left | reflexivity]|].
      apply negb_false_iff, String.eqb_eq in En. rewrite En in H.
      unfold ret at 1 in H. cbv beta iota in H.
      apply Tasks_PUT_tail in H.
      destruct H as [H | (dl & Hdl & Hr & Hts & Hus)];
        [right; left; now apply (tail_500 id c task)|].
      right. right. exists c, task, dl, (user_name theUser).
      repeat split; auto. discriminate.
    + unfold ret at 1 in H. cbv beta iota in H.
      apply Tasks_PUT_tail in H.
      destruct H as [H | (dl & Hdl & Hr & Hts & Hus)];
        [right; left; now apply (tail_500 id c task)|].
      right. right. exists c, task, dl, (user_name theUser).
      repeat split; auto. discriminate.
  - assert (Hfalsy : JS.truthy_str (JS.or_else (tb_assignedUser body) "")
                     = false).
    { destruct (tb_assignedUser body) as [s|]; [|reflexivity].
      simpl in *. destruct (s =? "")%string eqn:E; [reflexivity|discriminate]. }
    unfold ret at 1 in H. cbv beta iota in H. rewrite Hfalsy in H at 1.
    apply Tasks_PUT_tail in H.
    destruct H as [H | (dl & Hdl & Hr & Hts & Hus)];
      [right; left; now apply (tail_500 id c task)|].
    right. right.
    exists c, task, dl, (JS.or_else (tb_assignedUserName body) "unassigned").
    repeat split; auto. discriminate.
Qed.

Lemma cast_empty : ObjectId.cast "" = None.
Proof. reflexivity. Qed.

Lemma cast_truthy (s c : string) :
  ObjectId.cast s = Some c -> JS.truthy_str s = true.
Proof.
  intros H. unfold JS.truthy_str. destruct (s =? "")%string eqn:E;
    [|reflexivity].
  apply String.eqb_eq in E. subst s. discriminate H.
Qed.

Lemma taskById_id (db : DB) (id c : string) (task : Task) :
  ObjectId.cast id = Some c -> taskById db id = Some task ->
  find (hasId_task c) (tasks db) = Some task /\ task_id task = c.
Proof.
  unfold taskById. intros Hc H. rewrite Hc in H. split; [exact H|].
  apply find_some in H. destruct H as [_ H]. now apply String.eqb_eq in H.
Qed.

(** X5.  After a PUT /api/tasks/:id that succeeds with an assignee and is
    not put as completed, the assignee's pending list holds the task id. *)
Theorem task_update_enters_pending_list :
  forall (id : string) (body : TaskBody) (db : DB) (task : Task),
    status (fst (Tasks.PUT id body db)) = 200 ->
    taskById db id = Some task ->
    JS.truthy (tb_assignedUser body) = true ->
    JS.is_true (tb_completed body) = false ->
    exists u',
      userById (snd (Tasks.PUT id body db))
               (JS.or_else (tb_assignedUser body) "") = Some u' /\
      In (task_id task) (user_pendingTasks u').
Proof.
  intros id body db task Hs Ht Hau Hcomp.
  destruct (Tasks.PUT id body db) as [r db'] eqn:HP. simpl in *.
  destruct (Tasks_PUT_cases _ _ _ _ _ HP)
    as [[[H4 | H4] _] | [[H5 _]
        | (c & task0 & dl & aun & Hc & Hf & _ & _ & Hres & _ & _ & _ & Hus)]];
    try (rewrite Hs in *; discriminate).
  destruct (taskById_id _ _ _ _ Hc Ht) as [Hf' _].
  rewrite Hf in Hf'. inversion Hf'; subst task0. clear Hf'.
  destruct (Hres Hau) as [u [Hu _]].
  unfold userById in *. set (au := JS.or_else (tb_assignedUser body) "") in *.
  destruct (ObjectId.cast au) as [ca|] eqn:Hca; [|discriminate].
  rewrite Hus. unfold usersAfterPut. fold au.
  rewrite Hcomp, Hca, (cast_truthy _ _ Hca). cbn [negb andb].
  rewrite find_pushTo_same.
  assert (Hex : exists u1,
    find (hasId_user ca)
      (if JS.truthy_str (task_assignedUser task)
          && negb (task_assignedUser task =? au)%string
       then match ObjectId.cast (task_assignedUser task) with
            | Some co => pullFrom co (task_id task) (users db)
            | None => users db
            end
       else users db) = Some u1).
  { destruct (JS.truthy_str (task_assignedUser task)
              && negb (task_assignedUser task =? au)%string); [|eauto].
    destruct (ObjectId.cast (task_assignedUser task)) as [co|]; [|eauto].
    destruct (String.eqb_spec ca co) as [E|E].
    - subst co. rewrite find_pullFrom_same, Hu. simpl. eauto.
    - rewrite (find_pullFrom_other co ca _ _ E). eauto. }
  destruct Hex as [u1 Hu1]. rewrite Hu1. simpl.
  destruct (mem (task_id task) (user_pendingTasks u1)) eqn:Em.
  - exists u1. split; [reflexivity | now apply mem_In].
  - eexists. split; [reflexivity|]. simpl. apply in_or_app. right. now left.
Qed.

Lemma task_update_enters_pending_list_witness :
  status (fst (Tasks.PUT Sample.t1
                 (Sample.taskBody (Some "T1") (Some Sample.bo) None)
                 Sample.db)) = 200 /\
  taskById Sample.db Sample.t1 = Some Sample.T1 /\
  exists u',
    userById (snd (Tasks.PUT Sample.t1
                     (Sample.taskBody (Some "T1") (Some Sample.bo) None)
                     Sample.db)) Sample.bo = Some u' /\
    In Sample.t1 (user_pendingTasks u').
Proof.
  split; [reflexivity|]. split; [reflexivity|].
  apply (task_update_enters_pending_list Sample.t1
           (Sample.taskBody (Some "T1") (Some Sample.bo) None)
           Sample.db Sample.T1); reflexivity.
Defined.

(** X6.  After a PUT /api/tasks/:id that succeeds with an assignee and
    puts the task as completed, the assignee's pending list does not hold
    the task id. *)
Theorem completed_task_leaves_pending_list :
  forall (id : string) (body : TaskBody) (db : DB) (task : Task),
    status (fst (Tasks.PUT id body db)) = 200 ->
    taskById db id = Some task ->
    JS.truthy (tb_assignedUser body) = true ->
    JS.is_true (tb_completed body) = true ->
    exists u',
      userById (snd (Tasks.PUT id body db))
               (JS.or_else (tb_assignedUser body) "") = Some u' /\
      ~ In (task_id task) (user_pendingTasks u').
Proof.
  intros id body db task Hs Ht Hau Hcomp.
  destruct (Tasks.PUT id body db) as [r db'] eqn:HP. simpl in *.
  destruct (Tasks_PUT_cases _ _ _ _ _ HP)
    as [[[H4 | H4] _] | [[H5 _]
        | (c & task0 & dl & aun & Hc & Hf & _ & _ & Hres & _ & _ & _ & Hus)]];
    try (rewrite Hs in *; discriminate).
  destruct (taskById_id _ _ _ _ Hc Ht) as [Hf' _].
  rewrite Hf in Hf'. inversion Hf'; subst task0. clear Hf'.
  destruct (Hres Hau) as [u [Hu _]].
  unfold userById in *. set (au := JS.or_else (tb_assignedUser body) "") in *.
  destruct (ObjectId.cast au) as [ca|] eqn:Hca; [|discriminate].
  rewrite Hus. unfold usersAfterPut. fold au.
  rewrite Hcomp, Hca, (cast_truthy _ _ Hca). cbn [negb andb].
  rewrite find_pullFrom_same.
  assert (Hex : exists u1,
    find (hasId_user ca)
      (if JS.truthy_str (task_assignedUser task)
          && negb (task_assignedUser task =? au)%string
       then match ObjectId.cast (task_assignedUser task) with
            | Some co => pullFrom co (task_id task) (users db)
            | None => users db
            end
       else users db) = Some u1).
  { destruct (JS.truthy_str (task_assignedUser task)
              && negb (task_assignedUser task =? au)%string); [|eauto].
    destruct (ObjectId.cast (task_assignedUser task)) as [co|]; [|eauto].
    destruct (String.eqb_spec ca co) as [E|E].
    - subst co. rewrite find_pullFrom_same, Hu. simpl. eauto.
    - rewrite (find_pullFrom_other co ca _ _ E). eauto. }
  destruct Hex as [u1 Hu1]. rewrite Hu1. simpl.
  eexists. split; [reflexivity|]. apply (not_In_pullAll (task_id task) u1).
Qed.

Lemma completed_task_leaves_pending_list_witness :
  let body := mkTaskBody (Some "T1") None (JS.Num 1700000000000)
                         (JS.Bool true) (Some Sample.al) None in
  status (fst (Tasks.PUT Sample.t1 body Sample.db)) = 200 /\
  In Sample.t1 (user_pendingTasks Sample.Al) /\
  exists u',
    userById (snd (Tasks.PUT Sample.t1 body Sample.db)) Sample.al = Some u' /\
    ~ In Sample.t1 (user_pendingTasks u').
Proof.
  intros body. split; [reflexivity|]. split; [now left|].
  apply (completed_task_leaves_pending_list Sample.t1 body Sample.db
           Sample.T1); reflexivity.
Defined.

(** X7.  After a PUT /api/tasks/:id that succeeds, the user the task was
    assigned to before no longer holds the task id in its pending list,
    when the new assignee is another user or none. *)
Theorem reassigned_task_leaves_old_pending_list :
  forall (id : string) (body : TaskBody) (db : DB) (task : Task) (uo : User),
    status (fst (Tasks.PUT id body db)) = 200 ->
    taskById db id = Some task ->
    userById db (task_assignedUser task) = Some uo ->
    ObjectId.cast (JS.or_else (tb_assignedUser body) "")
    <> ObjectId.cast (task_assignedUser task) ->
    exists uo',
      userById (snd (Tasks.PUT id body db)) (task_assignedUser task)
      = Some uo' /\
      ~ In (task_id task) (user_pendingTasks uo').
Proof.
  intros id body db task uo Hs Ht Huo Hne.
  destruct (Tasks.PUT id body db) as [r db'] eqn:HP. simpl in *.
  destruct (Tasks_PUT_cases _ _ _ _ _ HP)
    as [[[H4 | H4] _] | [[H5 _]
        | (c & task0 & dl & aun & Hc & Hf & _ & _ & _ & _ & _ & _ & Hus)]];
    try (rewrite Hs in *; discriminate).
  destruct (taskById_id _ _ _ _ Hc Ht) as [Hf' _].
  rewrite Hf in Hf'. inversion Hf'; subst task0. clear Hf'.
  unfold userById in *. set (au := JS.or_else (tb_assignedUser body) "") in *.
  set (old := task_assignedUser task) in *.
  destruct (ObjectId.cast old) as [co|] eqn:Hco; [|discriminate].
  assert (Hstr : (old =? au)%string = false).
  { apply String.eqb_neq. intros E. apply Hne. now rewrite <- E, Hco. }
  rewrite Hus. unfold usersAfterPut.
  rewrite (cast_truthy _ _ Hco), Hstr, Hco. cbn [negb andb].
  assert (H1 : find (hasId_user co) (pullFrom co (task_id task) (users db))
               = Some (pullAll [task_id task] uo))
    by (now rewrite find_pullFrom_same, Huo).
  assert (Hca : forall ca, ObjectId.cast au = Some ca -> co <> ca).
  { intros ca E1 E2. apply Hne. now rewrite E1, E2. }
  exists (pullAll [task_id task] uo).
  split; [|apply not_In_pullAll].
  destruct (JS.truthy_str au && negb (JS.is_true (tb_completed body)));
    destruct (JS.is_true (tb_completed body) && JS.truthy_str au);
    destruct (ObjectId.cast au) as [ca|] eqn:Eca;
    rewrite ?find_pullFrom_other, ?find_pushTo_other
      by (now apply Hca);
    exact H1.
Qed.

Lemma reassigned_task_leaves_old_pending_list_witness :
  status (fst (Tasks.PUT Sample.t1
                 (Sample.taskBody (Some "T1") (Some Sample.bo) None)
                 Sample.db)) = 200 /\
  In Sample.t1 (user_pendingTasks Sample.Al) /\
  exists uo',
    userById (snd (Tasks.PUT Sample.t1
                     (Sample.taskBody (Some "T1") (Some Sample.bo) None)
                     Sample.db)) (task_assignedUser Sample.T1) = Some uo' /\
    ~ In (task_id Sample.T1) (user_pendingTasks uo').
Proof.
  split; [reflexivity|]. split; [now left|].
  apply (reassigned_task_leaves_old_pending_list Sample.t1
           (Sample.taskBody (Some "T1") (Some Sample.bo) None)
           Sample.db Sample.T1 Sample.Al);
    solve [reflexivity | vm_compute; discriminate].
Defined.

Lemma cast_isValid (s c : string) :
  ObjectId.cast s = Some c -> ObjectId.isValid s = true.
Proof.
  intros H. destruct (ObjectId.isValid s) eqn:E; [reflexivity|].
  rewrite (not_isValid_cast _ E) in H. discriminate.
Qed.

Lemma Tasks_GET_found (id c : string) (db : DB) (t : Task) :
  ObjectId.cast id = Some c ->
  find (hasId_task c) (tasks db) = Some t ->
  Tasks.GET id noParams db = (json 200 "OK" (DTask None t), db).
Proof.
  intros Hc Hf. unfold Tasks.GET, run, Tasks.GET_body, noParams.
  cbn [rq_select parseJSONParam isNull applied].
  rewrite (cast_isValid _ _ Hc). cbn [negb].
  now rewrite bind_eq, Task_findById_eq, Hc, Hf.
Qed.

(** X8.  A GET /api/tasks/:id that follows a successful PUT on the same
    id returns the document that the PUT answered with. *)
Theorem task_update_then_get :
  forall (id : string) (b : TaskBody) (db : DB),
    status (fst (Tasks.PUT id b db)) = 200 ->
    status (fst (Tasks.GET id noParams (snd (Tasks.PUT id b db)))) = 200 /\
    body (fst (Tasks.GET id noParams (snd (Tasks.PUT id b db))))
    = body (fst (Tasks.PUT id b db)).
Proof.
  intros id bd db Hs.
  destruct (Tasks.PUT id bd db) as [r db'] eqn:HP. simpl in *.
  destruct (Tasks_PUT_cases _ _ _ _ _ HP)
    as [[[H4 | H4] _] | [[H5 _]
        | (c & task & dl & aun & Hc & Hf & _ & _ & _ & _ & Hr & Hts & _)]];
    try (rewrite Hs in *; discriminate).
  assert (Hid : task_id task = c).
  { apply find_some in Hf. destruct Hf as [_ Hf]. now apply String.eqb_eq in Hf. }
  assert (Hfind : find (hasId_task c) (tasks db')
                  = Some (savedTask task bd dl aun)).
  { rewrite Hts, Hid.
    apply (find_updateFirst_same _ (fun _ => savedTask task bd dl aun) _ _ Hf).
    unfold hasId_task, savedTask. simpl. rewrite Hid. apply String.eqb_refl. }
  rewrite (Tasks_GET_found _ _ _ _ Hc Hfind). subst r. split; reflexivity.
Qed.

Lemma task_update_then_get_witness :
  let b := Sample.taskBody (Some "renamed") (Some Sample.bo) None in
  status (fst (Tasks.PUT Sample.t1 b Sample.db)) = 200 /\
  status (fst (Tasks.GET Sample.t1 noParams
                 (snd (Tasks.PUT Sample.t1 b Sample.db)))) = 200 /\
  body (fst (Tasks.GET Sample.t1 noParams
               (snd (Tasks.PUT Sample.t1 b Sample.db))))
  = DTask None (mkTask Sample.t1 "renamed" "" 1700000000000 false
                       Sample.bo "Bo").
Proof.
  intros b. split; [reflexivity|].
  apply (task_update_then_get Sample.t1 b Sample.db). reflexivity.
Defined.

(** X9.  Whatever PUT /api/tasks/:id answers, every task that another
    id resolves to is left as it was. *)
Theorem task_update_touches_no_other_task :
  forall (id p : string) (body : TaskBody) (db : DB),
    ObjectId.cast p <> ObjectId.cast id ->
    taskById (snd (Tasks.PUT id body db)) p = taskById db p.
Proof.
  intros id p bd db Hne.
  destruct (Tasks.PUT id bd db) as [r db'] eqn:HP. simpl.
  assert (G : forall task t',
             taskById db id = Some task -> task_id t' = task_id task ->
             tasks db' = updateFirst (hasId_task (task_id task))
                           (fun _ => t') (tasks db) ->
             taskById db' p = taskById db p).
  { intros task t' Ht Hid Hts. unfold taskById in *.
    destruct (ObjectId.cast p) as [cp|]; [|reflexivity].
    destruct (ObjectId.cast id) as [c|]; [|discriminate].
    assert (Hc : task_id task = c).
    { apply find_some in Ht. destruct Ht as [_ Ht].
      now apply String.eqb_eq in Ht. }
    assert (Hcp : cp <> task_id task) by (rewrite Hc; congruence).
    rewrite Hts. apply find_updateFirst_disjoint; intros x Hx.
    - now apply (hasId_task_other (task_id task)).
    - apply String.eqb_neq. rewrite Hid. auto. }
  destruct (Tasks_PUT_cases _ _ _ _ _ HP)
    as [[_ Hd] | [[_ [Hd | (task & t' & Ht & Hid & Hts)]]
        | (c & task & dl & aun & Hc & Hf & _ & _ & _ & _ & _ & Hts & _)]].
  - now subst db'.
  - unfold taskById. now rewrite Hd.
  - exact (G task t' Ht Hid Hts).
  - apply (G task (savedTask task bd dl aun)); auto.
    unfold taskById. now rewrite Hc.
Qed.

Lemma task_update_touches_no_other_task_witness :
  ObjectId.cast Sample.t2 <> ObjectId.cast Sample.t1 /\
  taskById (snd (Tasks.PUT Sample.t1
                   (Sample.taskBody (Some "renamed") None None) Sample.db))
           Sample.t2 = Some Sample.T2.
Proof.
  assert (H : ObjectId.cast Sample.t2 <> ObjectId.cast Sample.t1)
    by (vm_compute; discriminate).
  split; [exact H|].
  exact (task_update_touches_no_other_task Sample.t1 Sample.t2
           (Sample.taskBody (Some "renamed") None None) Sample.db H).
Defined.

(* ===================================================================== *)
(** ** POST /api/tasks and DELETE /api/tasks/:id, path by path *)
(* ===================================================================== *)

Lemma Task_create_fail (name description : string) (completed : bool)
    (au aun : string) (db : DB) :
  Task_create name description None completed au aun db =
  (Err (ValidationError "deadline"),
   mkDB (tasks db) (users db) (nextId db + 1) (now db)).
Proof. reflexivity. Qed.

Lemma when_add_caught (c : bool) (u t : string) (db : DB) :
  (c = true -> JS.truthy_str u = true) ->
  when c (try_catch (Tasks.addTaskToUser u t) (fun _ => ret tt)) db =
  (Val tt,
   if c then
     match ObjectId.cast u with
     | Some cu => set_users db (pushTo cu t (users db))
     | None => db
     end
   else db).
Proof.
  intros H. destruct c; [|reflexivity]. simpl when.
  rewrite try_catch_eq, addTaskToUser_eq, (H eq_refl).
  now destruct (ObjectId.cast u).
Qed.

Lemma truthy_str_or_else (v : option string) :
  JS.truthy_str (JS.or_else v "") = JS.truthy v.
Proof.
  destruct v as [s|]; [|reflexivity]. simpl. unfold JS.truthy_str.
  destruct (s =? "")%string eqn:E; simpl; [reflexivity | now rewrite E].
Qed.

(** Every answer of POST /api/tasks: a refusal, which writes nothing; a
    server error, which stores no document; or 201, with the documents that
    were written. *)
Lemma Tasks_POST_cases (b : TaskBody) (db db' : DB) (r : response) :
  Tasks.POST b db = (r, db') ->
  ((status r = 400 \/ status r = 404) /\ db' = db) \/
  (status r = 500 /\ tasks db' = tasks db /\ users db' = users db) \/
  exists dl aun,
    JS.newDate (JS.parseInt_value (tb_deadline b)) = Some dl /\
    (JS.truthy (tb_assignedUser b) = true ->
     exists u, userById db (JS.or_else (tb_assignedUser b) "") = Some u /\
               aun = user_name u) /\
    (JS.truthy (tb_assignedUser b) = false ->
     aun = JS.or_else (tb_assignedUserName b) "") /\
    r = json 201 "Task created"
          (DTask None
             (mkTask (ObjectId.generate (nextId db))
                     (JS.or_else (tb_name b) "")
                     (JS.or_else (tb_description b) "") dl
                     (JS.is_true (tb_completed b))
                     (JS.or_else (tb_assignedUser b) "") aun)) /\
    tasks db' = (tasks db ++
                 [mkTask (ObjectId.generate (nextId db))
                         (JS.or_else (tb_name b) "")
                         (JS.or_else (tb_description b) "") dl
                         (JS.is_true (tb_completed b))
                         (JS.or_else (tb_assignedUser b) "") aun])%list /\
    users db' =
      if JS.truthy_str (JS.or_else (tb_assignedUser b) "")
         && negb (JS.is_true (tb_completed b))
      then match ObjectId.cast (JS.or_else (tb_assignedUser b) "") with
           | Some ca => pushTo ca (ObjectId.generate (nextId db)) (users db)
           | None => users db
           end
      else users db.
Proof.
  unfold Tasks.POST, Tasks.POST_body. intros H.
  rewrite truthy_str_or_else in H |- *.
  destruct (negb (JS.truthy (tb_name b))
            || negb (JS.truthy_value (tb_deadline b)));
    [inversion H; subst; left; split; [now left | reflexivity]|].
  assert (Htail : forall aun,
    run (saved <- Task_create (JS.or_else (tb_name b) "")
                    (JS.or_else (tb_description b) "")
                    (JS.newDate (JS.parseInt_value (tb_deadline b)))
                    (JS.is_true (tb_completed b))
                    (JS.or_else (tb_assignedUser b) "") aun ;;
         when (JS.truthy (tb_assignedUser b)
               && negb (JS.is_true (tb_completed b)))
              (try_catch
                 (Tasks.addTaskToUser (JS.or_else (tb_assignedUser b) "")
                                      (task_id saved))
                 (fun _ => ret tt)) ;;
         ret (json 201 "Task created" (DTask None saved))) db = (r, db') ->
    (status r = 500 /\ tasks db' = tasks db /\ users db' = users db) \/
    exists dl,
      JS.newDate (JS.parseInt_value (tb_deadline b)) = Some dl /\
      r = json 201 "Task created"
            (DTask None
               (mkTask (ObjectId.generate (nextId db))
                       (JS.or_else (tb_name b) "")
                       (JS.or_else (tb_description b) "") dl
                       (JS.is_true (tb_completed b))
                       (JS.or_else (tb_assignedUser b) "") aun)) /\
      tasks db' = (tasks db ++
                   [mkTask (ObjectId.generate (nextId db))
                           (JS.or_else (tb_name b) "")
                           (JS.or_else (tb_description b) "") dl
                           (JS.is_true (tb_completed b))
                           (JS.or_else (tb_assignedUser b) "") aun])%list /\
      users db' =
        if JS.truthy (tb_assignedUser b)
           && negb (JS.is_true (tb_completed b))
        then match ObjectId.cast (JS.or_else (tb_assignedUser b) "") with
             | Some ca => pushTo ca (ObjectId.generate (nextId db)) (users db)
             | None => users db
             end
        else users db).
  { intros aun. rewrite run_bind_eq.
    destruct (JS.newDate (JS.parseInt_value (tb_deadline b))) as [dl|].
    - rewrite Task_create_eq, run_bind_eq, when_add_caught
        by (intros E; apply andb_true_iff in E; destruct E as [E _];
            now apply truthy_or_else).
      intros E. inversion E; subst; clear E. right. exists dl.
      split; [reflexivity|]. split; [reflexivity|]. cbn [task_id].
      destruct (JS.truthy (tb_assignedUser b)
                && negb (JS.is_true (tb_completed b)));
        [destruct (ObjectId.cast (JS.or_else (tb_assignedUser b) ""))|];
        split; reflexivity.
    - rewrite Task_create_fail. intros E. inversion E; subst.
      left. repeat split. }
  rewrite run_bind_eq in H.
  destruct (JS.truthy (tb_assignedUser b)) eqn:Hau.
  - destruct (negb (ObjectId.isValid (JS.or_else (tb_assignedUser b) "")));
      [inversion H; subst; left; split; [now left | reflexivity]|].
    rewrite bind_eq, User_findById_eq in H.
    destruct (ObjectId.cast (JS.or_else (tb_assignedUser b) ""))
      as [ca|] eqn:Hca;
      [|inversion H; subst; right; left; repeat split].
    destruct (find (hasId_user ca) (users db)) as [theUser|] eqn:Hu;
      [|inversion H; subst; left; split; [now right | reflexivity]].
    assert (Hres : exists u,
               userById db (JS.or_else (tb_assignedUser b) "") = Some u
               /\ user_name theUser = user_name u).
    { exists theUser. unfold userById. now rewrite Hca, Hu. }
    destruct (JS.truthy (tb_assignedUserName b)).
    + destruct (negb (JS.or_else (tb_assignedUserName b) ""
                      =? user_name theUser)%string) eqn:En;
        [inversion H; subst; left; split; [now left | reflexivity]|].
      apply negb_false_iff, String.eqb_eq in En. rewrite En in H.
      unfold ret at 1 in H. cbv beta iota in H.
      apply Htail in H.
      destruct H as [H | (dl & Hdl & Hr & Hts & Hus)]; [right; now left|].
      right. right. exists dl, (user_name theUser).
      repeat split; auto; try discriminate.
    + unfold ret at 1 in H. cbv beta iota in H.
      apply Htail in H.
      destruct H as [H | (dl & Hdl & Hr & Hts & Hus)]; [right; now left|].
      right. right. exists dl, (user_name theUser).
      repeat split; auto; try discriminate.
  - unfold ret at 1 in H. cbv beta iota in H.
    apply Htail in H.
    destruct H as [H | (dl & Hdl & Hr & Hts & Hus)]; [right; now left|].
    right. right. exists dl, (JS.or_else (tb_assignedUserName b) "").
    repeat split; auto; try discriminate.
Qed.

Lemma Task_deleteOne_eq (id : string) (db : DB) :
  Task_deleteOne id db =
  match ObjectId.cast id with
  | Some c => (Val tt, set_tasks db (deleteFirst (hasId_task c) (tasks db)))
  | None => (Err (CastError id), db)
  end.
Proof.
  unfold Task_deleteOne. rewrite bind_eq, castId_eq.
  now destruct (ObjectId.cast id).
Qed.

(** Every answer of DELETE /api/tasks/:id. *)
Lemma Tasks_DELETE_cases (id : string) (db db' : DB) (r : response) :
  Tasks.DELETE id db = (r, db') ->
  ((status r = 400 \/ status r = 404) /\ db' = db) \/
  (status r = 500 /\ db' = db) \/
  exists c task,
    ObjectId.cast id = Some c /\
    find (hasId_task c) (tasks db) = Some task /\
    r = json 204 "" DNoBody /\
    tasks db' = deleteFirst (hasId_task c) (tasks db) /\
    users db' =
      if JS.truthy_str (task_assignedUser task)
      then match ObjectId.cast (task_assignedUser task) with
           | Some co => pullFrom co (task_id task) (users db)
           | None => users db
           end
      else users db.
Proof.
  unfold Tasks.DELETE, Tasks.DELETE_body. intros H.
  destruct (negb (ObjectId.isValid id));
    [inversion H; subst; left; split; [now left | reflexivity]|].
  rewrite run_bind_eq, Task_findById_eq in H.
  destruct (ObjectId.cast id) as [c|] eqn:Hc;
    [|inversion H; subst; right; left; now split].
  destruct (find (hasId_task c) (tasks db)) as [task|] eqn:Hf;
    [|inversion H; subst; left; split; [now right | reflexivity]].
  rewrite run_bind_eq, when_remove in H by auto.
  destruct (JS.truthy_str (task_assignedUser task)) eqn:Hold.
  - destruct (ObjectId.cast (task_assignedUser task)) as [co|] eqn:Hco;
      [|inversion H; subst; right; left; now split].
    rewrite run_bind_eq, Task_deleteOne_eq, Hc in H.
    inversion H; subst; clear H. right. right. exists c, task.
    rewrite Hold, Hco. repeat split; auto.
  - rewrite run_bind_eq, Task_deleteOne_eq, Hc in H.
    inversion H; subst; clear H. right. right. exists c, task.
    rewrite Hold. repeat split; auto.
Qed.

Lemma find_none_all {A} (p : A -> bool) (l : list A) :
  (forall x, In x l -> p x = false) -> find p l = None.
Proof.
  induction l as [|x l IH]; intros H; simpl; [reflexivity|].
  rewrite (H x (or_introl eq_refl)). apply IH. intros y Hy. apply H. now right.
Qed.

Lemma find_deleteFirst_same_task (c : string) (l : list Task) :
  NoDup (map task_id l) ->
  find (hasId_task c) (deleteFirst (hasId_task c) l) = None.
Proof.
  induction l as [|x l IH]; intros Hnd; simpl; [reflexivity|].
  inversion Hnd as [|? ? Hnotin Hnd']; subst.
  destruct (hasId_task c x) eqn:E; simpl.
  - apply find_none_all. intros y Hy. unfold hasId_task in *.
    apply String.eqb_eq in E. apply String.eqb_neq. intros Ey.
    apply Hnotin. rewrite E, <- Ey. now apply in_map.
  - rewrite E. now apply IH.
Qed.

Lemma find_deleteFirst_same_user (c : string) (l : list User) :
  NoDup (map user_id l) ->
  find (hasId_user c) (deleteFirst (hasId_user c) l) = None.
Proof.
  induction l as [|x l IH]; intros Hnd; simpl; [reflexivity|].
  inversion Hnd as [|? ? Hnotin Hnd']; subst.
  destruct (hasId_user c x) eqn:E; simpl.
  - apply find_none_all. intros y Hy. unfold hasId_user in *.
    apply String.eqb_eq in E. apply String.eqb_neq. intros Ey.
    apply Hnotin. rewrite E, <- Ey. now apply in_map.
  - rewrite E. now apply IH.
Qed.

(* ===================================================================== *)
(** ** The task routes: what a refusal leaves, what a success writes *)
(* ===================================================================== *)

(** X10.  A task route that answers 400 or 404 has written nothing, and
    GET /api/tasks/:id never writes. *)
Theorem task_routes_refusal_writes_nothing :
  forall (id : string) (b : TaskBody) (p : Params) (db : DB),
    (status (fst (Tasks.POST b db)) = 400
     \/ status (fst (Tasks.POST b db)) = 404 ->
     snd (Tasks.POST b db) = db) /\
    (status (fst (Tasks.PUT id b db)) = 400
     \/ status (fst (Tasks.PUT id b db)) = 404 ->
     snd (Tasks.PUT id b db) = db) /\
    (status (fst (Tasks.DELETE id db)) = 400
     \/ status (fst (Tasks.DELETE id db)) = 404 ->
     snd (Tasks.DELETE id db) = db) /\
    snd (Tasks.GET id p db) = db.
Proof.
  intros id b p db. repeat split.
  - intros Hs. destruct (Tasks.POST b db) as [r db'] eqn:HP. simpl in *.
    destruct (Tasks_POST_cases _ _ _ _ HP)
      as [[_ Hd] | [[H5 _] | (dl & aun & _ & _ & _ & Hr & _)]].
    + exact Hd.
    + rewrite H5 in Hs. destruct Hs; discriminate.
    + subst r. simpl in Hs. destruct Hs; discriminate.
  - intros Hs. destruct (Tasks.PUT id b db) as [r db'] eqn:HP. simpl in *.
    destruct (Tasks_PUT_cases _ _ _ _ _ HP)
      as [[_ Hd] | [[H5 _]
          | (c & task & dl & aun & _ & _ & _ & _ & _ & _ & Hr & _)]].
    + exact Hd.
    + rewrite H5 in Hs. destruct Hs; discriminate.
    + subst r. simpl in Hs. destruct Hs; discriminate.
  - intros Hs. destruct (Tasks.DELETE id db) as [r db'] eqn:HP. simpl in *.
    destruct (Tasks_DELETE_cases _ _ _ _ HP)
      as [[_ Hd] | [[_ Hd] | (c & task & _ & _ & Hr & _)]].
    + exact Hd.
    + exact Hd.
    + subst r. simpl in Hs. destruct Hs; discriminate.
  - unfold Tasks.GET, run, Tasks.GET_body.
    destruct (isNull (parseJSONParam (rq_select p))); [reflexivity|].
    destruct (negb (ObjectId.isValid id)); [reflexivity|].
    rewrite bind_eq, Task_findById_eq.
    destruct (ObjectId.cast id); [|reflexivity].
    now destruct (find _ (tasks db)).
Qed.

Lemma task_routes_refusal_writes_nothing_witness :
  status (fst (Tasks.POST (Sample.taskBody (Some "T") (Some Sample.ghost) None)
                          Sample.db)) = 404 /\
  snd (Tasks.POST (Sample.taskBody (Some "T") (Some Sample.ghost) None)
                  Sample.db) = Sample.db /\
  status (fst (Tasks.DELETE Sample.ghost Sample.db)) = 404 /\
  snd (Tasks.DELETE Sample.ghost Sample.db) = Sample.db.
Proof.
  destruct (task_routes_refusal_writes_nothing Sample.ghost
              (Sample.taskBody (Some "T") (Some Sample.ghost) None)
              noParams Sample.db) as (H1 & _ & H3 & _).
  split; [reflexivity|]. split; [apply H1; right; reflexivity|].
  split; [reflexivity|]. apply H3. right. reflexivity.
Defined.

(** X11.  After a POST /api/tasks that creates a task with an assignee
    and not as completed, the assignee's pending list holds the id of the
    new task. *)
Theorem task_create_enters_pending_list :
  forall (b : TaskBody) (db : DB) (t : Task),
    fst (Tasks.POST b db) = json 201 "Task created" (DTask None t) ->
    JS.truthy (tb_assignedUser b) = true ->
    JS.is_true (tb_completed b) = false ->
    exists u',
      userById (snd (Tasks.POST b db)) (JS.or_else (tb_assignedUser b) "")
      = Some u' /\
      In (task_id t) (user_pendingTasks u').
Proof.
  intros b db t Hr Hau Hcomp.
  destruct (Tasks.POST b db) as [r db'] eqn:HP. simpl in *.
  destruct (Tasks_POST_cases _ _ _ _ HP)
    as [[[H4 | H4] _] | [[H5 _]
        | (dl & aun & _ & Hres & _ & Hr' & _ & Hus)]];
    try (subst r; discriminate).
  rewrite Hr in Hr'. inversion Hr' as [Ht]. clear Hr'.
  destruct (Hres Hau) as [u [Hu _]].
  unfold userById in *.
  destruct (ObjectId.cast (JS.or_else (tb_assignedUser b) "")) as [ca|];
    [|discriminate].
  rewrite Hus, truthy_str_or_else, Hau, Hcomp. cbn [negb andb task_id].
  rewrite find_pushTo_same, Hu. simpl.
  destruct (mem (ObjectId.generate (nextId db)) (user_pendingTasks u)) eqn:Em.
  - exists u. split; [reflexivity | now apply mem_In].
  - eexists. split; [reflexivity|]. simpl. apply in_or_app. right. now left.
Qed.

Lemma task_create_enters_pending_list_witness :
  let b := Sample.taskBody (Some "T4") (Some Sample.al) None in
  let t := mkTask "000000000000000000000005" "T4" "" 1700000000000 false
                  Sample.al "Al" in
  fst (Tasks.POST b Sample.db) = json 201 "Task created" (DTask None t) /\
  exists u',
    userById (snd (Tasks.POST b Sample.db)) Sample.al = Some u' /\
    In (task_id t) (user_pendingTasks u').
Proof.
  intros b t. split; [reflexivity|].
  apply (task_create_enters_pending_list b Sample.db t); reflexivity.
Defined.

(** X12.  A GET /api/tasks/:id on the id that POST /api/tasks answered
    with returns the created document, when that id was the id of no stored
    task. *)
Theorem task_create_then_get :
  forall (b : TaskBody) (db : DB) (t : Task),
    fst (Tasks.POST b db) = json 201 "Task created" (DTask None t) ->
    taskById db (task_id t) = None ->
    Tasks.GET (task_id t) noParams (snd (Tasks.POST b db))
    = (json 200 "OK" (DTask None t), snd (Tasks.POST b db)).
Proof.
  intros b db t Hr Hfresh.
  destruct (Tasks.POST b db) as [r db'] eqn:HP. simpl in *.
  destruct (Tasks_POST_cases _ _ _ _ HP)
    as [[[H4 | H4] _] | [[H5 _]
        | (dl & aun & _ & _ & _ & Hr' & Hts & _)]];
    try (subst r; discriminate).
  rewrite Hr in Hr'. inversion Hr' as [Ht]. rewrite <- Ht in Hts.
  assert (Hid : task_id t = ObjectId.generate (nextId db))
    by (now rewrite Ht).
  apply (Tasks_GET_found _ (task_id t)).
  - rewrite Hid. apply generate_cast.
  - unfold taskById in Hfresh. rewrite Hid, generate_cast in Hfresh.
    rewrite Hts, Hid, (find_app_last _ _ _ Hfresh).
    unfold hasId_task. rewrite Hid, String.eqb_refl. congruence.
Qed.

Lemma task_create_then_get_witness :
  let b := Sample.taskBody (Some "T4") (Some Sample.al) None in
  let t := mkTask "000000000000000000000005" "T4" "" 1700000000000 false
                  Sample.al "Al" in
  fst (Tasks.POST b Sample.db) = json 201 "Task created" (DTask None t) /\
  taskById Sample.db (task_id t) = None /\
  Tasks.GET (task_id t) noParams (snd (Tasks.POST b Sample.db))
  = (json 200 "OK" (DTask None t), snd (Tasks.POST b Sample.db)).
Proof.
  intros b t. split; [reflexivity|]. split; [reflexivity|].
  apply (task_create_then_get b Sample.db t); reflexivity.
Defined.

Lemma find_app_some {A} (p : A -> bool) (l l' : list A) (x : A) :
  find p l = Some x -> find p (l ++ l')%list = Some x.
Proof.
  induction l as [|y l IH]; simpl; [discriminate|].
  destruct (p y); [auto | exact IH].
Qed.

(** X13.  POST /api/tasks changes no stored task, whatever it answers;
    and it changes no user when the task is created as completed. *)
Theorem task_create_keeps_stored_documents :
  forall (b : TaskBody) (db : DB),
    (forall p t0, taskById db p = Some t0 ->
                  taskById (snd (Tasks.POST b db)) p = Some t0) /\
    (JS.is_true (tb_completed b) = true ->
     users (snd (Tasks.POST b db)) = users db).
Proof.
  intros b db.
  destruct (Tasks.POST b db) as [r db'] eqn:HP. simpl.
  destruct (Tasks_POST_cases _ _ _ _ HP)
    as [[_ Hd] | [[_ [Ht Hu]] | (dl & aun & _ & _ & _ & _ & Hts & Hus)]].
  - subst db'. auto.
  - split; [|auto]. intros p t0. unfold taskById. now rewrite Ht.
  - split.
    + intros p t0. unfold taskById. rewrite Hts.
      destruct (ObjectId.cast p); [|discriminate]. apply find_app_some.
    + intros Hc. rewrite Hus, Hc. cbn [negb]. now rewrite andb_false_r.
Qed.

Lemma task_create_keeps_stored_documents_witness :
  let b := mkTaskBody (Some "T4") None (JS.Num 1700000000000) (JS.Str "true")
                      (Some Sample.al) None in
  status (fst (Tasks.POST b Sample.db)) = 201 /\
  taskById (snd (Tasks.POST b Sample.db)) Sample.t1 = Some Sample.T1 /\
  users (snd (Tasks.POST b Sample.db)) = users Sample.db.
Proof.
  intros b.
  destruct (task_create_keeps_stored_documents b Sample.db) as [H1 H2].
  split; [reflexivity|]. split.
  - apply H1. reflexivity.
  - apply H2. reflexivity.
Defined.

(** X14.  After a DELETE /api/tasks/:id that succeeds, in a collection
    whose ids are distinct, the id resolves to no task and a GET on it is
    answered 404. *)
Theorem task_delete_then_get :
  forall (id : string) (db : DB),
    status (fst (Tasks.DELETE id db)) = 204 ->
    NoDup (map task_id (tasks db)) ->
    taskById (snd (Tasks.DELETE id db)) id = None /\
    fst (Tasks.GET id noParams (snd (Tasks.DELETE id db)))
    = json 404 "Not Found" DEmpty.
Proof.
  intros id db Hs Hnd.
  destruct (Tasks.DELETE id db) as [r db'] eqn:HP. simpl in *.
  destruct (Tasks_DELETE_cases _ _ _ _ HP)
    as [[[H4 | H4] _] | [[H5 _] | (c & task & Hc & _ & _ & Hts & _)]];
    try (rewrite Hs in *; discriminate).
  assert (Hnone : find (hasId_task c) (tasks db') = None)
    by (rewrite Hts; now apply find_deleteFirst_same_task).
  split.
  - unfold taskById. now rewrite Hc.
  - unfold Tasks.GET, run, Tasks.GET_body, noParams.
    cbn [rq_select parseJSONParam isNull applied].
    rewrite (cast_isValid _ _ Hc). cbn [negb].
    now rewrite bind_eq, Task_findById_eq, Hc, Hnone.
Qed.

Lemma task_delete_then_get_witness :
  status (fst (Tasks.DELETE Sample.t1 Sample.db)) = 204 /\
  taskById Sample.db Sample.t1 = Some Sample.T1 /\
  taskById (snd (Tasks.DELETE Sample.t1 Sample.db)) Sample.t1 = None /\
  fst (Tasks.GET Sample.t1 noParams (snd (Tasks.DELETE Sample.t1 Sample.db)))
  = json 404 "Not Found" DEmpty.
Proof.
  split; [reflexivity|]. split; [reflexivity|].
  apply (task_delete_then_get Sample.t1 Sample.db); [reflexivity|].
  vm_compute. repeat constructor; simpl; intuition discriminate.
Defined.

(** X15.  After a DELETE /api/tasks/:id that succeeds, the user the task
    was assigned to does not hold the task id in its pending list; and
    whatever the answer, every task that another id resolves to is left as
    it was. *)
Theorem task_delete_leaves_pending_list :
  forall (id p : string) (db : DB) (task : Task) (uo : User),
    (status (fst (Tasks.DELETE id db)) = 204 ->
     taskById db id = Some task ->
     userById db (task_assignedUser task) = Some uo ->
     exists uo',
       userById (snd (Tasks.DELETE id db)) (task_assignedUser task)
       = Some uo' /\
       ~ In (task_id task) (user_pendingTasks uo')) /\
    (ObjectId.cast p <> ObjectId.cast id ->
     taskById (snd (Tasks.DELETE id db)) p = taskById db p).
Proof.
  intros id p db task uo.
  destruct (Tasks.DELETE id db) as [r db'] eqn:HP. simpl.
  destruct (Tasks_DELETE_cases _ _ _ _ HP)
    as [[H4 Hd] | [[H5 Hd] | (c & task0 & Hc & Hf & _ & Hts & Hus)]].
  - subst db'. split; [|reflexivity].
    intros Hs. destruct H4 as [H4|H4]; rewrite Hs in H4; discriminate.
  - subst db'. split; [|reflexivity].
    intros Hs. rewrite Hs in H5. discriminate.
  - split.
    + intros _ Ht Huo.
      destruct (taskById_id _ _ _ _ Hc Ht) as [Hf' _].
      rewrite Hf in Hf'. inversion Hf'; subst task0. clear Hf'.
      unfold userById in *.
      destruct (ObjectId.cast (task_assignedUser task)) as [co|] eqn:Hco;
        [|discriminate].
      rewrite Hus, (cast_truthy _ _ Hco), find_pullFrom_same, Huo. simpl.
      eexists. split; [reflexivity|].
      apply (not_In_pullAll (task_id task) uo).
    + intros Hne. unfold taskById. rewrite Hts.
      destruct (ObjectId.cast p) as [cp|]; [|reflexivity].
      apply find_deleteFirst_disjoint. intros x Hx.
      apply (hasId_task_other c); [|exact Hx]. congruence.
Qed.

Lemma task_delete_leaves_pending_list_witness :
  status (fst (Tasks.DELETE Sample.t1 Sample.db)) = 204 /\
  In Sample.t1 (user_pendingTasks Sample.Al) /\
  (exists uo',
      userById (snd (Tasks.DELETE Sample.t1 Sample.db))
               (task_assignedUser Sample.T1) = Some uo' /\
      ~ In (task_id Sample.T1) (user_pendingTasks uo')) /\
  taskById (snd (Tasks.DELETE Sample.t1 Sample.db)) Sample.t2
  = Some Sample.T2.
Proof.
  destruct (task_delete_leaves_pending_list Sample.t1 Sample.t2 Sample.db
              Sample.T1 Sample.Al) as [H1 H2].
  split; [reflexivity|]. split; [now left|]. split.
  - apply H1; reflexivity.
  - apply H2. vm_compute. discriminate.
Defined.

(* ===================================================================== *)
(** ** The user routes, answer by answer *)
(* ===================================================================== *)

Lemma Users_POST_cases (b : UserBody) (db db' : DB) (r : response) :
  Users.POST b db = (r, db') ->
  (status r = 400 /\ db' = db) \/
  exists u,
    u = mkUser (ObjectId.generate (nextId db)) (JS.or_else (ub_name b) "")
               (JS.or_else (ub_email b) "")
               (Users.storedPending (ub_pendingTasks b)) (now db) /\
    find (fun v => (user_email v =? JS.or_else (ub_email b) "")%string)
         (users db) = None /\
    r = json 201 "User created" (DUser None u) /\
    users db' = (users db ++ [u])%list /\
    (Users.nonEmptyArray (ub_pendingTasks b) = true ->
     exists cs,
       ObjectId.castAll (Users.arrayOf (ub_pendingTasks b)) = Some cs /\
       tasks db' = reassign cs (user_id u) (user_name u) (tasks db)) /\
    (Users.nonEmptyArray (ub_pendingTasks b) = false ->
     tasks db' = tasks db).
Proof.
  unfold Users.POST, run, Users.POST_body. intros H.
  destruct (negb (JS.truthy (ub_name b)) || negb (JS.truthy (ub_email b)));
    [inversion H; subst; left; now split|].
  rewrite bind_eq, User_findOne_email_eq in H.
  destruct (find _ (users db)) as [existing|] eqn:Hex;
    [inversion H; subst; left; now split|].
  rewrite bind_eq in H.
  destruct (Users.nonEmptyArray (ub_pendingTasks b)) eqn:Hne.
  - cbv iota in H. rewrite bind_eq, try_catch_eq, Task_find_in_eq in H.
    destruct (ObjectId.castAll _) as [cs|] eqn:Hcs;
      [|inversion H; subst; left; now split].
    destruct (map task_id _); [|inversion H; subst; left; now split].
    unfold ret at 1 in H.
    rewrite bind_eq, User_create_eq, bind_eq in H.
    unfold when in H.
    rewrite try_catch_eq, Task_updateMany_in_eq, Hcs in H.
    inversion H; subst; clear H. right. eexists. split; [reflexivity|].
    simpl. repeat split; auto; try discriminate.
    intros _. exists cs. now split.
  - cbv iota in H. cbv beta iota delta [ret] in H.
    rewrite bind_eq, User_create_eq, bind_eq, when_false in H.
    inversion H; subst; clear H. right. eexists. split; [reflexivity|].
    simpl. repeat split; auto; try discriminate.
Qed.

Lemma Users_PUT_refused (id : string) (body : UserBody) (db db' : DB)
    (r : response) :
  Users.PUT id body db = (r, db') ->
  status r <> 200 ->
  users db' = users db /\
  (tasks db' = tasks db \/
   exists user csR,
     userById db id = Some user /\
     ObjectId.castAll (toRemoveOf user body) = Some csR /\
     tasks db' = reassign csR "" "unassigned" (tasks db)).
Proof.
  unfold Users.PUT, run, Users.PUT_body. intros H Hs.
  destruct (negb (JS.truthy (ub_name body))
            || negb (JS.truthy (ub_email body)));
    [inversion H; subst; auto|].
  destruct (negb (ObjectId.isValid id)); [inversion H; subst; auto|].
  rewrite bind_eq, User_findOne_email_ne_eq in H.
  destruct (ObjectId.cast id) as [c|] eqn:Hc; [|inversion H; subst; auto].
  destruct (find _ (users db)) as [other|]; [inversion H; subst; auto|].
  rewrite bind_eq, User_findById_eq, Hc in H.
  destruct (find (hasId_user c) (users db)) as [user|] eqn:Hu;
    [|inversion H; subst; auto].
  fold (toRemoveOf user body) in H. fold (toAddOf user body) in H.
  rewrite bind_eq, when_updateMany in H.
  destruct (ObjectId.castAll (toRemoveOf user body)) as [csR|] eqn:HR;
    [|inversion H; subst; auto].
  assert (Hpart : forall db1,
             users db1 = users db ->
             tasks db1 = reassign csR "" "unassigned" (tasks db) ->
             users db1 = users db /\
             (tasks db1 = tasks db \/
              exists user0 csR0,
                userById db id = Some user0 /\
                ObjectId.castAll (toRemoveOf user0 body) = Some csR0 /\
                tasks db1 = reassign csR0 "" "unassigned" (tasks db))).
  { intros db1 H1 H2. split; [exact H1|]. right. exists user, csR.
    unfold userById. rewrite Hc. auto. }
  rewrite bind_eq in H.
  destruct (toAddOf user body) as [|a toAdd] eqn:HA.
  - simpl in H. inversion H; subst. simpl in Hs. congruence.
  - cbn [List.length Nat.eqb negb] in H.
    destruct (find _ (a :: toAdd)) as [bad|];
      [inversion H; subst; now apply Hpart|].
    rewrite bind_eq, try_catch_eq, Task_find_in_eq in H.
    destruct (ObjectId.castAll (a :: toAdd)) as [csA|] eqn:HcA;
      [|inversion H; subst; now apply Hpart].
    destruct (negb (Nat.eqb _ _)); [inversion H; subst; now apply Hpart|].
    destruct (map task_id _); [|inversion H; subst; now apply Hpart].
    rewrite bind_eq, User_updateMany_pull_eq, Hc in H.
    simpl when in H. rewrite Task_updateMany_in_eq, HcA in H.
    rewrite bind_eq, User_save_eq in H.
    inversion H; subst. simpl in Hs. congruence.
Qed.

Lemma Users_DELETE_cases (id : string) (db db' : DB) (r : response) :
  Users.DELETE id db = (r, db') ->
  ((status r = 404 \/ status r = 500) /\ db' = db) \/
  exists c user cs,
    ObjectId.cast id = Some c /\
    find (hasId_user c) (users db) = Some user /\
    ObjectId.castAll (user_pendingTasks user) = Some cs /\
    r = json 204 "" DNoBody /\
    tasks db' = reassign cs "" "unassigned" (tasks db) /\
    users db' = deleteFirst (hasId_user c) (users db).
Proof.
  unfold Users.DELETE, run, Users.DELETE_body. intros H.
  rewrite bind_eq, User_findById_eq in H.
  destruct (ObjectId.cast id) as [c|] eqn:Hc;
    [|inversion H; subst; left; split; [now right | reflexivity]].
  destruct (find (hasId_user c) (users db)) as [user|] eqn:Hu;
    [|inversion H; subst; left; split; [now left | reflexivity]].
  rewrite bind_eq, when_updateMany in H.
  destruct (ObjectId.castAll (user_pendingTasks user)) as [cs|] eqn:Hcs;
    [|inversion H; subst; left; split; [now right | reflexivity]].
  rewrite bind_eq, User_deleteOne_eq, Hc in H.
  inversion H; subst; clear H. right. exists c, user, cs.
  repeat split; auto.
Qed.

Lemma find_map_inv {A} (q : A -> bool) (g : A -> A) (l : list A) :
  (forall x, q (g x) = q x) ->
  find q (map g l) = option_map g (find q l).
Proof.
  intros Hq. induction l as [|x l IH]; simpl; [reflexivity|].
  rewrite Hq. now destruct (q x).
Qed.

Lemma find_pullOthers (c c' : string) (ids : list string) (us : list User) :
  find (hasId_user c') (pullOthers c ids us)
  = option_map (fun u => if negb (hasId_user c u)
                            && existsb (fun p => mem p ids)
                                       (user_pendingTasks u)
                         then pullAll ids u else u)
               (find (hasId_user c') us).
Proof.
  unfold pullOthers. apply find_map_inv. intros x.
  now destruct (negb (hasId_user c x) && existsb _ (user_pendingTasks x)).
Qed.

Lemma map_id_pullOthers (c : string) (ids : list string) (us : list User) :
  map user_id (pullOthers c ids us) = map user_id us.
Proof.
  unfold pullOthers. rewrite map_map. apply map_ext. intros x.
  now destruct (negb (hasId_user c x) && existsb _ (user_pendingTasks x)).
Qed.

Lemma map_email_pullOthers (c : string) (ids : list string) (us : list User) :
  map user_email (pullOthers c ids us) = map user_email us.
Proof.
  unfold pullOthers. rewrite map_map. apply map_ext. intros x.
  now destruct (negb (hasId_user c x) && existsb _ (user_pendingTasks x)).
Qed.

Lemma Users_GET_found (id c : string) (db : DB) (u : User) :
  ObjectId.cast id = Some c ->
  find (hasId_user c) (users db) = Some u ->
  Users.GET id noParams db = (json 200 "OK" (DUser None u), db).
Proof.
  intros Hc Hf. unfold Users.GET, run, Users.GET_body, noParams.
  cbn [rq_select rq_filter parseJSONParam or_parsed truthy_parsed isNull
       applied].
  now rewrite bind_eq, User_findById_eq, Hc, Hf.
Qed.

Lemma Users_GET_absent (id c : string) (db : DB) :
  ObjectId.cast id = Some c ->
  find (hasId_user c) (users db) = None ->
  Users.GET id noParams db = (json 404 "Not Found" DEmpty, db).
Proof.
  intros Hc Hf. unfold Users.GET, run, Users.GET_body, noParams.
  cbn [rq_select rq_filter parseJSONParam or_parsed truthy_parsed isNull
       applied].
  now rewrite bind_eq, User_findById_eq, Hc, Hf.
Qed.

Lemma Users_PUT_200_email (id c : string) (body : UserBody) (db db' : DB)
    (r : response) :
  Users.PUT id body db = (r, db') ->
  status r = 200 ->
  ObjectId.cast id = Some c ->
  find (fun u => (user_email u =? JS.or_else (ub_email body) "")%string
                 && negb (hasId_user c u)) (users db) = None.
Proof.
  unfold Users.PUT, run, Users.PUT_body. intros H Hs Hc.
  destruct (negb (JS.truthy (ub_name body))
            || negb (JS.truthy (ub_email body))); [refute H Hs|].
  destruct (negb (ObjectId.isValid id)); [refute H Hs|].
  rewrite bind_eq, User_findOne_email_ne_eq, Hc in H.
  destruct (find _ (users db)) as [other|]; [refute H Hs | reflexivity].
Qed.

Lemma NoDup_map_deleteFirst {A B} (f : A -> B) (p : A -> bool) (l : list A) :
  NoDup (map f l) -> NoDup (map f (deleteFirst p l)).
Proof.
  induction l as [|x l IH]; simpl; intros H; [exact H|].
  inversion H as [|? ? Hn Hd]; subst.
  destruct (p x); [exact Hd|]. simpl. constructor; [|now apply IH].
  intros Hin. apply Hn. apply in_map_iff in Hin.
  destruct Hin as [y [Hy Hin]]. apply in_map_iff. exists y. split; [exact Hy|].
  clear - Hin. induction l as [|z l IH]; simpl in *; [exact Hin|].
  destruct (p z); [now right|]. destruct Hin as [Hin|Hin]; auto.
Qed.

Lemma NoDup_email_updateFirst (c e : string) (f : User -> User)
    (l : list User) :
  NoDup (map user_id l) ->
  NoDup (map user_email l) ->
  (forall u, In u l -> user_email u = e -> user_id u = c) ->
  (forall u, user_email (f u) = e) ->
  NoDup (map user_email (updateFirst (hasId_user c) f l)).
Proof.
  intros Hid Hem Hother Hf.
  induction l as [|x l IH]; simpl; [constructor|].
  inversion Hid as [|? ? Hnid Hid']; subst.
  inversion Hem as [|? ? Hnem Hem']; subst.
  destruct (hasId_user c x) eqn:Ex; simpl.
  - constructor; [|exact Hem'].
    rewrite Hf. intros Hin. apply in_map_iff in Hin.
    destruct Hin as [y [Hy Hin]].
    apply Hnid. apply in_map_iff. exists y. split; [|exact Hin].
    unfold hasId_user in Ex. apply String.eqb_eq in Ex. rewrite Ex.
    apply Hother; [now right | exact Hy].
  - constructor.
    + intros Hin. apply in_map_iff in Hin. destruct Hin as [y [Hy Hin]].
      apply In_updateFirst in Hin.
      destruct Hin as [Hin | [z [Hz [_ Hyz]]]].
      * apply Hnem. apply in_map_iff. now exists y.
      * subst y. rewrite Hf in Hy.
        assert (Hx : user_id x = c)
          by (apply Hother; [now left | now symmetry]).
        unfold hasId_user in Ex. rewrite Hx, String.eqb_refl in Ex.
        discriminate.
    + apply IH; auto. intros u Hu. apply Hother. now right.
Qed.

Lemma NoDup_map_snoc {A B} (f : A -> B) (l : list A) (x : A) :
  NoDup (map f l) -> ~ In (f x) (map f l) -> NoDup (map f (l ++ [x])%list).
Proof.
  induction l as [|y l IH]; simpl; intros Hd Hn.
  - constructor; [intros []|constructor].
  - inversion Hd as [|? ? Hny Hd']; subst. constructor.
    + rewrite map_app, in_app_iff. simpl. intros [H|[H|[]]]; [now apply Hny|].
      apply Hn. left. now symmetry.
    + apply IH; [exact Hd'|]. intros H. apply Hn. now right.
Qed.

(* ===================================================================== *)
(** ** The user routes: what a refusal leaves, what a success writes *)
(* ===================================================================== *)

(** X16.  POST /api/users that does not answer 201 and DELETE
    /api/users/:id that does not answer 204 have written nothing, and
    GET /api/users/:id never writes. *)
Theorem user_routes_refusal_writes_nothing :
  forall (id : string) (b : UserBody) (p : Params) (db : DB),
    (status (fst (Users.POST b db)) <> 201 -> snd (Users.POST b db) = db) /\
    (status (fst (Users.DELETE id db)) <> 204 ->
     snd (Users.DELETE id db) = db) /\
    snd (Users.GET id p db) = db.
Proof.
  intros id b p db. repeat split.
  - intros Hs. destruct (Users.POST b db) as [r db'] eqn:HP. simpl in *.
    destruct (Users_POST_cases _ _ _ _ HP) as [[_ Hd] | (u & _ & _ & Hr & _)];
      [exact Hd|].
    subst r. now elim Hs.
  - intros Hs. destruct (Users.DELETE id db) as [r db'] eqn:HP. simpl in *.
    destruct (Users_DELETE_cases _ _ _ _ HP)
      as [[_ Hd] | (c & user & cs & _ & _ & _ & Hr & _)]; [exact Hd|].
    subst r. now elim Hs.
  - unfold Users.GET, run, Users.GET_body.
    destruct (isNull _); [reflexivity|].
    rewrite bind_eq, User_findById_eq.
    destruct (ObjectId.cast id); [|reflexivity].
    now destruct (find _ (users db)).
Qed.

Lemma user_routes_refusal_writes_nothing_witness :
  status (fst (Users.POST (mkUserBody (Some "Al2") (Some "a@x.com")
                                      (IsArray [Sample.t2])) Sample.db)) = 400 /\
  snd (Users.POST (mkUserBody (Some "Al2") (Some "a@x.com")
                              (IsArray [Sample.t2])) Sample.db) = Sample.db /\
  status (fst (Users.DELETE Sample.ghost Sample.db)) = 404 /\
  snd (Users.DELETE Sample.ghost Sample.db) = Sample.db.
Proof.
  destruct (user_routes_refusal_writes_nothing Sample.ghost
              (mkUserBody (Some "Al2") (Some "a@x.com") (IsArray [Sample.t2]))
              noParams Sample.db) as (H1 & H2 & _).
  split; [reflexivity|]. split; [apply H1; vm_compute; discriminate|].
  split; [reflexivity|]. apply H2. vm_compute. discriminate.
Defined.

(** X17.  A PUT /api/users/:id that does not answer 200 leaves every
    user as it was, the pending list of the addressed user included; but it
    is not without effect: each stored task is afterwards either as it was
    or unassigned (the tasks that the request drops from the list are
    unassigned before the ids it adds are checked). *)
Theorem user_update_refused_keeps_users :
  forall (id : string) (b : UserBody) (db : DB),
    status (fst (Users.PUT id b db)) <> 200 ->
    users (snd (Users.PUT id b db)) = users db /\
    forall p t,
      taskById db p = Some t ->
      taskById (snd (Users.PUT id b db)) p = Some t \/
      taskById (snd (Users.PUT id b db)) p
      = Some (assign "" "unassigned" t).
Proof.
  intros id b db Hs.
  destruct (Users.PUT id b db) as [r db'] eqn:HP. simpl in *.
  destruct (Users_PUT_refused _ _ _ _ _ HP Hs)
    as [Hu [Ht | (user & csR & _ & _ & Ht)]].
  - split; [exact Hu|]. intros p t H. left. unfold taskById in *.
    now rewrite Ht.
  - split; [exact Hu|]. intros p t H. unfold taskById in *. rewrite Ht.
    destruct (ObjectId.cast p) as [cp|]; [|discriminate].
    rewrite find_reassign, H. simpl.
    destruct (mem (task_id t) csR); auto.
Qed.

Lemma user_update_refused_keeps_users_witness :
  let b := mkUserBody (Some "Al") (Some "a@x.com") (IsArray [Sample.ghost]) in
  status (fst (Users.PUT Sample.al b Sample.db)) = 404 /\
  users (snd (Users.PUT Sample.al b Sample.db)) = users Sample.db /\
  userById (snd (Users.PUT Sample.al b Sample.db)) Sample.al
  = Some Sample.Al /\
  taskById (snd (Users.PUT Sample.al b Sample.db)) Sample.t1
  = Some (assign "" "unassigned" Sample.T1) /\
  taskById (snd (Users.PUT Sample.al b Sample.db)) Sample.t2
  = Some Sample.T2.
Proof.
  intros b.
  destruct (user_update_refused_keeps_users Sample.al b Sample.db) as [H1 _].
  - vm_compute. discriminate.
  - split; [reflexivity|]. split; [exact H1|]. repeat split.
Defined.

(** X18.  When POST /api/users succeeds with an array of task ids, every
    stored task that a listed id resolves to is afterwards the same task
    assigned to the new user, by id and by name; and every stored user is
    left as it was, also a user whose pending list holds a listed id. *)
Theorem user_create_assigns_listed_tasks :
  forall (b : UserBody) (db : DB) (u : User) (l : list string),
    fst (Users.POST b db) = json 201 "User created" (DUser None u) ->
    ub_pendingTasks b = IsArray l ->
    (forall p t, In p l -> taskById db p = Some t ->
                 taskById (snd (Users.POST b db)) p
                 = Some (assign (user_id u) (user_name u) t)) /\
    (forall q u0, userById db q = Some u0 ->
                  userById (snd (Users.POST b db)) q = Some u0).
Proof.
  intros b db u l Hr Hl.
  destruct (Users.POST b db) as [r db'] eqn:HP. simpl in *.
  destruct (Users_POST_cases _ _ _ _ HP)
    as [[H4 _] | (u1 & Hu1 & _ & Hr1 & Hus & Hne & _)];
    [subst r; discriminate|].
  rewrite Hr in Hr1. inversion Hr1 as [Hu]. clear Hr1. split.
  - intros p t Hp Ht. rewrite Hl in Hne. simpl in Hne.
    destruct l as [|a l']; [destruct Hp|].
    destruct (Hne eq_refl) as (cs & Hcs & Hts).
    unfold taskById in *.
    destruct (ObjectId.cast p) as [cp|] eqn:Hcp; [|discriminate].
    rewrite Hts, find_reassign, Ht. simpl.
    assert (Hm : mem (task_id t) cs = true).
    { apply mem_In, (castAll_In _ _ Hcs). exists p. split; [exact Hp|].
      apply find_some in Ht. destruct Ht as [_ Ht].
      apply String.eqb_eq in Ht. now rewrite Ht. }
    now rewrite Hm.
  - intros q u0. unfold userById. rewrite Hus.
    destruct (ObjectId.cast q); [|discriminate]. apply find_app_some.
Qed.

Lemma user_create_assigns_listed_tasks_witness :
  let b := mkUserBody (Some "Cy") (Some "c@x.com") (IsArray [Sample.t1]) in
  let u := mkUser "000000000000000000000005" "Cy" "c@x.com" [Sample.t1]
                  1700000000001 in
  fst (Users.POST b Sample.db) = json 201 "User created" (DUser None u) /\
  taskById (snd (Users.POST b Sample.db)) Sample.t1
  = Some (assign (user_id u) "Cy" Sample.T1) /\
  userById (snd (Users.POST b Sample.db)) Sample.al = Some Sample.Al /\
  In Sample.t1 (user_pendingTasks Sample.Al).
Proof.
  intros b u.
  destruct (user_create_assigns_listed_tasks b Sample.db u [Sample.t1])
    as [H1 H2]; [reflexivity | reflexivity |].
  split; [reflexivity|]. split; [|split].
  - apply (H1 Sample.t1 Sample.T1); [now left | reflexivity].
  - apply H2. reflexivity.
  - now left.
Defined.

(** X19.  A GET /api/users/:id on the id that POST /api/users answered
    with returns the created document, when that id was the id of no stored
    user. *)
Theorem user_create_then_get :
  forall (b : UserBody) (db : DB) (u : User),
    fst (Users.POST b db) = json 201 "User created" (DUser None u) ->
    userById db (user_id u) = None ->
    Users.GET (user_id u) noParams (snd (Users.POST b db))
    = (json 200 "OK" (DUser None u), snd (Users.POST b db)).
Proof.
  intros b db u Hr Hfresh.
  destruct (Users.POST b db) as [r db'] eqn:HP. simpl in *.
  destruct (Users_POST_cases _ _ _ _ HP)
    as [[H4 _] | (u1 & Hu1 & _ & Hr1 & Hus & _)];
    [subst r; discriminate|].
  rewrite Hr in Hr1. inversion Hr1 as [Hu]. clear Hr1. subst u u1.
  cbn [user_id] in *.
  apply (Users_GET_found _ (ObjectId.generate (nextId db))).
  - apply generate_cast.
  - unfold userById in Hfresh. rewrite generate_cast in Hfresh.
    rewrite Hus, (find_app_last _ _ _ Hfresh).
    unfold hasId_user. cbn [user_id]. now rewrite String.eqb_refl.
Qed.

Lemma user_create_then_get_witness :
  let b := mkUserBody (Some "Cy") (Some "c@x.com") (NotArray JS.Undefined) in
  let u := mkUser "000000000000000000000005" "Cy" "c@x.com" []
                  1700000000001 in
  fst (Users.POST b Sample.db) = json 201 "User created" (DUser None u) /\
  Users.GET (user_id u) noParams (snd (Users.POST b Sample.db))
  = (json 200 "OK" (DUser None u), snd (Users.POST b Sample.db)).
Proof.
  intros b u. split; [reflexivity|].
  apply (user_create_then_get b Sample.db u); reflexivity.
Defined.

(** X20.  The user routes keep the emails of the stored users distinct:
    if no two stored users share an id or an email, then no two share an
    email after POST /api/users, after PUT /api/users/:id and after DELETE
    /api/users/:id, whatever the request and the answer. *)
Theorem user_routes_keep_emails_distinct :
  forall (id : string) (b : UserBody) (db : DB),
    NoDup (map user_id (users db)) ->
    NoDup (map user_email (users db)) ->
    NoDup (map user_email (users (snd (Users.POST b db)))) /\
    NoDup (map user_email (users (snd (Users.PUT id b db)))) /\
    NoDup (map user_email (users (snd (Users.DELETE id db)))).
Proof.
  intros id b db Hid Hem. repeat split.
  - destruct (Users.POST b db) as [r db'] eqn:HP. simpl.
    destruct (Users_POST_cases _ _ _ _ HP)
      as [[_ Hd] | (u & Hu & Hnone & _ & Hus & _)]; [now subst db'|].
    rewrite Hus. apply NoDup_map_snoc; [exact Hem|].
    intros Hin. apply in_map_iff in Hin. destruct Hin as [y [Hy Hin]].
    apply (find_none _ _ Hnone) in Hin. rewrite Hy, Hu in Hin. simpl in Hin.
    now rewrite String.eqb_refl in Hin.
  - destruct (Users.PUT id b db) as [r db'] eqn:HP. simpl.
    destruct (Z.eq_dec (status r) 200) as [Hs|Hs].
    + destruct (Users_PUT_200 _ _ _ _ _ HP Hs)
        as (c & user & csR & csA & _ & _ & Hc & Hu & _ & _ & _ & Hus & _).
      pose proof (Users_PUT_200_email _ _ _ _ _ _ HP Hs Hc) as Hnone.
      destruct (find_hasId_user _ _ _ Hu) as [_ Huid].
      rewrite Hus, Huid.
      apply (NoDup_email_updateFirst c (JS.or_else (ub_email b) "")).
      * now rewrite map_id_pullOthers.
      * now rewrite map_email_pullOthers.
      * intros v Hv Hev. unfold pullOthers in Hv. apply in_map_iff in Hv.
        destruct Hv as [w [Hw Hin]].
        pose proof (find_none _ _ Hnone _ Hin) as Hf. simpl in Hf.
        assert (Hvw : user_email v = user_email w /\ user_id v = user_id w).
        { rewrite <- Hw.
          now destruct (negb (hasId_user c w) && existsb _ _). }
        destruct Hvw as [E1 E2]. rewrite E1 in Hev.
        rewrite Hev, String.eqb_refl in Hf. simpl in Hf.
        apply negb_false_iff in Hf. unfold hasId_user in Hf.
        apply String.eqb_eq in Hf. now rewrite E2.
      * reflexivity.
    + destruct (Users_PUT_refused _ _ _ _ _ HP Hs) as [Hu _].
      now rewrite Hu.
  - destruct (Users.DELETE id db) as [r db'] eqn:HP. simpl.
    destruct (Users_DELETE_cases _ _ _ _ HP)
      as [[_ Hd] | (c & user & cs & _ & _ & _ & _ & _ & Hus)]; [now subst db'|].
    rewrite Hus. now apply NoDup_map_deleteFirst.
Qed.

Lemma user_routes_keep_emails_distinct_witness :
  let b := mkUserBody (Some "Bob") (Some "bob@x.com") (IsArray []) in
  NoDup (map user_id (users Sample.db)) /\
  NoDup (map user_email (users Sample.db)) /\
  status (fst (Users.PUT Sample.bo b Sample.db)) = 200 /\
  NoDup (map user_email (users (snd (Users.PUT Sample.bo b Sample.db)))).
Proof.
  intros b.
  assert (H1 : NoDup (map user_id (users Sample.db)))
    by (vm_compute; repeat constructor; simpl; intuition discriminate).
  assert (H2 : NoDup (map user_email (users Sample.db)))
    by (vm_compute; repeat constructor; simpl; intuition discriminate).
  destruct (user_routes_keep_emails_distinct Sample.bo b Sample.db H1 H2)
    as (_ & H & _).
  split; [exact H1|]. split; [exact H2|]. split; [reflexivity | exact H].
Defined.

(** X21.  A GET /api/users/:id that follows a successful PUT on the same
    id returns the document that the PUT answered with: the name, the email
    and the pending list of the request, under the id and the creation date
    the user had. *)
Theorem user_update_then_get :
  forall (id : string) (b : UserBody) (db : DB) (user : User),
    status (fst (Users.PUT id b db)) = 200 ->
    userById db id = Some user ->
    let saved := mkUser (user_id user) (JS.or_else (ub_name b) "")
                        (JS.or_else (ub_email b) "")
                        (Users.newPendingOf (ub_pendingTasks b))
                        (user_dateCreated user) in
    fst (Users.PUT id b db) = json 200 "User updated" (DUser None saved) /\
    Users.GET id noParams (snd (Users.PUT id b db))
    = (json 200 "OK" (DUser None saved), snd (Users.PUT id b db)).
Proof.
  intros id b db user Hs Huser saved.
  destruct (Users.PUT id b db) as [r db'] eqn:HP. simpl in *.
  destruct (Users_PUT_200 _ _ _ _ _ HP Hs)
    as (c & user0 & csR & csA & _ & _ & Hc & Hu & _ & _ & _ & Hus & Hr).
  unfold userById in Huser. rewrite Hc, Hu in Huser.
  inversion Huser; subst user0. clear Huser.
  destruct (find_hasId_user _ _ _ Hu) as [_ Huid].
  split; [exact Hr|].
  apply (Users_GET_found _ c); [exact Hc|].
  rewrite Hus, Huid.
  assert (Hp : find (hasId_user c)
                    (pullOthers c (toAddOf user b) (users db)) = Some user).
  { rewrite find_pullOthers, Hu. simpl.
    assert (E : hasId_user c user = true)
      by (unfold hasId_user; now rewrite Huid, String.eqb_refl).
    now rewrite E. }
  rewrite (find_updateFirst_same _ (fun _ => replaced user b) _ _ Hp);
    [reflexivity|].
  unfold hasId_user, replaced. simpl. now rewrite Huid, String.eqb_refl.
Qed.

Lemma user_update_then_get_witness :
  let b := mkUserBody (Some "Bob") (Some "bob@x.com") (IsArray [Sample.t1]) in
  let saved := mkUser Sample.bo "Bob" "bob@x.com" [Sample.t1] 1690000000001 in
  status (fst (Users.PUT Sample.bo b Sample.db)) = 200 /\
  fst (Users.PUT Sample.bo b Sample.db)
  = json 200 "User updated" (DUser None saved) /\
  Users.GET Sample.bo noParams (snd (Users.PUT Sample.bo b Sample.db))
  = (json 200 "OK" (DUser None saved), snd (Users.PUT Sample.bo b Sample.db)).
Proof.
  intros b saved. split; [reflexivity|].
  apply (user_update_then_get Sample.bo b Sample.db Sample.Bo); reflexivity.
Defined.

(** X22.  After a PUT /api/users/:id that succeeds, every stored task
    that an id added to the pending list resolves to is the same task with
    [assignedUser] the id of the request and [assignedUserName] the name of
    the request. *)
Theorem user_update_assigns_added_tasks :
  forall (id : string) (b : UserBody) (db : DB) (user : User) (p : string)
         (t : Task),
    status (fst (Users.PUT id b db)) = 200 ->
    userById db id = Some user ->
    In p (Users.newPendingOf (ub_pendingTasks b)) ->
    ~ In p (user_pendingTasks user) ->
    taskById db p = Some t ->
    taskById (snd (Users.PUT id b db)) p
    = Some (assign id (JS.or_else (ub_name b) "") t).
Proof.
  intros id b db user p t Hs Huser Hnew Hold Ht.
  destruct (Users.PUT id b db) as [r db'] eqn:HP. simpl in *.
  destruct (Users_PUT_200 _ _ _ _ _ HP Hs)
    as (c & user0 & csR & csA & _ & _ & Hc & Hu & _ & HcA & Hts & _).
  unfold userById in Huser. rewrite Hc, Hu in Huser.
  inversion Huser; subst user0. clear Huser.
  unfold taskById in *.
  destruct (ObjectId.cast p) as [cp|] eqn:Hcp; [|discriminate].
  rewrite Hts, !find_reassign, Ht. simpl.
  assert (Hid : task_id t = cp).
  { apply find_some in Ht. destruct Ht as [_ Ht].
    now apply String.eqb_eq in Ht. }
  assert (Hm : mem cp csA = true).
  { apply mem_In, (castAll_In _ _ HcA). exists p. split; [|exact Hcp].
    unfold toAddOf. apply filter_In. split; [exact Hnew|].
    apply negb_true_iff. now apply mem_false. }
  destruct (mem (task_id t) csR); simpl; now rewrite Hid, Hm.
Qed.

Lemma user_update_assigns_added_tasks_witness :
  let b := mkUserBody (Some "Bob") (Some "bob@x.com") (IsArray [Sample.t1]) in
  status (fst (Users.PUT Sample.bo b Sample.db)) = 200 /\
  taskById (snd (Users.PUT Sample.bo b Sample.db)) Sample.t1
  = Some (mkTask Sample.t1 "T1" "" 1700000000000 false Sample.bo "Bob").
Proof.
  intros b. split; [reflexivity|].
  apply (user_update_assigns_added_tasks Sample.bo b Sample.db Sample.Bo
           Sample.t1 Sample.T1);
    try reflexivity.
  - now left.
  - simpl. intros [H|[]]. discriminate H.
Defined.

(** X23.  After a DELETE /api/users/:id that succeeds, in a collection
    whose ids are distinct, a GET on the id is answered 404; and whatever
    the answer, every user that another id resolves to is left as it
    was. *)
Theorem user_delete_then_get :
  forall (id q : string) (db : DB),
    (status (fst (Users.DELETE id db)) = 204 ->
     NoDup (map user_id (users db)) ->
     Users.GET id noParams (snd (Users.DELETE id db))
     = (json 404 "Not Found" DEmpty, snd (Users.DELETE id db))) /\
    (ObjectId.cast q <> ObjectId.cast id ->
     userById (snd (Users.DELETE id db)) q = userById db q).
Proof.
  intros id q db.
  destruct (Users.DELETE id db) as [r db'] eqn:HP. simpl.
  destruct (Users_DELETE_cases _ _ _ _ HP)
    as [[H4 Hd] | (c & user & cs & Hc & _ & _ & _ & _ & Hus)].
  - subst db'. split; [|reflexivity].
    intros Hs. destruct H4 as [H4|H4]; rewrite Hs in H4; discriminate.
  - split.
    + intros _ Hnd. apply (Users_GET_absent _ c); [exact Hc|].
      rewrite Hus. now apply find_deleteFirst_same_user.
    + intros Hne. unfold userById. rewrite Hus.
      destruct (ObjectId.cast q) as [cq|]; [|reflexivity].
      apply find_deleteFirst_disjoint. intros x Hx.
      apply (hasId_user_other c); [|exact Hx]. congruence.
Qed.

Lemma user_delete_then_get_witness :
  status (fst (Users.DELETE Sample.al Sample.db)) = 204 /\
  userById Sample.db Sample.al = Some Sample.Al /\
  Users.GET Sample.al noParams (snd (Users.DELETE Sample.al Sample.db))
  = (json 404 "Not Found" DEmpty, snd (Users.DELETE Sample.al Sample.db)) /\
  userById (snd (Users.DELETE Sample.al Sample.db)) Sample.bo
  = Some Sample.Bo.
Proof.
  destruct (user_delete_then_get Sample.al Sample.bo Sample.db) as [H1 H2].
  split; [reflexivity|]. split; [reflexivity|]. split.
  - apply H1; [reflexivity|].
    vm_compute; repeat constructor; simpl; intuition discriminate.
  - apply H2. vm_compute. discriminate.
Defined.

(** X24.  DELETE /api/users/:id answers 500, not 400, to an id that is
    not well formed, and writes nothing: the route does not check the
    format, and the lookup fails on the cast. *)
Theorem delete_user_malformed_id_is_500 :
  forall (id : string) (db : DB),
    ObjectId.isValid id = false ->
    Users.DELETE id db
    = (json 500 "Server error" (DError (CastError id)), db).
Proof.
  intros id db H. unfold Users.DELETE, run, Users.DELETE_body.
  now rewrite bind_eq, User_findById_eq, (not_isValid_cast _ H).
Qed.

Lemma delete_user_malformed_id_is_500_witness :
  ObjectId.isValid "not-an-id" = false /\
  Users.DELETE "not-an-id" Sample.db
  = (json 500 "Server error" (DError (CastError "not-an-id")), Sample.db).
Proof.
  split; [reflexivity|].
  apply (delete_user_malformed_id_is_500 "not-an-id" Sample.db). reflexivity.
Defined.

(* ===================================================================== *)
(** ** The list routes *)
(* ===================================================================== *)

Lemma isNull_parseJSONParam (x : option string) :
  isNull (parseJSONParam x) = true <-> nullParam x.
Proof.
  unfold nullParam, parseJSONParam, JS.truthy_str. split.
  - destruct x as [s|]; [|discriminate].
    destruct (s =? "")%string eqn:E; [discriminate|]. cbn [negb].
    intros H. exists s. apply String.eqb_neq in E.
    split; [reflexivity|]. split; [exact E|].
    destruct (JSON.parse s) as [j|]; [|now left].
    right. destruct j; try discriminate. reflexivity.
  - intros (s & -> & Hs & Hp). apply String.eqb_neq in Hs. rewrite Hs.
    cbn [negb]. now destruct Hp as [-> | ->].
Qed.

Lemma answered_buildListing (w srt sel : parsed)
    (skip limit : option JS.number) (count : bool) :
  answered (buildListing w srt sel skip limit count)
  = isNull w || isNull srt || isNull sel.
Proof.
  unfold buildListing.
  destruct (isNull w || isNull srt || isNull sel); [reflexivity|].
  now destruct count.
Qed.

Lemma isNull_or_parsed (a b : parsed) :
  isNull (or_parsed a b) = negb (truthy_parsed a) && isNull b.
Proof.
  unfold or_parsed. destruct (truthy_parsed a) eqn:E; [|reflexivity].
  destruct a as [|j]; [discriminate|]. now destruct j.
Qed.

(** X25.  GET /api/tasks answers by itself (400) exactly when one of
    [where], [sort], [select] is a non-empty string that is not JSON or is
    the JSON value null.  GET /api/users does so exactly when [where] or
    [sort] is such a string, or when [select] holds no truthy JSON value
    and [filter] is such a string. *)
Theorem list_routes_refuse_exactly_null_parameters :
  forall p : Params,
    (answered (Tasks.GET_list p) = true <->
     nullParam (rq_where p) \/ nullParam (rq_sort p)
     \/ nullParam (rq_select p)) /\
    (answered (Users.GET_list p) = true <->
     nullParam (rq_where p) \/ nullParam (rq_sort p)
     \/ (truthy_parsed (parseJSONParam (rq_select p)) = false
         /\ nullParam (rq_filter p))).
Proof.
  intros p. unfold Tasks.GET_list, Users.GET_list. cbv zeta.
  rewrite !answered_buildListing, isNull_or_parsed, !orb_true_iff,
    andb_true_iff, negb_true_iff, !isNull_parseJSONParam.
  split; tauto.
Qed.

Lemma list_routes_refuse_exactly_null_parameters_witness :
  let p := mkParams (Some "null") None None None None None None in
  let p' := mkParams None None (Some "1e-400") (Some "{bad") None None None in
  JSON.parse "null" = Some JSON.JNull /\
  Tasks.GET_list p
  = Answer (json 400 "Bad Request: malformed JSON in query parameters"
                 DEmpty) /\
  answered (Users.GET_list (mkParams None None (Some "{bad") None
                                     None None None)) = false /\
  JSON.parse "1e-400" = Some (JSON.JNumber 1 (-400)) /\
  answered (Users.GET_list p') = true /\
  answered (Users.GET_list (mkParams None None (Some "1e-300") (Some "{bad")
                                     None None None)) = false.
Proof.
  intros p p'.
  destruct (list_routes_refuse_exactly_null_parameters p) as [[_ H] _].
  destruct (list_routes_refuse_exactly_null_parameters p') as [_ [_ H']].
  split; [reflexivity|]. split; [|split; [reflexivity|]].
  - assert (Ha : answered (Tasks.GET_list p) = true).
    { apply H. left. exists "null".
      repeat split; [discriminate | now right]. }
    reflexivity.
  - split; [reflexivity|]. split; [|vm_compute; reflexivity].
    apply H'. right. right. split; [vm_compute; reflexivity|].
    exists "{bad". repeat split; [discriminate | now left].
Defined.



(* ===================================================================== *)
(** ** What the routes keep *)
(* ===================================================================== *)

Lemma keeps_ret {A} (I : DB -> Prop) (a : A) : keeps I (ret a).
Proof. intros db H. exact H. Qed.

Lemma keeps_respond {A} (I : DB -> Prop) (r : response) :
  keeps I (@respond A r).
Proof. intros db H. exact H. Qed.

Lemma keeps_throw {A} (I : DB -> Prop) (e : error) : keeps I (@throw A e).
Proof. intros db H. exact H. Qed.

Lemma keeps_get (I : DB -> Prop) : keeps I get.
Proof. intros db H. exact H. Qed.

Lemma keeps_bind {A B} (I : DB -> Prop) (m : M A) (f : A -> M B) :
  keeps I m -> (forall a, keeps I (f a)) -> keeps I (bind m f).
Proof.
  intros Hm Hf db H. unfold bind. specialize (Hm db H).
  destruct (m db) as [[a|r|e] db1]; simpl in *; [now apply Hf | auto | auto].
Qed.

Lemma keeps_try_catch {A} (I : DB -> Prop) (m : M A) (h : error -> M A) :
  keeps I m -> (forall e, keeps I (h e)) -> keeps I (try_catch m h).
Proof.
  intros Hm Hh db H. unfold try_catch. specialize (Hm db H).
  destruct (m db) as [[a|r|e] db1]; simpl in *; [auto | auto | now apply Hh].
Qed.

Lemma keeps_when (I : DB -> Prop) (c : bool) (m : M unit) :
  keeps I m -> keeps I (when c m).
Proof. intros Hm. destruct c; [exact Hm | apply keeps_ret]. Qed.

Lemma keeps_run (I : DB -> Prop) (m : M response) (db : DB) :
  keeps I m -> I db -> I (snd (run m db)).
Proof.
  intros Hm H. unfold run. specialize (Hm db H).
  now destruct (m db) as [[a|r|e] db1].
Qed.

Lemma keeps_castId (I : DB -> Prop) (id : string) : keeps I (castId id).
Proof.
  unfold castId. destruct (ObjectId.cast id);
    [apply keeps_ret | apply keeps_throw].
Qed.

Lemma keeps_castIds (I : DB -> Prop) (ids : list string) :
  keeps I (castIds ids).
Proof.
  unfold castIds. destruct (ObjectId.castAll ids);
    [apply keeps_ret | apply keeps_throw].
Qed.

#[global] Hint Resolve keeps_ret keeps_respond keeps_throw keeps_get
  keeps_bind keeps_try_catch keeps_when keeps_castId keeps_castIds : keeps.
#[global] Hint Extern 3 (keeps _ (match ?x with _ => _ end)) =>
  destruct x : keeps.

Lemma keeps_Task_findById (I : DB -> Prop) (id : string) :
  keeps I (Task_findById id).
Proof. unfold Task_findById. auto with keeps. Qed.

Lemma keeps_User_findById (I : DB -> Prop) (id : string) :
  keeps I (User_findById id).
Proof. unfold User_findById. auto with keeps. Qed.

Lemma keeps_User_findOne_email (I : DB -> Prop) (email : string) :
  keeps I (User_findOne_email email).
Proof. unfold User_findOne_email. auto with keeps. Qed.

Lemma keeps_User_findOne_email_ne (I : DB -> Prop) (email id : string) :
  keeps I (User_findOne_email_ne email id).
Proof. unfold User_findOne_email_ne. auto with keeps. Qed.

Lemma keeps_Task_find_in (I : DB -> Prop) (ids : list string) :
  keeps I (Task_find_in ids).
Proof. unfold Task_find_in. auto with keeps. Qed.

#[global] Hint Resolve keeps_Task_findById keeps_User_findById
  keeps_User_findOne_email keeps_User_findOne_email_ne keeps_Task_find_in
  : keeps.

(** A write that follows a cast of the id. *)
Lemma keeps_cast_write (I : DB -> Prop) (id : string) (w : string -> DB -> DB) :
  (forall c db, I db -> I (w c db)) ->
  keeps I (c <- castId id ;; db <- get ;; put (w c db)).
Proof.
  intros Hw db H. rewrite bind_eq, castId_eq.
  destruct (ObjectId.cast id); [|exact H]. simpl. now apply Hw.
Qed.

Section TaskRoutes.
Variable I : DB -> Prop.
Hypothesis I_tasks : forall db ts n, I db -> I (mkDB ts (users db) n (now db)).
Hypothesis I_push :
  forall db c t, I db -> I (set_users db (pushTo c t (users db))).
Hypothesis I_pull :
  forall db c t, I db -> I (set_users db (pullFrom c t (users db))).

Lemma keeps_addTaskToUser (u t : string) : keeps I (Tasks.addTaskToUser u t).
Proof.
  unfold Tasks.addTaskToUser, User_updateOne_push.
  destruct (negb (JS.truthy_str u)); [apply keeps_ret|].
  apply (keeps_cast_write I u
           (fun c db => set_users db (pushTo c t (users db)))).
  intros c db. apply I_push.
Qed.

Lemma keeps_removeTaskFromUser (u t : string) :
  keeps I (Tasks.removeTaskFromUser u t).
Proof.
  unfold Tasks.removeTaskFromUser, User_updateOne_pull.
  destruct (negb (JS.truthy_str u)); [apply keeps_ret|].
  apply (keeps_cast_write I u
           (fun c db => set_users db (pullFrom c t (users db)))).
  intros c db. apply I_pull.
Qed.

Lemma keeps_Task_create (n d : string) (dl : option Z) (c : bool)
    (au aun : string) :
  keeps I (Task_create n d dl c au aun).
Proof.
  intros db H.
  destruct dl; [rewrite Task_create_eq | rewrite Task_create_fail]; simpl;
    now apply (I_tasks db).
Qed.

Lemma keeps_Task_save (task : Task) (n d : string) (dl : option Z) (c : bool)
    (au aun : string) :
  keeps I (Task_save task n d dl c au aun).
Proof.
  intros db H. rewrite Task_save_eq.
  destruct dl; simpl; [now apply (I_tasks db) | exact H].
Qed.

Lemma keeps_Task_deleteOne (id : string) : keeps I (Task_deleteOne id).
Proof.
  unfold Task_deleteOne.
  apply (keeps_cast_write I id
           (fun c db => set_tasks db (deleteFirst (hasId_task c) (tasks db)))).
  intros c db. apply (I_tasks db).
Qed.

Lemma task_routes_keep (id : string) (b : TaskBody) (db : DB) :
  I db ->
  I (snd (Tasks.POST b db)) /\ I (snd (Tasks.PUT id b db))
  /\ I (snd (Tasks.DELETE id db)).
Proof.
  pose proof keeps_addTaskToUser. pose proof keeps_removeTaskFromUser.
  pose proof keeps_Task_create. pose proof keeps_Task_save.
  pose proof keeps_Task_deleteOne.
  intros HI. unfold Tasks.POST, Tasks.PUT, Tasks.DELETE.
  repeat split; apply keeps_run; try exact HI.
  - unfold Tasks.POST_body. cbv zeta. auto 40 with keeps.
  - unfold Tasks.PUT_body. cbv zeta. auto 40 with keeps.
  - unfold Tasks.DELETE_body. auto 40 with keeps.
Qed.

End TaskRoutes.

Section UserRoutes.
Variable I : DB -> Prop.
Hypothesis I_users : forall db us n, I db -> I (mkDB (tasks db) us n (now db)).
Hypothesis I_reassign :
  forall db cs au aun, I db -> I (set_tasks db (reassign cs au aun (tasks db))).

Lemma keeps_Task_updateMany_in (ids : list string) (au aun : string) :
  keeps I (Task_updateMany_in ids au aun).
Proof.
  intros db H. rewrite Task_updateMany_in_eq.
  destruct (ObjectId.castAll ids); simpl; [now apply I_reassign | exact H].
Qed.

Lemma keeps_User_updateMany_pull (id : string) (ids : list string) :
  keeps I (User_updateMany_pull id ids).
Proof.
  intros db H. rewrite User_updateMany_pull_eq.
  destruct (ObjectId.cast id); simpl; [now apply (I_users db) | exact H].
Qed.

Lemma keeps_User_create (n e : string) (l : list string) :
  keeps I (User_create n e l).
Proof. intros db H. rewrite User_create_eq. simpl. now apply (I_users db). Qed.

Lemma keeps_User_save (u : User) (n e : string) (l : list string) :
  keeps I (User_save u n e l).
Proof. intros db H. rewrite User_save_eq. simpl. now apply (I_users db). Qed.

Lemma keeps_User_deleteOne (id : string) : keeps I (User_deleteOne id).
Proof.
  intros db H. rewrite User_deleteOne_eq.
  destruct (ObjectId.cast id); simpl; [now apply (I_users db) | exact H].
Qed.

Lemma user_routes_keep (id : string) (b : UserBody) (db : DB) :
  I db ->
  I (snd (Users.POST b db)) /\ I (snd (Users.PUT id b db))
  /\ I (snd (Users.DELETE id db)).
Proof.
  pose proof keeps_Task_updateMany_in. pose proof keeps_User_updateMany_pull.
  pose proof keeps_User_create. pose proof keeps_User_save.
  pose proof keeps_User_deleteOne.
  intros HI. unfold Users.POST, Users.PUT, Users.DELETE.
  repeat split; apply keeps_run; try exact HI.
  - unfold Users.POST_body. cbv zeta. auto 40 with keeps.
  - unfold Users.PUT_body. cbv zeta. auto 40 with keeps.
  - unfold Users.DELETE_body. auto 40 with keeps.
Qed.

End UserRoutes.

Lemma map_updateFirst_inv {A B} (g : A -> B) (p : A -> bool) (f : A -> A)
    (l : list A) :
  (forall x, g (f x) = g x) -> map g (updateFirst p f l) = map g l.
Proof.
  intros H. induction l as [|x l IH]; simpl; [reflexivity|].
  destruct (p x); simpl; [now rewrite H | now rewrite IH].
Qed.

Lemma Forall_updateFirst {A} (P : A -> Prop) (p : A -> bool) (f : A -> A)
    (l : list A) :
  (forall x, P x -> p x = true -> P (f x)) ->
  Forall P l -> Forall P (updateFirst p f l).
Proof.
  intros H. induction 1 as [|x l Hx Hl IH]; simpl; [constructor|].
  destruct (p x) eqn:E; constructor; auto.
Qed.

Lemma NoDup_snoc (t : string) (l : list string) :
  NoDup l -> ~ In t l -> NoDup (l ++ [t])%list.
Proof.
  intros Hd Hn. rewrite <- (map_id (l ++ [t])%list).
  apply NoDup_map_snoc; now rewrite map_id.
Qed.

(** X27.  The task routes change nothing of a user but its pending list,
    and they create and delete no user: whatever POST /api/tasks, PUT
    /api/tasks/:id and DELETE /api/tasks/:id are sent and whatever they
    answer, the stored users are afterwards the same users, in the same
    order, up to their pending lists. *)
Theorem task_routes_touch_only_pending_lists :
  forall (id : string) (b : TaskBody) (db : DB),
    let others (d : DB) := map (fun u => set_pending u []) (users d) in
    others (snd (Tasks.POST b db)) = others db /\
    others (snd (Tasks.PUT id b db)) = others db /\
    others (snd (Tasks.DELETE id db)) = others db.
Proof.
  intros id b db others.
  apply (task_routes_keep (fun d => others d = others db)).
  - intros d ts n H. exact H.
  - intros d c t H. rewrite <- H. unfold others, pushTo. simpl.
    now apply map_updateFirst_inv.
  - intros d c t H. rewrite <- H. unfold others, pullFrom. simpl.
    now apply map_updateFirst_inv.
  - reflexivity.
Qed.

(** X28.  The task routes keep the pending lists free of duplicates: if
    no stored user holds an id twice, none does after POST /api/tasks, PUT
    /api/tasks/:id or DELETE /api/tasks/:id, whatever the request and the
    answer. *)
Theorem task_routes_keep_pending_lists_duplicate_free :
  forall (id : string) (b : TaskBody) (db : DB),
    Forall (fun u => NoDup (user_pendingTasks u)) (users db) ->
    Forall (fun u => NoDup (user_pendingTasks u))
           (users (snd (Tasks.POST b db))) /\
    Forall (fun u => NoDup (user_pendingTasks u))
           (users (snd (Tasks.PUT id b db))) /\
    Forall (fun u => NoDup (user_pendingTasks u))
           (users (snd (Tasks.DELETE id db))).
Proof.
  intros id b db.
  apply (task_routes_keep
           (fun d => Forall (fun u => NoDup (user_pendingTasks u)) (users d))).
  - intros d ts n H. exact H.
  - intros d c t H. simpl. unfold pushTo. apply Forall_updateFirst; [|exact H].
    intros u Hu Hp. simpl. apply andb_true_iff in Hp. destruct Hp as [_ Hp].
    apply negb_true_iff in Hp. apply NoDup_snoc; [exact Hu|].
    now apply mem_false.
  - intros d c t H. simpl. unfold pullFrom. apply Forall_updateFirst; [|exact H].
    intros u Hu _. simpl. now apply NoDup_filter.
Qed.

Lemma task_routes_keep_pending_lists_duplicate_free_witness :
  let b := Sample.taskBody (Some "T1") (Some Sample.al) None in
  Forall (fun u => NoDup (user_pendingTasks u)) (users Sample.db) /\
  status (fst (Tasks.PUT Sample.t1 b Sample.db)) = 200 /\
  In Sample.t1 (user_pendingTasks Sample.Al) /\
  Forall (fun u => NoDup (user_pendingTasks u))
         (users (snd (Tasks.PUT Sample.t1 b Sample.db))).
Proof.
  intros b.
  assert (H : Forall (fun u => NoDup (user_pendingTasks u)) (users Sample.db))
    by (vm_compute; repeat constructor; simpl; intuition discriminate).
  destruct (task_routes_keep_pending_lists_duplicate_free Sample.t1 b
              Sample.db H) as (_ & H2 & _).
  split; [exact H|]. split; [reflexivity|]. split; [now left | exact H2].
Defined.

(** X29.  The user routes change nothing of a task but [assignedUser] and
    [assignedUserName], and they create and delete no task: whatever POST
    /api/users, PUT /api/users/:id and DELETE /api/users/:id are sent and
    whatever they answer, the stored tasks are afterwards the same tasks,
    in the same order, up to these two fields. *)
Theorem user_routes_touch_only_task_assignment :
  forall (id : string) (b : UserBody) (db : DB),
    let others (d : DB) := map (assign "" "") (tasks d) in
    others (snd (Users.POST b db)) = others db /\
    others (snd (Users.PUT id b db)) = others db /\
    others (snd (Users.DELETE id db)) = others db.
Proof.
  intros id b db others.
  apply (user_routes_keep (fun d => others d = others db)).
  - intros d us n H. exact H.
  - intros d cs au aun H. rewrite <- H. unfold others, reassign. simpl.
    rewrite map_map. apply map_ext. intros t.
    now destruct (mem (task_id t) cs).
  - reflexivity.
Qed.
